(** * AI_AGENTS: the system monitoring agent and the Bitcoin price agent

    A shallow embedding of [System_Agents.py] and [Bitcoin_price.py].

    Both scripts are sequential Python programs whose observable behaviour
    is what they print and, for the monitor, the [is_monitoring] flag.  The
    embedding keeps the data as Python has it: CPU readings are IEEE 754
    binary64 floats (the [spec_float] model of the standard library at
    precision 53), the threshold is a number, int or float, byte counts and
    intervals are unbounded integers, and the dictionary returned by
    [get_system_info] is a finite map with string keys.  Calls into the
    operating system, the clock, the network and other threads are inputs
    of the model, and so are the exceptions that reach [monitor_cpu]
    outside its [try] block. *)

From Stdlib Require Import ZArith List String Bool Lia.
From Stdlib Require Import Floats.SpecFloat.
From stdpp Require Import base gmap strings list pretty.

Set Warnings "-register-all".
Open Scope Z_scope.

(** * The parts of the Python runtime the scripts rely on *)
Module Py.

(** ** Floats: binary64 *)

Definition prec : Z := 53.
Definition emax : Z := 1024.

Definition float := spec_float.

(** [x < y], [x == y], [x - y] on floats.  Comparisons with a NaN are
    false. *)
Definition float_lt (x y : float) : bool := SFltb x y.
Definition float_eq (x y : float) : bool := SFeqb x y.
Definition float_sub (x y : float) : float := SFsub prec emax x y.

(** [x > y] is evaluated as [y < x]. *)
Definition float_gt (x y : float) : bool := float_lt y x.

(** [0 < x]: a positive finite float or plus infinity. *)
Definition float_pos (x : float) : bool := float_lt (S754_zero false) x.

(** A float the runtime can hold: the mantissa is canonical for its
    exponent and the exponent is in range. *)
Definition is_float (x : float) : bool := valid_binary prec emax x.

(** The float nearest to the integer [n], ties to even; plus or minus
    infinity when [n] is beyond the range of floats. *)
Definition float_of_int (n : Z) : float := binary_normalize prec emax n 0 false.

(** ** Exceptions *)

Inductive exc_class :=
  | KeyboardInterrupt   (* BaseException, not an Exception *)
  | SystemExit          (* BaseException, not an Exception *)
  | RequestException    (* requests.exceptions.RequestException and subclasses *)
  | KeyError
  | TypeError
  | ValueError
  | ZeroDivisionError
  | OverflowError
  | OSError
  | RuntimeError.

Record exn := Exn { exn_class : exc_class; exn_str : string }.

(** [isinstance(e, Exception)]: everything but the two classes that derive
    from [BaseException] directly. *)
Definition isinstance_Exception (e : exn) : bool :=
  match exn_class e with
  | KeyboardInterrupt | SystemExit => false
  | _ => true
  end.

Definition isinstance_KeyboardInterrupt (e : exn) : bool :=
  match exn_class e with KeyboardInterrupt => true | _ => false end.

Definition isinstance_RequestException (e : exn) : bool :=
  match exn_class e with RequestException => true | _ => false end.

Definition isinstance_KeyError (e : exn) : bool :=
  match exn_class e with KeyError => true | _ => false end.

(** The result of evaluating an expression or a call: a value, or a raised
    exception. *)
Inductive result (A : Type) :=
  | Ok (a : A)
  | Raise (e : exn).
Arguments Ok {A} a.
Arguments Raise {A} e.

(** Sequencing: the first exception raised ends the evaluation.  With these
    instances [x ← r; k] reads "evaluate [r], name its value [x], go on
    with [k]". *)
#[global] Instance result_ret : MRet result := fun A a => Ok a.
#[global] Instance result_bind : MBind result := fun A B k r =>
  match r with
  | Ok a => k a
  | Raise e => Raise e
  end.

(** ** Numbers: an int or a float

    A float is compared with an int exactly, without converting the int;
    in arithmetic the int is converted to a float first, which fails for an
    int beyond the range of floats. *)

Inductive num :=
  | Int (n : Z)
  | Float (f : float).

(** A number the runtime can hold: any int, a float that is one. *)
Definition is_num (t : num) : bool :=
  match t with
  | Int _ => true
  | Float f => is_float f
  end.

(** The exact order of a float and an int; a NaN has none. *)
Definition float_compare_int (x : float) (n : Z) : option comparison :=
  match x with
  | S754_nan => None
  | S754_infinity s => Some (if s then Lt else Gt)
  | S754_zero _ => Some (0 ?= n)
  | S754_finite s m e =>
      let v := if s then Zneg m else Zpos m in
      Some (match e with
            | Zneg p => v ?= n * 2 ^ Zpos p
            | _ => v * 2 ^ e ?= n
            end)
  end.

(** [x > t] and [x == t] for a float [x] and a number [t]. *)
Definition num_gt (x : float) (t : num) : bool :=
  match t with
  | Float f => float_gt x f
  | Int n => match float_compare_int x n with Some Gt => true | _ => false end
  end.

Definition num_eq (x : float) (t : num) : bool :=
  match t with
  | Float f => float_eq x f
  | Int n => match float_compare_int x n with Some Eq => true | _ => false end
  end.

(** The int operand of a float operation, converted. *)
Definition to_float (n : Z) : result float :=
  match float_of_int n with
  | S754_infinity _ => Raise (Exn OverflowError "int too large to convert to float")
  | f => Ok f
  end.

(** [x - t] for a float [x] and a number [t]. *)
Definition num_sub (x : float) (t : num) : result float :=
  match t with
  | Float f => Ok (float_sub x f)
  | Int n => f ← to_float n; Ok (float_sub x f)
  end.

(** ** Values *)

Inductive pyval :=
  | PyNone
  | PyBool (b : bool)
  | PyInt (z : Z)
  | PyFloat (f : float)
  | PyStr (s : string)
  | PyList (l : list pyval)
  | PyDict (d : gmap string pyval).

(** [d[k]] on a dict: [KeyError] when the key is absent (its message is the
    repr of the key). *)
Definition dict_getitem (d : gmap string pyval) (k : string) : result pyval :=
  match d !! k with
  | Some v => Ok v
  | None => Raise (Exn KeyError ("'" ++ k ++ "'"))
  end.

(** [v[k]] with a string key [k] on an arbitrary value: only a dict can be
    indexed by a string. *)
Definition getitem (v : pyval) (k : string) : result pyval :=
  match v with
  | PyDict d => dict_getitem d k
  | PyList _ => Raise (Exn TypeError "list indices must be integers or slices, not str")
  | PyStr _ => Raise (Exn TypeError "string indices must be integers, not 'str'")
  | PyNone => Raise (Exn TypeError "'NoneType' object is not subscriptable")
  | PyBool _ => Raise (Exn TypeError "'bool' object is not subscriptable")
  | PyInt _ => Raise (Exn TypeError "'int' object is not subscriptable")
  | PyFloat _ => Raise (Exn TypeError "'float' object is not subscriptable")
  end.

(** The value of a number. *)
Definition num_value (t : num) : pyval :=
  match t with
  | Int n => PyInt n
  | Float f => PyFloat f
  end.

(** [str(v)], the text an f-string puts for [{v}]: spelled out for [None],
    booleans, ints and strings; [builtin_str] stands for the runtime's
    conversion of the other values (the shortest decimal that reads back
    as the float, the elements of a list or dict). *)
Definition str_of (builtin_str : pyval -> string) (v : pyval) : string :=
  match v with
  | PyNone => "None"
  | PyBool b => if b then "True" else "False"
  | PyInt n => pretty n
  | PyStr s => s
  | PyFloat _ | PyList _ | PyDict _ => builtin_str v
  end.

(** ** True division of integers

    [a / b] on two ints is the quotient rounded once to the nearest float
    (ties to even).  [SFdiv] on the two integers, taken as mantissas at
    exponent 0, computes exactly that. *)
Definition int_truediv (a b : Z) : result float :=
  match b with
  | Z0 => Raise (Exn ZeroDivisionError "division by zero")
  | _ =>
    match a with
    | Z0 => Ok (S754_zero (b <? 0))
    | _ =>
      match SFdiv prec emax (S754_finite (a <? 0) (Z.to_pos (Z.abs a)) 0)
                            (S754_finite (b <? 0) (Z.to_pos (Z.abs b)) 0) with
      | S754_infinity _ =>
          Raise (Exn OverflowError "integer division result too large for a float")
      | q => Ok q
      end
    end
  end.

(** [x / y] where the script divides a looked-up value by an int. *)
Definition truediv (x : pyval) (b : Z) : result float :=
  match x with
  | PyInt a => int_truediv a b
  | PyBool a => int_truediv (if a then 1 else 0) b
  | PyFloat f =>
      match b with
      | Z0 => Raise (Exn ZeroDivisionError "float division by zero")
      | _ => Ok (SFdiv prec emax f (float_of_int b))
      end
  | _ => Raise (Exn TypeError "unsupported operand type(s) for /")
  end.

(** ** The format specification [.1f]

    The float is rounded to one digit after the point from its exact binary
    value, ties to even. *)

(** [n / d] rounded to the nearest integer, ties to even ([0 < d]). *)
Definition round_half_even (n d : Z) : Z :=
  let q := n / d in
  match (2 * (n mod d)) ?= d with
  | Lt => q
  | Gt => q + 1
  | Eq => if Z.even q then q else q + 1
  end.

(** The magnitude of a finite float in tenths, rounded: [|x| * 10]. *)
Definition tenths (m : positive) (e : Z) : Z :=
  match e with
  | Zneg p => round_half_even (Zpos m * 10) (2 ^ Zpos p)
  | _ => Zpos m * 2 ^ e * 10
  end.

(** [n] tenths is a nearest tenth of the magnitude [m * 2^e]: the two
    differ by at most half a tenth. *)
Definition nearest_tenth (m : positive) (e : Z) (n : Z) : Prop :=
  match e with
  | Zneg p => Z.abs (2 * (Zpos m * 10) - 2 * n * 2 ^ Zpos p) <= 2 ^ Zpos p
  | _ => n = Zpos m * 2 ^ e * 10
  end.

Definition sign_str (s : bool) : string := if s then "-" else "".

Definition format_1f (x : float) : string :=
  match x with
  | S754_nan => "nan"
  | S754_infinity s => sign_str s ++ "inf"
  | S754_zero s => sign_str s ++ "0.0"
  | S754_finite s m e =>
      let t := tenths m e in
      sign_str s ++ pretty (t / 10) ++ "." ++ pretty (t mod 10)
  end.

(** [n / d] to one decimal place: the nearest tenth, ties to even, written
    with one digit after the point ([0 <= n], [0 < d]). *)
Definition one_decimal (n d : Z) : string :=
  let t := round_half_even (n * 10) d in
  pretty (t / 10) ++ "." ++ pretty (t mod 10).

(** The number a [.1f] rendering shows, in tenths and with its sign. *)
Definition shown_tenths (x : float) : option Z :=
  match x with
  | S754_zero _ => Some 0
  | S754_finite s m e => Some (if s then - tenths m e else tenths m e)
  | _ => None
  end.

(** The float [n / 10^k] written as a decimal literal would denote, for
    writing sample values such as [10.1]. *)
Definition decimal (n : Z) (k : nat) : float :=
  match int_truediv n (10 ^ Z.of_nat k) with
  | Ok f => f
  | Raise _ => S754_nan
  end.

End Py.

(** * System_Agents.py *)
Module System_Agents.
Import Py.

(** ** What psutil, the clock and other threads supply *)

(** [psutil.cpu_freq()], [psutil.virtual_memory()], [psutil.disk_usage(path)] *)
Record scpufreq := { current : float; min : float; max : float }.
Record svmem :=
  { total : Z; available : Z; percent : float; used : Z; free : Z }.
Record sdiskusage :=
  { disk_total : Z; disk_used : Z; disk_free : Z; disk_percent : float }.

(** One reading of the host.  Each query returns or raises;
    [psutil.cpu_count()] and [psutil.cpu_freq()] may return [None]. *)
Record host := {
  cpu_count : result (option Z);
  cpu_freq : result (option scpufreq);
  virtual_memory : result svmem;
  disk_usage : string -> result sdiskusage
}.

(** Where a call of [stop_monitoring] made by another thread lands in a
    cycle of the loop: while the sample is measured, or after the cycle's
    lines are printed (in practice, during the sleep). *)
Inductive stop_point := In_sample | In_sleep.

(** What one iteration of the loop meets.  Inside the loop an exception
    arises in a call: the sample read, the subtraction of an alert, the
    sleep; one delivered at another point of the body is caught by the
    same handlers and is taken to arrive in the blocking call next to
    it. *)
Record cycle := {
  sample : result float;      (* psutil.cpu_percent(interval=1) *)
  clock : string;             (* datetime.now().strftime("%Y-%m-%d %H:%M:%S") *)
  wakeup : result unit;       (* how the blocking time.sleep ends *)
  stop : option stop_point    (* a concurrent stop_monitoring() *)
}.

(** An exception can also reach [monitor_cpu] outside its [try] block:
    while the three statements before [try:] run (a Ctrl+C delivered
    there, a [print] that fails), or while a handler runs its two
    statements.  The point names the statement that is cut short. *)
Inductive entry_point :=
  | At_flag            (* self.is_monitoring = True *)
  | At_start_line      (* print(f"Starting CPU monitoring ...") *)
  | At_hint_line.      (* print("Press Ctrl+C to stop monitoring") *)

Inductive handler_point :=
  | At_closing_line    (* the print of the handler *)
  | At_clear.          (* self.is_monitoring = False *)

Record arrivals := {
  on_entry : option (entry_point * exn);
  on_handler : option (handler_point * exn)
}.

(** Nothing arrives outside the [try] block. *)
Definition undisturbed : arrivals :=
  {| on_entry := None; on_handler := None |}.

(** The longest sleep in seconds: the length is converted to nanoseconds
    in a signed 64-bit integer. *)
Definition sleep_max : Z := 9223372036.

(** [time.sleep(secs)] for an int: a length that does not fit the
    nanosecond clock raises [OverflowError], a negative length raises
    [ValueError], both at once; otherwise the call blocks and ends as the
    environment has it. *)
Definition time_sleep (secs : Z) (w : result unit) : result unit :=
  if (secs <? - sleep_max) || (sleep_max <? secs) then
    Raise (Exn OverflowError "timestamp too large to convert to C _PyTime_t")
  else if secs <? 0 then
    Raise (Exn ValueError "sleep length must be non-negative")
  else w.

(** ** The agent

    [cpu_threshold] is a number: the docstring has a float, the default 75
    and the 10 of [main] are ints.  [check_interval] is an int. *)

Record SystemMonitorAgent := {
  cpu_threshold : num;
  check_interval : Z;
  is_monitoring : bool
}.

Definition set_is_monitoring (b : bool) (self : SystemMonitorAgent) :=
  {| cpu_threshold := cpu_threshold self;
     check_interval := check_interval self;
     is_monitoring := b |}.

(** ** Output

    One constructor per [print] call of the script, carrying the values
    its f-string interpolates. *)
Inductive printed :=
  (* __init__ *)
  | Init_banner
  | Init_threshold (t : num)
  | Init_interval (i : Z)
  (* monitor_cpu *)
  | Cpu_start (t : num)
  | Cpu_hint
  | Cpu_normal (time : string) (cpu_usage : float)
  | Cpu_interrupted
  | Cpu_error (e : exn)
  (* alert_high_cpu *)
  | Alert_rule_top
  | Alert_head
  | Alert_time (timestamp : string)
  | Alert_usage (cpu_usage : float) (t : num)
  | Alert_excess (excess : float)
  | Alert_rule_bottom
  (* monitor_memory *)
  | Mem_head (time : string)
  | Mem_total (gb : float)
  | Mem_available (gb : float)
  | Mem_used (pct : float)
  | Mem_free (gb : float)
  (* stop_monitoring *)
  | Stop_done
  (* monitor_system *)
  | Sys_start
  | Sys_head
  | Sys_cores (v : pyval)
  | Sys_frequency (v : pyval)
  | Sys_total_memory (gb : float)
  | Sys_total_disk (gb : float)
  (* main *)
  | Main_title
  | Main_rule.

(** The pieces of a printed line: literal text, a value under its default
    formatting, an exception under [str], a float under [.1f]. *)
Inductive frag :=
  | Lit (s : string)
  | Str (v : pyval)
  | Str_exn (e : exn)
  | Fix1 (x : float).

(** ['c' * n] *)
Fixpoint str_mul (c : string) (n : nat) : string :=
  match n with
  | O => ""
  | S n' => c ++ str_mul c n'
  end.

Definition newline : string := String (Ascii.ascii_of_nat 10) EmptyString.

(** The f-string of each [print] call. *)
Definition text_of (p : printed) : list frag :=
  match p with
  | Init_banner => [Lit "SystemMonitorAgent initialized:"]
  | Init_threshold t => [Lit "  - CPU Threshold: "; Str (num_value t); Lit "%"]
  | Init_interval i => [Lit "  - Check Interval: "; Str (PyInt i); Lit " seconds"]
  | Cpu_start t =>
      [Lit "Starting CPU monitoring (threshold: "; Str (num_value t); Lit "%)..."]
  | Cpu_hint => [Lit "Press Ctrl+C to stop monitoring"]
  | Cpu_normal time cpu_usage =>
      [Lit "["; Str (PyStr time); Lit "] CPU usage normal: "; Fix1 cpu_usage; Lit "%"]
  | Cpu_interrupted => [Lit newline; Lit "Monitoring stopped by user"]
  | Cpu_error e => [Lit "Error during monitoring: "; Str_exn e]
  | Alert_rule_top => [Lit newline; Lit (str_mul "=" 60)]
  | Alert_head => [Lit "ALERT: High CPU Usage Detected!"]
  | Alert_time timestamp => [Lit "Time: "; Str (PyStr timestamp)]
  | Alert_usage cpu_usage t =>
      [Lit "CPU Usage: "; Fix1 cpu_usage; Lit "% (Threshold: "; Str (num_value t);
       Lit "%)"]
  | Alert_excess excess => [Lit "Excess: "; Fix1 excess; Lit "% above threshold"]
  | Alert_rule_bottom => [Lit (str_mul "=" 60); Lit newline]
  | Mem_head time => [Lit "["; Str (PyStr time); Lit "] Memory Status:"]
  | Mem_total gb => [Lit "  - Total: "; Fix1 gb; Lit " GB"]
  | Mem_available gb => [Lit "  - Available: "; Fix1 gb; Lit " GB"]
  | Mem_used pct => [Lit "  - Used: "; Fix1 pct; Lit "%"]
  | Mem_free gb => [Lit "  - Free: "; Fix1 gb; Lit " GB"]
  | Stop_done => [Lit "Monitoring agent stopped"]
  | Sys_start => [Lit "Starting comprehensive system monitoring..."]
  | Sys_head => [Lit "System Information:"]
  | Sys_cores v => [Lit "  - CPU Cores: "; Str v]
  | Sys_frequency v => [Lit "  - CPU Frequency: "; Str v; Lit " MHz"]
  | Sys_total_memory gb => [Lit "  - Total Memory: "; Fix1 gb; Lit " GB"]
  | Sys_total_disk gb => [Lit "  - Total Disk: "; Fix1 gb; Lit " GB"]
  | Main_title => [Lit "System Monitoring AI Agent"]
  | Main_rule => [Lit (str_mul "=" 40)]
  end.

(** The text of a piece and of a printed line: the pieces, each under its
    formatting, one after the other. *)
Definition frag_text (builtin_str : pyval -> string) (f : frag) : string :=
  match f with
  | Lit s => s
  | Str v => str_of builtin_str v
  | Str_exn e => exn_str e
  | Fix1 x => format_1f x
  end.

Definition line_text (builtin_str : pyval -> string) (p : printed) : string :=
  foldr String.append "" (frag_text builtin_str <$> text_of p).

(** ** Methods *)

(** [SystemMonitorAgent(cpu_threshold, check_interval)].  The constructor
    has no [raise] and calls nothing that can fail on these arguments: it
    is given the type of a call that may raise so that its success is a
    statement. *)
Definition __init__ (cpu_threshold : num) (check_interval : Z)
  : list printed * result SystemMonitorAgent :=
  ([Init_banner; Init_threshold cpu_threshold; Init_interval check_interval],
   Ok {| cpu_threshold := cpu_threshold;
         check_interval := check_interval;
         is_monitoring := false |}).

(** [alert_high_cpu]: the excess is evaluated when its line is printed,
    after the four lines before it. *)
Definition alert_high_cpu (self : SystemMonitorAgent) (cpu_usage : float)
    (timestamp : string) : list printed * result unit :=
  let o :=
    [Alert_rule_top;
     Alert_head;
     Alert_time timestamp;
     Alert_usage cpu_usage (cpu_threshold self)] in
  match num_sub cpu_usage (cpu_threshold self) with
  | Raise e => (o, Raise e)
  | Ok excess => (o ++ [Alert_excess excess; Alert_rule_bottom], Ok ())
  end.

(** The [if] statement of the loop body: the alert, or the line of a
    normal reading. *)
Definition evaluate (self : SystemMonitorAgent) (cpu_usage : float)
    (current_time : string) : list printed * result unit :=
  if num_gt cpu_usage (cpu_threshold self)
  then alert_high_cpu self cpu_usage current_time
  else ([Cpu_normal current_time cpu_usage], Ok ()).

Definition stop_monitoring (self : SystemMonitorAgent)
  : list printed * SystemMonitorAgent :=
  ([Stop_done], set_is_monitoring false self).

(** A [stop_monitoring] of another thread, if one lands at point [here]. *)
Definition concurrent_stop (here : stop_point) (c : cycle)
    (self : SystemMonitorAgent) : list printed * SystemMonitorAgent :=
  match stop c, here with
  | Some In_sample, In_sample | Some In_sleep, In_sleep => stop_monitoring self
  | _, _ => ([], self)
  end.

(** How the [while] statement of [monitor_cpu] is left. *)
Inductive loop_exit :=
  | Condition_false          (* [self.is_monitoring] read as false *)
  | Raised (e : exn)         (* an exception leaves the loop body *)
  | Awaiting.                (* the script of cycles is used up: still looping *)

Record looped := {
  loop_out : list printed;
  loop_self : SystemMonitorAgent;
  loop_unread : list cycle;
  loop_exit_by : loop_exit
}.

Definition emit (o : list printed) (r : looped) : looped :=
  {| loop_out := o ++ loop_out r;
     loop_self := loop_self r;
     loop_unread := loop_unread r;
     loop_exit_by := loop_exit_by r |}.

(** The [while self.is_monitoring:] loop of [monitor_cpu]; one element of
    the script is read per iteration. *)
Fixpoint while_is_monitoring (self : SystemMonitorAgent) (script : list cycle)
  : looped :=
  if negb (is_monitoring self) then
    {| loop_out := []; loop_self := self; loop_unread := script;
       loop_exit_by := Condition_false |}
  else
    match script with
    | [] =>
        {| loop_out := []; loop_self := self; loop_unread := [];
           loop_exit_by := Awaiting |}
    | c :: script' =>
        let '(o1, self1) := concurrent_stop In_sample c self in
        match sample c with
        | Raise e =>
            {| loop_out := o1; loop_self := self1; loop_unread := script';
               loop_exit_by := Raised e |}
        | Ok cpu_usage =>
            let current_time := clock c in
            match evaluate self1 cpu_usage current_time with
            | (o2, Raise e) =>
                {| loop_out := o1 ++ o2; loop_self := self1;
                   loop_unread := script'; loop_exit_by := Raised e |}
            | (o2, Ok _) =>
                let '(o3, self2) := concurrent_stop In_sleep c self1 in
                match time_sleep (check_interval self2) (wakeup c) with
                | Raise e =>
                    {| loop_out := o1 ++ o2 ++ o3; loop_self := self2;
                       loop_unread := script'; loop_exit_by := Raised e |}
                | Ok _ =>
                    emit (o1 ++ o2 ++ o3) (while_is_monitoring self2 script')
                end
            end
        end
    end.

(** How a call of [monitor_cpu] or [monitor_system] ends. *)
Inductive outcome :=
  | Returned                 (* the call returns to its caller *)
  | Propagated (e : exn)     (* an exception leaves the call *)
  | Running.                 (* the script is used up inside the loop *)

Record run := {
  stdout : list printed;
  agent : SystemMonitorAgent;
  unread : list cycle;
  ended : outcome
}.

(** An [except] clause of [monitor_cpu]: it prints its line, then clears
    the flag; an exception that arrives meanwhile leaves the call. *)
Definition handler (a : arrivals) (line : printed) (o : list printed)
    (self : SystemMonitorAgent) (rest : list cycle) : run :=
  match on_handler a with
  | Some (At_closing_line, e) =>
      {| stdout := o; agent := self; unread := rest; ended := Propagated e |}
  | Some (At_clear, e) =>
      {| stdout := o ++ [line]; agent := self; unread := rest;
         ended := Propagated e |}
  | None =>
      {| stdout := o ++ [line]; agent := set_is_monitoring false self;
         unread := rest; ended := Returned |}
  end.

Definition monitor_cpu (self : SystemMonitorAgent) (a : arrivals)
    (script : list cycle) : run :=
  match on_entry a with
  | Some (At_flag, e) =>
      {| stdout := []; agent := self; unread := script; ended := Propagated e |}
  | Some (At_start_line, e) =>
      {| stdout := []; agent := set_is_monitoring true self; unread := script;
         ended := Propagated e |}
  | Some (At_hint_line, e) =>
      let self := set_is_monitoring true self in
      {| stdout := [Cpu_start (cpu_threshold self)]; agent := self;
         unread := script; ended := Propagated e |}
  | None =>
      let self := set_is_monitoring true self in
      let o0 := [Cpu_start (cpu_threshold self); Cpu_hint] in
      let r := while_is_monitoring self script in
      match loop_exit_by r with
      | Condition_false =>
          {| stdout := o0 ++ loop_out r; agent := loop_self r;
             unread := loop_unread r; ended := Returned |}
      | Raised e =>
          if isinstance_KeyboardInterrupt e then
            handler a Cpu_interrupted (o0 ++ loop_out r) (loop_self r)
                    (loop_unread r)
          else if isinstance_Exception e then
            handler a (Cpu_error e) (o0 ++ loop_out r) (loop_self r)
                    (loop_unread r)
          else
            {| stdout := o0 ++ loop_out r; agent := loop_self r;
               unread := loop_unread r; ended := Propagated e |}
      | Awaiting =>
          {| stdout := o0 ++ loop_out r; agent := loop_self r;
             unread := loop_unread r; ended := Running |}
      end
  end.

(** [1024**3] *)
Definition GiB : Z := 1024 ^ 3.

Definition monitor_memory (self : SystemMonitorAgent) (h : host) (now : string)
  : list printed * result unit :=
  match virtual_memory h with
  | Raise e => ([], Raise e)
  | Ok memory =>
      let current_time := now in
      let o0 := [Mem_head current_time] in
      match int_truediv (total memory) GiB with
      | Raise e => (o0, Raise e)
      | Ok t =>
      match int_truediv (available memory) GiB with
      | Raise e => (o0 ++ [Mem_total t], Raise e)
      | Ok a =>
      match int_truediv (free memory) GiB with
      | Raise e => (o0 ++ [Mem_total t; Mem_available a; Mem_used (percent memory)], Raise e)
      | Ok f =>
          (o0 ++ [Mem_total t; Mem_available a; Mem_used (percent memory); Mem_free f],
           Ok ())
      end end end
  end.

Definition opt_int (n : option Z) : pyval :=
  match n with
  | Some z => PyInt z
  | None => PyNone
  end.

Definition get_system_info (self : SystemMonitorAgent) (h : host)
  : SystemMonitorAgent * result (gmap string pyval) :=
  (self,
   cpu_count ← cpu_count h;
   cpu_freq ← cpu_freq h;
   memory ← virtual_memory h;
   disk ← disk_usage h "/";
   Ok (<["cpu_count" := opt_int cpu_count]>
      (<["cpu_frequency" :=
           match cpu_freq with
           | Some f => PyFloat (current f)
           | None => PyStr "N/A"
           end]>
      (<["memory_total" := PyInt (total memory)]>
      (<["memory_available" := PyInt (available memory)]>
      (<["disk_total" := PyInt (disk_total disk)]>
      (<["disk_free" := PyInt (disk_free disk)]> ∅))))))).

(** The four lines of the system-information dump, each evaluated from the
    dict before it is printed. *)
Definition system_info_lines (system_info : gmap string pyval)
  : list printed * result unit :=
  let o0 := [Sys_head] in
  match dict_getitem system_info "cpu_count" with
  | Raise e => (o0, Raise e)
  | Ok cores =>
  let o1 := o0 ++ [Sys_cores cores] in
  match dict_getitem system_info "cpu_frequency" with
  | Raise e => (o1, Raise e)
  | Ok freq =>
  let o2 := o1 ++ [Sys_frequency freq] in
  match (m ← dict_getitem system_info "memory_total"; truediv m GiB) with
  | Raise e => (o2, Raise e)
  | Ok mem =>
  let o3 := o2 ++ [Sys_total_memory mem] in
  match (d ← dict_getitem system_info "disk_total"; truediv d GiB) with
  | Raise e => (o3, Raise e)
  | Ok dsk => (o3 ++ [Sys_total_disk dsk], Ok ())
  end end end end.

Definition monitor_system (self : SystemMonitorAgent) (h : host)
    (a : arrivals) (script : list cycle) : run :=
  let o0 := [Sys_start] in
  match get_system_info self h with
  | (self, Raise e) =>
      {| stdout := o0; agent := self; unread := script; ended := Propagated e |}
  | (self, Ok system_info) =>
      match system_info_lines system_info with
      | (o1, Raise e) =>
          {| stdout := o0 ++ o1; agent := self; unread := script;
             ended := Propagated e |}
      | (o1, Ok _) =>
          let r := monitor_cpu self a script in
          {| stdout := o0 ++ o1 ++ stdout r; agent := agent r;
             unread := unread r; ended := ended r |}
      end
  end.

(** [main()]: the lines of [main] and of the constructor, then the run of
    [monitor_system] on the agent built with threshold 10 and interval 10. *)
Definition main (h : host) (a : arrivals) (script : list cycle)
  : list printed * result run :=
  let o0 := [Main_title; Main_rule] in
  let '(o1, built) := __init__ (Int 10) 10 in
  (o0 ++ o1, agent ← built; Ok (monitor_system agent h a script)).

End System_Agents.

(** * Bitcoin_price.py *)
Module Bitcoin_price.
Import Py.

(** What [requests.get] returns: the status code, and what [response.json()]
    gives when it is called (the decoded body, or the exception the decoder
    raises). *)
Record response := {
  status_code : Z;
  json : result pyval
}.

Record BitcoinPriceAgent := { api_url : string }.

Definition __init__ (api_url : string) : BitcoinPriceAgent :=
  {| api_url := api_url |}.

(** One constructor per [print] call. *)
Inductive printed :=
  | Price (bitcoin_price : pyval)
  | Api_failed (status : Z)
  | Api_failed_hint
  | Network_error (e : exn)
  | Parsing_error (e : exn)
  | Unexpected_error (e : exn).

(** The body of the [try] statement; [requests_get] is the network: what a
    GET of a URL comes back with. *)
Definition try_body (self : BitcoinPriceAgent)
    (requests_get : string -> result response) : result (list printed) :=
  response ← requests_get (api_url self);
  if status_code response =? 200 then
    data ← json response;
    bpi ← getitem data "bpi";
    usd ← getitem bpi "USD";
    bitcoin_price ← getitem usd "rate_float";
    Ok [Price bitcoin_price]
  else
    Ok [Api_failed (status_code response); Api_failed_hint].

(** [fetch_bitcoin_price]: what is printed, and whether the call returns
    ([Ok]) or an exception leaves it ([Raise]). *)
Definition fetch_bitcoin_price (self : BitcoinPriceAgent)
    (requests_get : string -> result response) : list printed * result unit :=
  match try_body self requests_get with
  | Ok o => (o, Ok ())
  | Raise e =>
      if isinstance_RequestException e then ([Network_error e], Ok ())
      else if isinstance_KeyError e then ([Parsing_error e], Ok ())
      else if isinstance_Exception e then ([Unexpected_error e], Ok ())
      else ([], Raise e)
  end.

(** [main()] *)
Definition main (requests_get : string -> result response)
  : list printed * result unit :=
  let api_url := "https://api.coindesk.com/v1/bpi/currentprice/USD.json" in
  let agent := __init__ api_url in
  fetch_bitcoin_price agent requests_get.

(** The CoinDesk document with the price [rate_float]. *)
Definition coindesk_body (rate_float : pyval) : pyval :=
  PyDict {[ "bpi" := PyDict {[ "USD" := PyDict {[ "rate_float" := rate_float ]} ]} ]}.

(** A network that answers every GET with status [status] and a body the
    decoder turns into [body]. *)
Definition answering (status : Z) (body : result pyval)
  : string -> result response :=
  fun _ => Ok {| status_code := status; json := body |}.

End Bitcoin_price.

(** * Reading the monitor's output as events

    The spec speaks of the status events of a run.  In the script an event
    is a group of printed lines: the line of a normal reading, or the block
    [alert_high_cpu] prints, whose time, usage and excess lines carry the
    fields of the alert.  An alert whose block stops short of the excess
    line (the subtraction raised) has no excess. *)
Module Events.
Import Py System_Agents.

Inductive event :=
  | Normal (time : string) (cpu : float)
  | Alert (time : string) (cpu : float) (threshold : num) (excess : option float).

Definition is_alert (ev : event) : bool :=
  match ev with
  | Alert _ _ _ _ => true
  | Normal _ _ => false
  end.

(** The time and the reading an event reports. *)
Definition event_time (ev : event) : string :=
  match ev with
  | Normal time _ => time
  | Alert time _ _ _ => time
  end.

Definition event_cpu (ev : event) : float :=
  match ev with
  | Normal _ cpu => cpu
  | Alert _ cpu _ _ => cpu
  end.

Fixpoint events (o : list printed) : list event :=
  match o with
  | [] => []
  | Cpu_normal time cpu :: o' => Normal time cpu :: events o'
  | Alert_time time :: o' =>
      match o' with
      | Alert_usage cpu t :: o'' =>
          match o'' with
          | Alert_excess x :: rest => Alert time cpu t (Some x) :: events rest
          | _ => Alert time cpu t None :: events o''
          end
      | _ => events o'
      end
  | _ :: o' => events o'
  end.

Definition opens_with_excess (o : list printed) : bool :=
  match o with
  | Alert_excess _ :: _ => true
  | _ => false
  end.

(** Output that ends on a line boundary of the events: reading it as
    events does not depend on what is printed next (an excess line cannot
    come next: it is printed inside a block only). *)
Definition whole (o : list printed) : Prop :=
  forall o', opens_with_excess o' = false ->
    events (o ++ o') = events o ++ events o'.

(** The event the spec's cycle yields for a reading (section 4.1, step 3):
    an alert when the sample is above the threshold, with the excess when
    the subtraction gives one, a normal status otherwise; no event when the
    reading fails. *)
Definition cycle_event (T : num) (c : cycle) : option event :=
  match sample c with
  | Ok s =>
      Some (if num_gt s T
            then Alert (clock c) s T
                       (match num_sub s T with
                        | Ok x => Some x
                        | Raise _ => None
                        end)
            else Normal (clock c) s)
  | Raise _ => None
  end.

(** A cycle in which nothing interferes. *)
Definition reading (time : string) (s : float) : cycle :=
  {| sample := Ok s; clock := time; wakeup := Ok (); stop := None |}.

(** A cycle whose sample read fails with [e]. *)
Definition failing (time : string) (e : exn) : cycle :=
  {| sample := Raise e; clock := time; wakeup := Ok (); stop := None |}.

(** Every exception the cycle meets is one [monitor_cpu] has a handler
    for. *)
Definition handled (e : exn) : bool :=
  isinstance_KeyboardInterrupt e || isinstance_Exception e.

Definition catchable (c : cycle) : bool :=
  match sample c with Raise e => handled e | Ok _ => true end &&
  match wakeup c with Raise e => handled e | Ok _ => true end.

(** The lines of a cycle with reading [s] raise: an alert is due and the
    subtraction for its excess raises. *)
Definition lines_raise (T : num) (s : float) : bool :=
  num_gt s T && match num_sub s T with Raise _ => true | Ok _ => false end.

(** The cycle raises: its sample read fails, or its lines do, or its sleep
    does. *)
Definition raises (check_interval : Z) (T : num) (c : cycle) : bool :=
  match sample c with
  | Raise _ => true
  | Ok s =>
      lines_raise T s ||
      match time_sleep check_interval (wakeup c) with
      | Raise _ => true
      | Ok _ => false
      end
  end.

(** The size in GB a printed line shows, if it shows one. *)
Definition shown_size (p : printed) : option float :=
  match p with
  | Mem_total gb | Mem_available gb | Mem_free gb
  | Sys_total_memory gb | Sys_total_disk gb => Some gb
  | _ => None
  end.

(** The raw byte count behind the size a line shows. *)
Definition size_bytes (m : svmem) (d : sdiskusage) (p : printed) : option Z :=
  match p with
  | Mem_total _ | Sys_total_memory _ => Some (total m)
  | Mem_available _ => Some (available m)
  | Mem_free _ => Some (free m)
  | Sys_total_disk _ => Some (disk_total d)
  | _ => None
  end.

(** The line shows [gb] for its byte count divided by 1073741824, under
    [.1f] and with the unit GB. *)
Definition size_in_GB (m : svmem) (d : sdiskusage) (p : printed) (gb : float)
  : Prop :=
  exists n label,
    size_bytes m d p = Some n /\
    int_truediv n 1073741824 = Ok gb /\
    text_of p = [Lit label; Fix1 gb; Lit " GB"].

(** A run of [monitor_cpu] gets through the cycles [before] and is still
    in its loop, about to begin the next cycle. *)
Definition gets_through (self : SystemMonitorAgent) (before : list cycle) : Prop :=
  loop_exit_by (while_is_monitoring (set_is_monitoring true self) before) = Awaiting.

(** A [stop_monitoring] of another thread is invoked in the cycle: one is
    due while the sample is measured, or one is due after the cycle's lines
    and the cycle gets that far. *)
Definition stop_invoked (T : num) (c : cycle) : bool :=
  match stop c, sample c with
  | Some In_sample, _ => true
  | Some In_sleep, Ok s => negb (lines_raise T s)
  | _, _ => false
  end.

(** The cycle is the last of its run: it raises, or [stop_monitoring] is
    invoked in it. *)
Definition ends_loop (check_interval : Z) (T : num) (c : cycle) : bool :=
  raises check_interval T c || stop_invoked T c.

(** The cycles a run reads, as the spec's loop has it (section 4.1): one
    after the other, up to and including the first that ends the loop. *)
Fixpoint cycles_read (check_interval : Z) (T : num) (script : list cycle)
  : list cycle :=
  match script with
  | [] => []
  | c :: script' =>
      if ends_loop check_interval T c then [c]
      else c :: cycles_read check_interval T script'
  end.

(** A threshold that floats hold exactly: a float of the runtime, or an
    int below [2^53] in magnitude. *)
Definition float_exact (t : num) : bool :=
  match t with
  | Float f => is_float f
  | Int n => Z.abs n <? 2 ^ 53
  end.

(** The agent [main] builds: [SystemMonitorAgent(cpu_threshold=10,
    check_interval=10)]. *)
Definition demo_agent : SystemMonitorAgent :=
  {| cpu_threshold := Int 10; check_interval := 10;
     is_monitoring := false |}.

(** A host with 8 cores, no frequency reading, 16 GiB of memory of which
    6.5 GiB are available, and a disk of 500 GB. *)
Definition demo_memory : svmem :=
  {| total := 17179869184; available := 6979321856;
     percent := decimal 594 1; used := 9126805504; free := 1073741824 |}.

Definition demo_disk : sdiskusage :=
  {| disk_total := 500000000000; disk_used := 380000000000;
     disk_free := 120000000000; disk_percent := decimal 760 1 |}.

Definition demo_host : host :=
  {| cpu_count := Ok (Some 8);
     cpu_freq := Ok None;
     virtual_memory := Ok demo_memory;
     disk_usage := fun _ => Ok demo_disk |}.

(** A cycle whose sleep is cut short by Ctrl+C. *)
Definition interrupted (time : string) (s : float) : cycle :=
  {| sample := Ok s; clock := time;
     wakeup := Raise (Exn KeyboardInterrupt ""); stop := None |}.

(** A cycle during which another thread calls [stop_monitoring]. *)
Definition stopped (time : string) (s : float) (p : stop_point) : cycle :=
  {| sample := Ok s; clock := time; wakeup := Ok (); stop := Some p |}.

End Events.

(** * Further vocabulary for the runs of the two scripts *)
Module Runs.
Import Py System_Agents Events.

(** A cycle in which nothing happens but the reading: the sample is read,
    its lines are printed, the sleep runs its length, no other thread stops
    the agent. *)
Definition quiet (T : num) (c : cycle) : bool :=
  match sample c, wakeup c, stop c with
  | Ok s, Ok _, None => negb (lines_raise T s)
  | _, _, _ => false
  end.

(** The body of the loop raises [e] in cycle [c]: the sample read does, or
    the sample is read and the subtraction for the excess of its alert
    does, or the lines of the cycle are printed and the sleep does. *)
Definition body_raises (check_interval : Z) (T : num) (c : cycle) (e : exn)
  : Prop :=
  sample c = Raise e \/
  (exists s, sample c = Ok s /\ num_gt s T = true /\ num_sub s T = Raise e) \/
  (exists s, sample c = Ok s /\ lines_raise T s = false /\
             time_sleep check_interval (wakeup c) = Raise e).

(** The two lines a handler of [monitor_cpu] prints. *)
Definition is_closing (p : printed) : bool :=
  match p with
  | Cpu_interrupted | Cpu_error _ => true
  | _ => false
  end.

(** The first of the four queries of [get_system_info] to fail, failing
    with [e]. *)
Definition first_failure (h : host) (e : exn) : Prop :=
  cpu_count h = Raise e \/
  (exists n, cpu_count h = Ok n /\ cpu_freq h = Raise e) \/
  (exists n f, cpu_count h = Ok n /\ cpu_freq h = Ok f /\
               virtual_memory h = Raise e) \/
  (exists n f m, cpu_count h = Ok n /\ cpu_freq h = Ok f /\
                 virtual_memory h = Ok m /\ disk_usage h "/" = Raise e).

(** Not a JSON object: null, a boolean, a number, a string or an array. *)
Definition not_a_dict (v : pyval) : Prop :=
  match v with
  | PyDict _ => False
  | _ => True
  end.

(** A host on which [psutil.virtual_memory()] fails. *)
Definition no_memory_host (e : exn) : host :=
  {| cpu_count := Ok (Some 8);
     cpu_freq := Ok None;
     virtual_memory := Raise e;
     disk_usage := fun _ => Ok demo_disk |}.

End Runs.

(** * Facts about binary64 arithmetic *)
Section Float_facts.
Import Py.

Lemma shr_1_halves (mrs : shr_record) :
  0 <= shr_m mrs -> shr_m (shr_1 mrs) = shr_m mrs / 2.
Proof.
  destruct mrs as [m r s]. simpl.
  destruct m as [ | [p | p | ] | p]; intros Hm; simpl shr_m; try lia.
  - reflexivity.
  - rewrite Pos2Z.inj_xI. apply Z.div_unique with (r := 1); lia.
  - rewrite Pos2Z.inj_xO. apply Z.div_unique with (r := 0); lia.
  - reflexivity.
Qed.

Lemma pow2_xO p : 2 ^ Zpos p~0 = 2 ^ Zpos p * 2 ^ Zpos p.
Proof. rewrite <- Z.pow_add_r by lia. f_equal. lia. Qed.

Lemma pow2_xI p : 2 ^ Zpos p~1 = 2 * (2 ^ Zpos p * 2 ^ Zpos p).
Proof.
  rewrite <- Z.pow_add_r by lia. rewrite <- Z.pow_succ_r by lia. f_equal. lia.
Qed.

Lemma iter_shr_1_divides (p : positive) (mrs : shr_record) :
  0 <= shr_m mrs ->
  shr_m (SpecFloat.iter_pos shr_1 p mrs) = shr_m mrs / 2 ^ Zpos p.
Proof.
  revert mrs. induction p as [p IH | p IH | ]; intros mrs Hm; simpl SpecFloat.iter_pos.
  - assert (Hpow : 0 < 2 ^ Zpos p) by (apply Z.pow_pos_nonneg; lia).
    assert (H1 : 0 <= shr_m (shr_1 mrs)).
    { rewrite shr_1_halves by assumption. apply Z.div_pos; lia. }
    assert (H2 : 0 <= shr_m (SpecFloat.iter_pos shr_1 p (shr_1 mrs))).
    { rewrite IH by assumption. apply Z.div_pos; lia. }
    rewrite IH by assumption. rewrite IH by assumption.
    rewrite shr_1_halves by assumption.
    rewrite !Z.div_div by lia. rewrite pow2_xI. f_equal; lia.
  - assert (Hpow : 0 < 2 ^ Zpos p) by (apply Z.pow_pos_nonneg; lia).
    assert (H2 : 0 <= shr_m (SpecFloat.iter_pos shr_1 p mrs)).
    { rewrite IH by assumption. apply Z.div_pos; lia. }
    rewrite IH by assumption. rewrite IH by assumption.
    rewrite !Z.div_div by lia. rewrite pow2_xO. reflexivity.
  - rewrite shr_1_halves by assumption. reflexivity.
Qed.

Lemma digits2_pos_bounds (m : positive) :
  2 ^ (Zpos (digits2_pos m) - 1) <= Zpos m < 2 ^ Zpos (digits2_pos m).
Proof.
  induction m as [m IH | m IH | ]; simpl digits2_pos.
  - rewrite Pos2Z.inj_succ, Z.pow_succ_r by lia.
    replace (Z.succ (Zpos (digits2_pos m)) - 1) with (Z.succ (Zpos (digits2_pos m) - 1)) by lia.
    rewrite Z.pow_succ_r by lia. lia.
  - rewrite Pos2Z.inj_succ, Z.pow_succ_r by lia.
    replace (Z.succ (Zpos (digits2_pos m)) - 1) with (Z.succ (Zpos (digits2_pos m) - 1)) by lia.
    rewrite Z.pow_succ_r by lia. lia.
  - simpl. lia.
Qed.

Lemma shr_record_of_loc_m m l : shr_m (shr_record_of_loc m l) = m.
Proof. destruct l as [ | [ | | ]]; reflexivity. Qed.

Lemma shr_fexp_keeps_positive m e l :
  0 < m -> emin prec emax <= e ->
  1 <= shr_m (fst (shr_fexp prec emax m e l)) /\
  emin prec emax <= snd (shr_fexp prec emax m e l).
Proof.
  intros Hm He. unfold shr_fexp, shr.
  destruct m as [ | mp | mp]; try lia.
  simpl Zdigits2.
  pose proof (digits2_pos_bounds mp) as Hd.
  destruct (fexp prec emax (Z.pos (digits2_pos mp) + e) - e) as [ | n | n] eqn:Hn;
    simpl fst; simpl snd; rewrite ?shr_record_of_loc_m; try lia.
  rewrite iter_shr_1_divides by (rewrite shr_record_of_loc_m; lia).
  rewrite shr_record_of_loc_m.
  assert (Hle : Zpos n <= Zpos (digits2_pos mp) - 1).
  { unfold fexp, emin, prec, emax in *. lia. }
  assert (Hpow : 2 ^ Zpos n <= 2 ^ (Zpos (digits2_pos mp) - 1)).
  { apply Z.pow_le_mono_r; lia. }
  split; [ | lia].
  assert (0 < Zpos mp / 2 ^ Zpos n); [ | lia].
  apply Z.div_str_pos. split; [apply Z.pow_pos_nonneg; lia | lia].
Qed.

Lemma round_nearest_even_ge m l : m <= round_nearest_even m l.
Proof. destruct l as [ | [ | | ]]; simpl; try destruct (Z.even m); lia. Qed.

Lemma binary_round_aux_sign sx m e l :
  0 < m -> emin prec emax <= e ->
  (exists m' e', binary_round_aux prec emax sx m e l = S754_finite sx m' e') \/
  binary_round_aux prec emax sx m e l = S754_infinity sx.
Proof.
  intros Hm He. unfold binary_round_aux.
  destruct (shr_fexp_keeps_positive m e l Hm He) as [H1 He1].
  destruct (shr_fexp prec emax m e l) as [mrs' e'].
  simpl in H1, He1.
  pose proof (round_nearest_even_ge (shr_m mrs') (loc_of_shr_record mrs')) as Hr.
  set (m2 := round_nearest_even (shr_m mrs') (loc_of_shr_record mrs')) in *.
  destruct (shr_fexp_keeps_positive m2 e' loc_Exact ltac:(lia) He1) as [H2 He2].
  destruct (shr_fexp prec emax m2 e' loc_Exact) as [mrs'' e''].
  simpl in H2, He2.
  destruct (shr_m mrs'') as [ | m3 | m3]; try lia.
  destruct (e'' <=? emax - prec); [left; eauto | right; reflexivity].
Qed.

Lemma binary_normalize_pos m e :
  0 < m -> emin prec emax <= e ->
  float_pos (binary_normalize prec emax m e false) = true.
Proof.
  intros Hm He. destruct m as [ | p | p]; try lia.
  unfold binary_normalize, binary_round.
  destruct (shl_align p e (fexp prec emax (Z.pos (digits2_pos p) + e)))
    as [mz ez] eqn:Hsh.
  assert (Hez : emin prec emax <= ez).
  { unfold shl_align in Hsh.
    destruct (fexp prec emax (Z.pos (digits2_pos p) + e) - e) eqn:Hd;
      inversion Hsh; subst; try lia.
    unfold fexp. lia. }
  destruct (binary_round_aux_sign false (Zpos mz) ez loc_Exact ltac:(lia) Hez)
    as [(m' & e' & ->) | ->]; reflexivity.
Qed.

Lemma iter_xO_value (m d : positive) :
  Zpos (Pos.iter xO m d) = Zpos m * 2 ^ Zpos d.
Proof.
  induction d as [ | d IH] using Pos.peano_ind.
  - simpl. lia.
  - rewrite Pos.iter_succ, Pos2Z.inj_xO, IH, Pos2Z.inj_succ, Z.pow_succ_r by lia.
    lia.
Qed.

Lemma shl_align_value m e e' :
  e' <= e -> Zpos (fst (shl_align m e e')) = Zpos m * 2 ^ (e - e').
Proof.
  intros Hle. unfold shl_align.
  destruct (e' - e) as [ | d | d] eqn:Hd; simpl fst.
  - replace (e - e') with 0 by lia. simpl. lia.
  - lia.
  - rewrite iter_xO_value. f_equal. f_equal. lia.
Qed.

Lemma bounded_shape m e :
  bounded prec emax m e = true ->
  emin prec emax <= e /\
  Zpos (digits2_pos m) <= prec /\
  (emin prec emax < e -> Zpos (digits2_pos m) = prec).
Proof.
  unfold bounded, canonical_mantissa. intros H.
  apply andb_prop in H as [H _]. apply Z.eqb_eq in H.
  unfold fexp, emin, prec, emax in *. lia.
Qed.

(** Of two positive floats, the one with the smaller exponent, or with the
    same exponent and the smaller mantissa, is the smaller number. *)
Lemma aligned_lt m1 e1 m2 e2 :
  bounded prec emax m1 e1 = true ->
  bounded prec emax m2 e2 = true ->
  e1 < e2 \/ (e1 = e2 /\ Zpos m1 < Zpos m2) ->
  Zpos m1 * 2 ^ (e1 - Z.min e1 e2) < Zpos m2 * 2 ^ (e2 - Z.min e1 e2).
Proof.
  intros H1 H2 Hlt.
  destruct (bounded_shape m1 e1 H1) as (Hmin1 & Hd1 & _).
  destruct (bounded_shape m2 e2 H2) as (Hmin2 & _ & Hd2).
  destruct Hlt as [Hlt | [-> Hlt]].
  - rewrite Z.min_l by lia. rewrite Z.sub_diag, Z.pow_0_r, Z.mul_1_r.
    specialize (Hd2 ltac:(lia)).
    pose proof (digits2_pos_bounds m1) as [_ Hu1].
    pose proof (digits2_pos_bounds m2) as [Hl2 _].
    rewrite Hd2 in Hl2.
    assert (Hp1 : 2 ^ Zpos (digits2_pos m1) <= 2 ^ prec)
      by (apply Z.pow_le_mono_r; lia).
    assert (Hp2 : 2 ^ 1 <= 2 ^ (e2 - e1)) by (apply Z.pow_le_mono_r; lia).
    replace (2 ^ prec) with (2 ^ (prec - 1) * 2 ^ 1) in Hp1
      by (rewrite <- Z.pow_add_r by (unfold prec; lia); f_equal; lia).
    assert (0 < 2 ^ (prec - 1)) by (apply Z.pow_pos_nonneg; unfold prec; lia).
    nia.
  - rewrite Z.min_id, Z.sub_diag, Z.pow_0_r. lia.
Qed.

(** Subtraction never rounds a positive difference down to zero:
    when [s > t], the float [s - t] is strictly positive. *)
Lemma float_sub_pos (s t : float) :
  is_float s = true ->
  is_float t = true ->
  float_gt s t = true ->
  float_pos (float_sub s t) = true.
Proof.
  unfold is_float, float_gt, float_lt, float_sub.
  intros Hs Ht Hlt. unfold SFltb in Hlt.
  destruct s as [ss | ss | | ss ms es], t as [st | st | | st mt et];
    simpl in Hlt; try discriminate;
    try (destruct ss, st; simpl in *; try discriminate; reflexivity).
  simpl in Hs, Ht.
  destruct (bounded_shape ms es Hs) as (Hmins & _ & _).
  destruct (bounded_shape mt et Ht) as (Hmint & _ & _).
  unfold SFsub. apply binary_normalize_pos; [ | lia].
  rewrite !shl_align_value by lia.
  assert (Hps : 0 < Zpos ms * 2 ^ (es - Z.min es et))
    by (apply Z.mul_pos_pos; [lia | apply Z.pow_pos_nonneg; lia]).
  assert (Hpt : 0 < Zpos mt * 2 ^ (et - Z.min es et))
    by (apply Z.mul_pos_pos; [lia | apply Z.pow_pos_nonneg; lia]).
  destruct st, ss; unfold cond_Zopp; try discriminate; try lia.
  - (* both negative: the subtrahend has the larger magnitude *)
    pose proof (aligned_lt ms es mt et Hs Ht) as Hal.
    assert (es < et \/ es = et /\ Zpos ms < Zpos mt); [ | lia].
    destruct (et ?= es) eqn:He.
    + rewrite ?He in Hlt. apply Z.compare_eq in He. right. split; [lia | ].
      destruct (Pos.compare_cont Eq mt ms) eqn:Hm; simpl in Hlt; try discriminate.
      fold (Pos.compare mt ms) in Hm. apply Pos.compare_gt_iff in Hm. lia.
    + discriminate.
    + apply Z.compare_gt_iff in He. left. lia.
  - (* both positive *)
    pose proof (aligned_lt mt et ms es Ht Hs) as Hal.
    rewrite (Z.min_comm et es) in Hal.
    assert (et < es \/ et = es /\ Zpos mt < Zpos ms); [ | lia].
    destruct (et ?= es) eqn:He.
    + rewrite ?He in Hlt. apply Z.compare_eq in He. right. split; [lia | ].
      destruct (Pos.compare_cont Eq mt ms) eqn:Hm; simpl in Hlt; try discriminate.
      fold (Pos.compare mt ms) in Hm. change (mt < ms)%positive in Hm. lia.
    + change (et < es) in He. left. lia.
    + discriminate.
Qed.

Lemma digits2_pos_unique (n : positive) (k : Z) :
  2 ^ (k - 1) <= Zpos n < 2 ^ k -> Zpos (digits2_pos n) = k.
Proof.
  intros [Hl Hu].
  pose proof (digits2_pos_bounds n) as [Hl' Hu'].
  destruct (Z.lt_trichotomy (Zpos (digits2_pos n)) k) as [Hlt | [Heq | Hgt]].
  - assert (2 ^ Zpos (digits2_pos n) <= 2 ^ (k - 1)) by (apply Z.pow_le_mono_r; lia).
    lia.
  - exact Heq.
  - assert (0 <= k).
    { destruct (Z.le_gt_cases 0 k); [assumption | ].
      rewrite (Z.pow_neg_r 2 k) in Hu by lia. lia. }
    assert (2 ^ k <= 2 ^ (Zpos (digits2_pos n) - 1)) by (apply Z.pow_le_mono_r; lia).
    lia.
Qed.

(** Dividing a positive integer below [2^53] by [2^30] is exact: the
    quotient is the integer's mantissa, normalised, at a lower exponent. *)
Lemma div_GiB_exact (p : positive) :
  Zpos p < 2 ^ 53 ->
  let d := Zpos (digits2_pos p) in
  exists q : positive,
    Zpos q = Zpos p * 2 ^ (53 - d) /\
    SFdiv prec emax (S754_finite false p 0) (S754_finite false 1073741824 0) =
      S754_finite false q (d - 83).
Proof.
  intros Hp d.
  pose proof (digits2_pos_bounds p) as [Hl Hu]. fold d in Hl, Hu.
  assert (Hd1' : 1 <= d) by (unfold d; lia).
  assert (Hdef : Zdigits2 (Zpos p) = d) by reflexivity.
  clearbody d.
  assert (Hd : 1 <= d <= 53).
  { split; [lia | ].
    destruct (Z.le_gt_cases d 53); [assumption | ].
    assert (2 ^ 53 <= 2 ^ (d - 1)) by (apply Z.pow_le_mono_r; lia). lia. }
  unfold SFdiv, SFdiv_core_binary.
  rewrite Hdef.
  change (Zdigits2 1073741824) with 31.
  assert (He : Z.min (fexp prec emax (d + 0 - (31 + 0))) (0 - 0) = d - 84).
  { unfold fexp, emin, prec, emax. lia. }
  rewrite He.
  replace (0 - 0 - (d - 84)) with (84 - d) by lia.
  destruct (84 - d) as [ | s | s] eqn:Hs; try lia.
  rewrite Z.shiftl_mul_pow2 by lia.
  assert (Hq : 0 < Zpos p * 2 ^ (53 - d))
    by (apply Z.mul_pos_pos; [lia | apply Z.pow_pos_nonneg; lia]).
  exists (Z.to_pos (Zpos p * 2 ^ (53 - d))).
  set (q := Z.to_pos (Zpos p * 2 ^ (53 - d))).
  assert (Hqv : Zpos q = Zpos p * 2 ^ (53 - d)) by (unfold q; rewrite Z2Pos.id; lia).
  split; [exact Hqv | ].
  assert (Hnum : Zpos p * 2 ^ Zpos s = Zpos q~0 * 1073741824).
  { rewrite (Pos2Z.inj_xO q), Hqv. replace (Zpos s) with ((53 - d) + 31) by lia.
    rewrite Z.pow_add_r by lia. change (2 ^ 31) with (2 * 1073741824). lia. }
  assert (Hdiv : Z.div_eucl (Zpos p * 2 ^ Zpos s) 1073741824 = (Zpos q~0, 0)).
  { destruct (Z.div_eucl (Zpos p * 2 ^ Zpos s) 1073741824) as [q0 r] eqn:E.
    assert (Hq0 : q0 = Zpos p * 2 ^ Zpos s / 1073741824)
      by (unfold Z.div; rewrite E; reflexivity).
    assert (Hr : r = (Zpos p * 2 ^ Zpos s) mod 1073741824)
      by (unfold Z.modulo; rewrite E; reflexivity).
    rewrite Hnum in Hq0, Hr.
    rewrite Z.div_mul in Hq0 by lia. rewrite Z.mod_mul in Hr by lia.
    congruence. }
  change (IntDef.Z.div_eucl) with Z.div_eucl.
  rewrite Hdiv.
  change (new_location 1073741824 0) with loc_Exact.
  assert (Hdq : Zpos (digits2_pos q) = 53).
  { apply digits2_pos_unique. rewrite Hqv. split.
    - replace (53 - 1) with ((d - 1) + (53 - d)) by lia.
      rewrite Z.pow_add_r by lia.
      apply Z.mul_le_mono_nonneg_r; [apply Z.pow_nonneg; lia | exact Hl].
    - replace 53 with (d + (53 - d)) at 2 by lia.
      rewrite Z.pow_add_r by lia.
      apply Z.mul_lt_mono_pos_r; [apply Z.pow_pos_nonneg; lia | exact Hu]. }
  unfold binary_round_aux, shr_fexp.
  assert (Hd1 : Zdigits2 (Zpos q~0) = 54).
  { simpl. rewrite Pos2Z.inj_succ, Hdq. reflexivity. }
  rewrite Hd1.
  assert (Hs1 : fexp prec emax (54 + (d - 84)) - (d - 84) = 1).
  { unfold fexp, emin, prec, emax. lia. }
  rewrite Hs1. unfold shr at 1. cbn [SpecFloat.iter_pos shr_record_of_loc shr_1].
  cbn [shr_m shr_r shr_s loc_of_shr_record round_nearest_even orb].
  change (Zdigits2 (Zpos q)) with (Zpos (digits2_pos q)). rewrite Hdq.
  assert (Hs2 : fexp prec emax (53 + (d - 84 + 1)) - (d - 84 + 1) = 0).
  { unfold fexp, emin, prec, emax. lia. }
  rewrite Hs2. unfold shr. cbn [shr_record_of_loc shr_m].
  assert (Hle : (d - 84 + 1 <=? emax - prec) = true)
    by (apply Z.leb_le; unfold emax, prec; lia).
  rewrite Hle. f_equal. lia.
Qed.

Lemma shl_align_snd m e e' : e' <= e -> snd (shl_align m e e') = e'.
Proof. intros H. unfold shl_align. destruct (e' - e) eqn:Hd; simpl; lia. Qed.

(** An integer below [2^53] in magnitude is a float: converting it
    normalises its mantissa and changes nothing else. *)
Lemma binary_round_small (sx : bool) (p : positive) :
  Zpos p < 2 ^ 53 ->
  exists q : positive,
    Zpos q = Zpos p * 2 ^ (53 - Zpos (digits2_pos p)) /\
    binary_round prec emax sx p 0 =
      S754_finite sx q (Zpos (digits2_pos p) - 53).
Proof.
  intros Hp.
  pose proof (digits2_pos_bounds p) as [Hl Hu].
  set (d := Zpos (digits2_pos p)) in *.
  assert (Hd : 1 <= d <= 53).
  { split; [unfold d; lia | ].
    destruct (Z.le_gt_cases d 53); [assumption | ].
    assert (2 ^ 53 <= 2 ^ (d - 1)) by (apply Z.pow_le_mono_r; lia). lia. }
  unfold binary_round. fold d.
  assert (Hf : fexp prec emax (d + 0) = d - 53).
  { unfold fexp, emin, prec, emax. lia. }
  rewrite Hf.
  pose proof (shl_align_value p 0 (d - 53) ltac:(lia)) as Hv.
  pose proof (shl_align_snd p 0 (d - 53) ltac:(lia)) as He.
  destruct (shl_align p 0 (d - 53)) as [mz ez]. simpl in Hv, He. subst ez.
  replace (0 - (d - 53)) with (53 - d) in Hv by lia.
  exists mz. split; [exact Hv | ].
  assert (Hdq : Zpos (digits2_pos mz) = 53).
  { apply digits2_pos_unique. rewrite Hv. split.
    - replace (53 - 1) with ((d - 1) + (53 - d)) by lia.
      rewrite Z.pow_add_r by lia.
      apply Z.mul_le_mono_nonneg_r; [apply Z.pow_nonneg; lia | exact Hl].
    - replace 53 with (d + (53 - d)) at 2 by lia.
      rewrite Z.pow_add_r by lia.
      apply Z.mul_lt_mono_pos_r; [apply Z.pow_pos_nonneg; lia | exact Hu]. }
  unfold binary_round_aux, shr_fexp.
  change (Zdigits2 (Zpos mz)) with (Zpos (digits2_pos mz)). rewrite Hdq.
  assert (Hs : fexp prec emax (53 + (d - 53)) - (d - 53) = 0).
  { unfold fexp, emin, prec, emax. lia. }
  rewrite Hs. unfold shr at 1. cbn [shr_record_of_loc shr_m shr_r shr_s].
  cbn [loc_of_shr_record round_nearest_even].
  change (Zdigits2 (Zpos mz)) with (Zpos (digits2_pos mz)). rewrite Hdq, Hs.
  unfold shr. cbn [shr_record_of_loc shr_m].
  assert (Hle : (d - 53 <=? emax - prec) = true)
    by (apply Z.leb_le; unfold emax, prec; lia).
  rewrite Hle. reflexivity.
Qed.

Lemma float_of_int_small (n : Z) :
  n <> 0 -> Z.abs n < 2 ^ 53 ->
  exists (q : positive) (e : Z),
    emin prec emax <= e <= 0 /\
    Zpos q = Z.abs n * 2 ^ (- e) /\
    float_of_int n = S754_finite (n <? 0) q e.
Proof.
  intros Hn Hsmall. unfold float_of_int, binary_normalize.
  destruct n as [ | p | p]; [congruence | | ];
    destruct (binary_round_small (Zpos p <? 0) p Hsmall) as (q & Hq & Hr);
    pose proof (digits2_pos_bounds p) as [Hl Hu];
    (assert (Hd : 1 <= Zpos (digits2_pos p) <= 53);
     [split; [lia | ];
      destruct (Z.le_gt_cases (Zpos (digits2_pos p)) 53); [assumption | ];
      assert (2 ^ 53 <= 2 ^ (Zpos (digits2_pos p) - 1))
        by (apply Z.pow_le_mono_r; lia); simpl in Hsmall; lia | ]);
    exists q, (Zpos (digits2_pos p) - 53);
    (split; [unfold emin, prec, emax; lia | ]);
    (split; [rewrite Hq; simpl Z.abs; f_equal; f_equal; lia | ]).
  - exact Hr.
  - destruct (binary_round_small true p Hsmall) as (q' & Hq' & Hr').
    assert (q' = q) by lia. subst q'. exact Hr'.
Qed.

(** The sign of a float above an int, and of the int itself, in the
    subtraction of the two when the int is a float: the difference of the
    aligned mantissas is positive. *)
Lemma aligned_above_int (ss : bool) (ms : positive) (es : Z) (n : Z)
    (q : positive) (e : Z) :
  emin prec emax <= es ->
  emin prec emax <= e <= 0 ->
  Zpos q = Z.abs n * 2 ^ (- e) ->
  float_compare_int (S754_finite ss ms es) n = Some Gt ->
  0 < cond_Zopp ss (Zpos ms * 2 ^ (es - Z.min es e)) -
      cond_Zopp (n <? 0) (Zpos q * 2 ^ (e - Z.min es e)).
Proof.
  intros Hes He Hq Hgt.
  set (ez := Z.min es e).
  assert (Hez : ez <= e /\ ez <= es /\ ez <= 0) by (unfold ez; lia).
  assert (Hn : cond_Zopp (n <? 0) (Zpos q * 2 ^ (e - ez)) = n * 2 ^ (- ez)).
  { rewrite Hq. replace (- ez) with (- e + (e - ez)) by lia.
    rewrite Z.pow_add_r by lia.
    unfold cond_Zopp. destruct (n <? 0) eqn:Hneg.
    - apply Z.ltb_lt in Hneg. rewrite Z.abs_neq by lia. lia.
    - apply Z.ltb_ge in Hneg. rewrite Z.abs_eq by lia. lia. }
  rewrite Hn.
  assert (Hv : cond_Zopp ss (Zpos ms * 2 ^ (es - ez)) =
               (if ss then Zneg ms else Zpos ms) * 2 ^ (es - ez)).
  { unfold cond_Zopp. destruct ss; lia. }
  rewrite Hv. clear Hv Hn.
  set (v := if ss then Zneg ms else Zpos ms) in *.
  unfold float_compare_int in Hgt. fold v in Hgt.
  injection Hgt as Hgt.
  destruct es as [ | p | p].
  - change (v * 2 ^ 0 > n) in Hgt. rewrite Z.pow_0_r, Z.mul_1_r in Hgt.
    assert (0 < 2 ^ (0 - ez)) by (apply Z.pow_pos_nonneg; lia).
    replace (- ez) with (0 - ez) by lia. nia.
  - change (v * 2 ^ Zpos p > n) in Hgt.
    assert (Hez' : ez = e) by (unfold ez; lia).
    rewrite Hez'. replace (Zpos p - e) with (Zpos p + - e) by lia.
    rewrite Z.pow_add_r by lia.
    assert (0 < 2 ^ (- e)) by (apply Z.pow_pos_nonneg; lia).
    nia.
  - change (v > n * 2 ^ Zpos p) in Hgt.
    assert (Hpos : 0 < 2 ^ (Zneg p - ez)) by (apply Z.pow_pos_nonneg; lia).
    replace (- ez) with (Zpos p + (Zneg p - ez)) by lia.
    rewrite Z.pow_add_r by lia.
    nia.
Qed.

(** The excess of an alert is strictly positive when the threshold is a
    number floats hold exactly: subtraction never rounds a positive
    difference down to zero. *)
Lemma num_sub_pos (s : float) (t : num) (x : float) :
  is_float s = true ->
  match t with
  | Float f => is_float f = true
  | Int n => Z.abs n < 2 ^ 53
  end ->
  num_gt s t = true ->
  num_sub s t = Ok x ->
  float_pos x = true.
Proof.
  intros Hs Ht Hgt Hsub. destruct t as [n | f].
  2:{ injection Hsub as <-. apply float_sub_pos; assumption. }
  unfold num_sub, to_float in Hsub. unfold num_gt in Hgt.
  destruct (float_compare_int s n) as [[ | | ] | ] eqn:Hcmp; try discriminate.
  clear Hgt.
  destruct (Z.eq_dec n 0) as [-> | Hn].
  - change (float_of_int 0) with (S754_zero false) in Hsub.
    cbn [mbind result_bind] in Hsub. injection Hsub as <-.
    destruct s as [ss | ss | | ss ms es]; try discriminate.
    + destruct ss; [discriminate | reflexivity].
    + destruct ss; [exfalso | reflexivity].
      unfold float_compare_int in Hcmp. injection Hcmp as Hcmp.
      destruct es as [ | p | p].
      * discriminate.
      * change (Zneg ms * 2 ^ Zpos p > 0) in Hcmp.
        assert (0 < 2 ^ Zpos p) by (apply Z.pow_pos_nonneg; lia). nia.
      * discriminate.
  - destruct (float_of_int_small n Hn Ht) as (q & e & He & Hq & Hf).
    rewrite Hf in Hsub. cbn [mbind result_bind] in Hsub. injection Hsub as <-.
    destruct s as [ss | ss | | ss ms es]; try discriminate.
    + simpl in Hcmp. injection Hcmp as Hcmp. change (0 > n) in Hcmp.
      assert (Hneg : (n <? 0) = true) by (apply Z.ltb_lt; lia).
      rewrite Hneg. reflexivity.
    + simpl in Hcmp. destruct ss; [discriminate | reflexivity].
    + unfold is_float in Hs. simpl in Hs.
      destruct (bounded_shape ms es Hs) as (Hmin & _ & _).
      unfold float_sub, SFsub. apply binary_normalize_pos; [ | lia].
      rewrite !shl_align_value by lia.
      apply (aligned_above_int ss ms es n q e); assumption.
Qed.

Lemma round_half_even_scale (c a b : Z) :
  0 < c -> 0 < b -> round_half_even (c * a) (c * b) = round_half_even a b.
Proof.
  intros Hc Hb. unfold round_half_even.
  rewrite Z.div_mul_cancel_l by lia.
  rewrite Z.mul_mod_distr_l by lia.
  replace (2 * (c * (a mod b)) ?= c * b) with (2 * (a mod b) ?= b);
    [reflexivity | ].
  destruct (Z.compare_spec (2 * (a mod b)) b) as [H | H | H]; symmetry.
  - apply Z.compare_eq_iff. nia.
  - apply Z.compare_lt_iff. nia.
  - apply Z.compare_gt_iff. nia.
Qed.

(** The size printed for a byte count [n] below [2^53] (8 PiB): the
    division by [1024**3] succeeds, and the figure shown under [.1f] is
    [n / 1073741824] rounded to tenths, ties to even. *)
Lemma int_truediv_GiB_shown (n : Z) :
  0 <= n < 2 ^ 53 ->
  exists gb, int_truediv n 1073741824 = Ok gb /\
    shown_tenths gb = Some (round_half_even (n * 10) 1073741824) /\
    format_1f gb =
      (pretty (round_half_even (n * 10) 1073741824 / 10) ++ "." ++
       pretty (round_half_even (n * 10) 1073741824 mod 10))%string.
Proof.
  intros [Hn0 Hn].
  destruct n as [ | p | p]; [ | | lia].
  - eexists. split; [reflexivity | ]. split; reflexivity.
  - destruct (div_GiB_exact p Hn) as (q & Hq & Hdiv).
    pose proof (digits2_pos_bounds p) as [Hl Hu].
    set (d := Zpos (digits2_pos p)) in *.
    assert (Hd : 1 <= d <= 53).
    { split; [unfold d; lia | ].
      destruct (Z.le_gt_cases d 53); [assumption | ].
      assert (2 ^ 53 <= 2 ^ (d - 1)) by (apply Z.pow_le_mono_r; lia). lia. }
    assert (Hdef : Zpos (digits2_pos p) = d) by reflexivity.
    clearbody d.
    exists (S754_finite false q (d - 83)).
    assert (Ht : tenths q (d - 83) = round_half_even (Zpos p * 10) 1073741824).
    { unfold tenths. destruct (d - 83) as [ | e | e] eqn:He; try lia.
      rewrite Hq.
      replace (Zpos p * 2 ^ (53 - d) * 10) with (2 ^ (53 - d) * (Zpos p * 10)) by lia.
      replace (2 ^ Zpos e) with (2 ^ (53 - d) * 1073741824).
      - apply round_half_even_scale; [apply Z.pow_pos_nonneg; lia | lia].
      - change 1073741824 with (2 ^ 30). rewrite <- Z.pow_add_r by lia.
        f_equal. lia. }
    split; [ | split].
    + unfold int_truediv.
      change (Z.to_pos (Z.abs (Zpos p))) with p.
      change (Z.to_pos (Z.abs 1073741824)) with 1073741824%positive.
      change (Zpos p <? 0) with false. change (1073741824 <? 0) with false.
      rewrite Hdiv. reflexivity.
    + unfold shown_tenths. rewrite Ht. reflexivity.
    + unfold format_1f. rewrite Ht. reflexivity.
Qed.

Lemma round_half_even_nonneg n d : 0 <= n -> 0 < d -> 0 <= round_half_even n d.
Proof.
  intros Hn Hd. unfold round_half_even.
  assert (0 <= n / d) by (apply Z.div_pos; lia).
  destruct (2 * (n mod d) ?= d); try destruct (Z.even (n / d)); lia.
Qed.

Lemma tenths_nonneg m e : 0 <= tenths m e.
Proof.
  unfold tenths. destruct e as [ | p | p].
  - lia.
  - assert (0 < 2 ^ Zpos p) by (apply Z.pow_pos_nonneg; lia). lia.
  - apply round_half_even_nonneg; [lia | apply Z.pow_pos_nonneg; lia].
Qed.

(** Rounding to the nearest integer moves a quotient by at most one
    half. *)
Lemma round_half_even_close n d :
  0 < d -> Z.abs (2 * n - 2 * round_half_even n d * d) <= d.
Proof.
  intros Hd. unfold round_half_even.
  pose proof (Z.div_mod n d ltac:(lia)) as Hdm.
  pose proof (Z.mod_pos_bound n d Hd) as Hr.
  destruct (Z.compare_spec (2 * (n mod d)) d) as [H | H | H];
    try destruct (Z.even (n / d)); lia.
Qed.

(** What [.1f] shows of a finite float is a nearest tenth of it. *)
Lemma tenths_nearest m e : nearest_tenth m e (tenths m e).
Proof.
  unfold nearest_tenth, tenths. destruct e as [ | p | p]; try reflexivity.
  apply round_half_even_close. apply Z.pow_pos_nonneg; lia.
Qed.

Lemma round_nearest_even_le m l : round_nearest_even m l <= m + 1.
Proof. destruct l as [ | [ | | ]]; simpl; try destruct (Z.even m); lia. Qed.

(** An integer of [2^53] or more is rounded to one of the two multiples of
    [2^k] around it, where [k] is the number of bits it has beyond 53; the
    result may be infinite. *)
Lemma binary_round_large (sx : bool) (p : positive) :
  2 ^ 53 <= Zpos p ->
  let k := Zpos (digits2_pos p) - 53 in
  let m1 := Zpos p / 2 ^ k in
  0 < k /\
  2 ^ 52 <= m1 < 2 ^ 53 /\
  m1 * 2 ^ k <= Zpos p < (m1 + 1) * 2 ^ k /\
  (binary_round prec emax sx p 0 = S754_infinity sx \/
   exists mf ef, binary_round prec emax sx p 0 = S754_finite sx mf ef /\
     k <= ef /\
     m1 * 2 ^ k <= Zpos mf * 2 ^ ef <= (m1 + 1) * 2 ^ k).
Proof.
  intros Hp.
  pose proof (digits2_pos_bounds p) as [Hl Hu].
  set (d := Zpos (digits2_pos p)) in *.
  assert (Hd : 54 <= d).
  { destruct (Z.le_gt_cases 54 d); [assumption | ].
    assert (2 ^ d <= 2 ^ 53) by (apply Z.pow_le_mono_r; lia). lia. }
  intros k m1.
  assert (Hk : 0 < k) by (unfold k; lia).
  assert (Hpk : 0 < 2 ^ k) by (apply Z.pow_pos_nonneg; lia).
  assert (Hdk1 : 2 ^ (d - 1) = 2 ^ 52 * 2 ^ k).
  { rewrite <- Z.pow_add_r by lia. f_equal. unfold k. lia. }
  assert (Hdk : 2 ^ d = 2 ^ 53 * 2 ^ k).
  { rewrite <- Z.pow_add_r by lia. f_equal. unfold k. lia. }
  assert (Hm1 : 2 ^ 52 <= m1 < 2 ^ 53).
  { unfold m1. split.
    - apply Z.div_le_lower_bound; lia.
    - apply Z.div_lt_upper_bound; lia. }
  assert (Hpm : m1 * 2 ^ k <= Zpos p < (m1 + 1) * 2 ^ k).
  { pose proof (Z.div_mod (Zpos p) (2 ^ k) ltac:(lia)) as Hdm.
    pose proof (Z.mod_pos_bound (Zpos p) (2 ^ k) Hpk) as Hr.
    fold m1 in Hdm. lia. }
  split; [exact Hk | ]. split; [exact Hm1 | ]. split; [exact Hpm | ].
  enough (Hcases : forall P : spec_float -> Prop,
            P (S754_infinity sx) ->
            (forall mf ef, k <= ef ->
               m1 * 2 ^ k <= Zpos mf * 2 ^ ef <= (m1 + 1) * 2 ^ k ->
               P (S754_finite sx mf ef)) ->
            P (binary_round prec emax sx p 0)).
  { apply Hcases; [left; reflexivity | ].
    intros mf ef Hef Hbounds. right. exists mf, ef. auto. }
  intros P Hinf Hfin.
  unfold binary_round. fold d.
  assert (Hf : fexp prec emax (d + 0) = k).
  { unfold fexp, emin, prec, emax, k. lia. }
  rewrite Hf.
  assert (Hsh : shl_align p 0 k = (p, 0)).
  { unfold shl_align. destruct (k - 0) eqn:Hk0; try reflexivity. lia. }
  rewrite Hsh.
  unfold binary_round_aux, shr_fexp.
  change (Zdigits2 (Zpos p)) with d. rewrite Hf.
  replace (k - 0) with k by lia.
  destruct k as [ | kp | kp] eqn:Hkp; try lia.
  unfold shr at 1. cbv beta iota.
  set (mrs' := SpecFloat.iter_pos shr_1 kp (shr_record_of_loc (Zpos p) loc_Exact)).
  assert (Hmrs : shr_m mrs' = m1).
  { unfold mrs'. rewrite iter_shr_1_divides by (rewrite shr_record_of_loc_m; lia).
    rewrite shr_record_of_loc_m. reflexivity. }
  pose proof (round_nearest_even_ge (shr_m mrs') (loc_of_shr_record mrs')) as Hge.
  pose proof (round_nearest_even_le (shr_m mrs') (loc_of_shr_record mrs')) as Hle.
  rewrite Hmrs in Hge at 1. rewrite Hmrs in Hle at 2.
  destruct (round_nearest_even (shr_m mrs') (loc_of_shr_record mrs'))
    as [ | m2p | m2p]; try lia.
  change (Zdigits2 (Zpos m2p)) with (Zpos (digits2_pos m2p)).
  pose proof (digits2_pos_bounds m2p) as [Hl2 Hu2].
  set (d2 := Zpos (digits2_pos m2p)) in *.
  assert (Hd2 : d2 = 53 \/ (d2 = 54 /\ Zpos m2p = 2 ^ 53)).
  { destruct (Z.lt_trichotomy d2 53) as [Hlt | [Heq | Hgt]].
    - assert (2 ^ d2 <= 2 ^ 52) by (apply Z.pow_le_mono_r; unfold d2; lia). lia.
    - left. exact Heq.
    - right.
      assert (2 ^ 53 <= 2 ^ (d2 - 1)) by (apply Z.pow_le_mono_r; lia).
      assert (Heq : Zpos m2p = 2 ^ 53) by lia.
      split; [ | exact Heq].
      destruct (Z.le_gt_cases d2 54); [lia | ].
      assert (2 ^ 54 <= 2 ^ (d2 - 1)) by (apply Z.pow_le_mono_r; lia).
      change (2 ^ 54) with (2 * 2 ^ 53) in *. lia. }
  assert (Hf2 : fexp prec emax (d2 + (0 + Zpos kp)) - (0 + Zpos kp) = d2 - 53).
  { unfold fexp, emin, prec, emax. lia. }
  rewrite Hf2.
  destruct Hd2 as [Hd2 | [Hd2 Hm2v]]; rewrite Hd2.
  - change (53 - 53) with 0. unfold shr. cbn [shr_record_of_loc shr_m].
    destruct (0 + Zpos kp <=? emax - prec); [ | exact Hinf].
    apply Hfin; [lia | ].
    replace (0 + Zpos kp) with (Zpos kp) by lia. nia.
  - change (54 - 53) with 1. unfold shr.
    cbn [SpecFloat.iter_pos].
    assert (Hhalf : shr_m (shr_1 (shr_record_of_loc (Zpos m2p) loc_Exact)) = 2 ^ 52).
    { rewrite shr_1_halves by (rewrite shr_record_of_loc_m; lia).
      rewrite shr_record_of_loc_m, Hm2v. reflexivity. }
    rewrite Hhalf. change (2 ^ 52) with (Zpos 4503599627370496).
    destruct (0 + Zpos kp + 1 <=? emax - prec); [ | exact Hinf].
    apply Hfin; [lia | ].
    replace (0 + Zpos kp + 1) with (Z.succ (Zpos kp)) by lia.
    rewrite Z.pow_succ_r by lia.
    change (Zpos 4503599627370496) with (2 ^ 52).
    change (2 ^ 53) with (2 * 2 ^ 52) in *. nia.
Qed.

(** No float lies strictly between two neighbours [m1 * 2^k] and
    [(m1 + 1) * 2^k] of the 53-bit grid. *)
Lemma grid_gap (ms es m1 k : Z) :
  0 < ms < 2 ^ 53 -> 0 <= es -> 0 < k -> 2 ^ 52 <= m1 ->
  (m1 * 2 ^ k < ms * 2 ^ es -> (m1 + 1) * 2 ^ k <= ms * 2 ^ es) /\
  (ms * 2 ^ es < (m1 + 1) * 2 ^ k -> ms * 2 ^ es <= m1 * 2 ^ k).
Proof.
  intros Hms Hes Hk Hm1.
  assert (Hpk : 0 < 2 ^ k) by (apply Z.pow_pos_nonneg; lia).
  assert (Hpe : 0 < 2 ^ es) by (apply Z.pow_pos_nonneg; lia).
  destruct (Z.le_gt_cases k es) as [Hle | Hgt].
  - assert (Hsplit : 2 ^ es = 2 ^ (es - k) * 2 ^ k).
    { rewrite <- Z.pow_add_r by lia. f_equal. lia. }
    assert (Hpd : 0 < 2 ^ (es - k)) by (apply Z.pow_pos_nonneg; lia).
    rewrite Hsplit.
    set (a := ms * 2 ^ (es - k)).
    replace (ms * (2 ^ (es - k) * 2 ^ k)) with (a * 2 ^ k) by (unfold a; lia).
    split; intros H.
    + assert (m1 < a) by nia. nia.
    + assert (a < m1 + 1) by nia. nia.
  - assert (Hsplit : 2 ^ k = 2 ^ (k - es) * 2 ^ es).
    { rewrite <- Z.pow_add_r by lia. f_equal. lia. }
    assert (Hpd : 2 ^ 1 <= 2 ^ (k - es)) by (apply Z.pow_le_mono_r; lia).
    change (2 ^ 1) with 2 in Hpd.
    assert (Hbelow : ms * 2 ^ es < m1 * 2 ^ k).
    { rewrite Hsplit. change (2 ^ 53) with (2 * 2 ^ 52) in Hms.
      assert (ms < m1 * 2 ^ (k - es)) by nia. nia. }
    split; intros H; lia.
Qed.

(** The subtraction of two finite floats has the sign of the difference
    of their aligned mantissas. *)
Lemma sub_finite_nonneg ss ms es sf mf ef :
  emin prec emax <= es -> emin prec emax <= ef ->
  0 <= cond_Zopp ss (Zpos ms * 2 ^ (es - Z.min es ef)) -
       cond_Zopp sf (Zpos mf * 2 ^ (ef - Z.min es ef)) ->
  float_sub (S754_finite ss ms es) (S754_finite sf mf ef) = S754_zero false \/
  float_pos (float_sub (S754_finite ss ms es) (S754_finite sf mf ef)) = true.
Proof.
  intros Hes Hef HD. unfold float_sub, SFsub.
  rewrite !shl_align_value by lia.
  set (D := cond_Zopp ss (Zpos ms * 2 ^ (es - Z.min es ef)) -
            cond_Zopp sf (Zpos mf * 2 ^ (ef - Z.min es ef))) in *.
  destruct (Z.eq_dec D 0) as [-> | Hne].
  - left. reflexivity.
  - right. apply binary_normalize_pos; lia.
Qed.

(** A float above an int is not below the float to which the int is
    converted: the excess of an alert is zero or positive, never negative,
    whatever the int. *)
Lemma float_sub_int_nonneg (s : float) (n : Z) (f : float) :
  is_float s = true ->
  float_compare_int s n = Some Gt ->
  to_float n = Ok f ->
  float_sub s f = S754_zero false \/ float_pos (float_sub s f) = true.
Proof.
  intros Hs Hcmp Hf.
  destruct (Z.lt_ge_cases (Z.abs n) (2 ^ 53)) as [Hsmall | Hlarge].
  { right. apply (num_sub_pos s (Int n)); try assumption.
    - unfold num_gt. rewrite Hcmp. reflexivity.
    - unfold num_sub. rewrite Hf. reflexivity. }
  unfold to_float, float_of_int, binary_normalize in Hf.
  destruct n as [ | p | p]; [simpl in Hlarge; lia | | ].
  - (* a positive int *)
    destruct (binary_round_large false p Hlarge)
      as (Hk & Hm1 & Hp & [Hinf | (mf & ef & Hfin & Hef & HG)]);
      [rewrite Hinf in Hf; discriminate | ].
    rewrite Hfin in Hf. injection Hf as <-.
    set (k := Zpos (digits2_pos p) - 53) in *.
    set (m1 := Zpos p / 2 ^ k) in *.
    destruct s as [ss | ss | | ss ms es]; try discriminate.
    + simpl in Hcmp. destruct ss; [discriminate | ]. right. reflexivity.
    + unfold is_float in Hs. simpl in Hs.
      destruct (bounded_shape ms es Hs) as (Hmin & Hdig & _).
      pose proof (digits2_pos_bounds ms) as [_ Hms].
      assert (Hms53 : Zpos ms < 2 ^ 53).
      { assert (2 ^ Zpos (digits2_pos ms) <= 2 ^ 53)
          by (apply Z.pow_le_mono_r; unfold prec in Hdig; lia). lia. }
      apply sub_finite_nonneg; [assumption | unfold emin, prec, emax; lia | ].
      unfold float_compare_int in Hcmp. injection Hcmp as Hcmp.
      destruct es as [ | q | q].
      * (* the float is an integer, exponent 0 *)
        change ((if ss then Zneg ms else Zpos ms) * 2 ^ 0 > Zpos p) in Hcmp.
        destruct ss; [lia | ].
        pose proof (proj1 (grid_gap (Zpos ms) 0 m1 k ltac:(lia) ltac:(lia)
                             Hk ltac:(lia)) ltac:(lia)) as Hgrid.
        unfold cond_Zopp.
        set (ez := Z.min 0 ef).
        assert (Hez : 0 <= ez /\ ez <= 0 /\ ez <= ef) by (unfold ez; lia).
        assert (Hpz : 0 < 2 ^ ez) by (apply Z.pow_pos_nonneg; lia).
        assert (H1 : Zpos ms * 2 ^ (0 - ez) * 2 ^ ez = Zpos ms * 2 ^ 0).
        { rewrite <- Z.mul_assoc, <- Z.pow_add_r by lia. f_equal. f_equal. lia. }
        assert (H2 : Zpos mf * 2 ^ (ef - ez) * 2 ^ ez = Zpos mf * 2 ^ ef).
        { rewrite <- Z.mul_assoc, <- Z.pow_add_r by lia. f_equal. f_equal. lia. }
        nia.
      * (* the float is an integer, positive exponent *)
        change ((if ss then Zneg ms else Zpos ms) * 2 ^ Zpos q > Zpos p) in Hcmp.
        assert (Hpq : 0 < 2 ^ Zpos q) by (apply Z.pow_pos_nonneg; lia).
        destruct ss; [nia | ].
        pose proof (proj1 (grid_gap (Zpos ms) (Zpos q) m1 k ltac:(lia) ltac:(lia)
                             Hk ltac:(lia)) ltac:(lia)) as Hgrid.
        unfold cond_Zopp.
        set (ez := Z.min (Zpos q) ef).
        assert (Hez : 0 <= ez /\ ez <= Zpos q /\ ez <= ef) by (unfold ez; lia).
        assert (Hpz : 0 < 2 ^ ez) by (apply Z.pow_pos_nonneg; lia).
        assert (H1 : Zpos ms * 2 ^ (Zpos q - ez) * 2 ^ ez = Zpos ms * 2 ^ Zpos q).
        { rewrite <- Z.mul_assoc, <- Z.pow_add_r by lia. f_equal. f_equal. lia. }
        assert (H2 : Zpos mf * 2 ^ (ef - ez) * 2 ^ ez = Zpos mf * 2 ^ ef).
        { rewrite <- Z.mul_assoc, <- Z.pow_add_r by lia. f_equal. f_equal. lia. }
        nia.
      * (* the float has a fraction: it is below 2^53 *)
        change ((if ss then Zneg ms else Zpos ms) > Zpos p * 2 ^ Zpos q) in Hcmp.
        assert (Hpq : 0 < 2 ^ Zpos q) by (apply Z.pow_pos_nonneg; lia).
        exfalso. destruct ss; nia.
  - (* a negative int *)
    destruct (binary_round_large true p Hlarge)
      as (Hk & Hm1 & Hp & [Hinf | (mf & ef & Hfin & Hef & HG)]);
      [rewrite Hinf in Hf; discriminate | ].
    rewrite Hfin in Hf. injection Hf as <-.
    set (k := Zpos (digits2_pos p) - 53) in *.
    set (m1 := Zpos p / 2 ^ k) in *.
    assert (Hpk : 0 < 2 ^ k) by (apply Z.pow_pos_nonneg; lia).
    destruct s as [ss | ss | | ss ms es]; try discriminate.
    + right. reflexivity.
    + simpl in Hcmp. destruct ss; [discriminate | ]. right. reflexivity.
    + unfold is_float in Hs. simpl in Hs.
      destruct (bounded_shape ms es Hs) as (Hmin & Hdig & _).
      pose proof (digits2_pos_bounds ms) as [_ Hms].
      assert (Hms53 : Zpos ms < 2 ^ 53).
      { assert (2 ^ Zpos (digits2_pos ms) <= 2 ^ 53)
          by (apply Z.pow_le_mono_r; unfold prec in Hdig; lia). lia. }
      apply sub_finite_nonneg; [assumption | unfold emin, prec, emax; lia | ].
      unfold float_compare_int in Hcmp. injection Hcmp as Hcmp.
      set (ez := Z.min es ef).
      assert (Hpe : 0 < 2 ^ (es - ez)) by (apply Z.pow_pos_nonneg; unfold ez; lia).
      assert (Hpf : 0 < 2 ^ (ef - ez)) by (apply Z.pow_pos_nonneg; unfold ez; lia).
      destruct ss; unfold cond_Zopp; [ | nia].
      (* both negative: the float is the smaller in magnitude *)
      destruct es as [ | q | q].
      * change (Zneg ms * 2 ^ 0 > Zneg p) in Hcmp.
        pose proof (proj2 (grid_gap (Zpos ms) 0 m1 k ltac:(lia) ltac:(lia)
                             Hk ltac:(lia)) ltac:(lia)) as Hgrid.
        assert (Hez : 0 <= ez /\ ez <= 0 /\ ez <= ef) by (unfold ez; lia).
        assert (Hpz : 0 < 2 ^ ez) by (apply Z.pow_pos_nonneg; lia).
        assert (H1 : Zpos ms * 2 ^ (0 - ez) * 2 ^ ez = Zpos ms * 2 ^ 0).
        { rewrite <- Z.mul_assoc, <- Z.pow_add_r by lia. f_equal. f_equal. lia. }
        assert (H2 : Zpos mf * 2 ^ (ef - ez) * 2 ^ ez = Zpos mf * 2 ^ ef).
        { rewrite <- Z.mul_assoc, <- Z.pow_add_r by lia. f_equal. f_equal. lia. }
        nia.
      * change (Zneg ms * 2 ^ Zpos q > Zneg p) in Hcmp.
        pose proof (proj2 (grid_gap (Zpos ms) (Zpos q) m1 k ltac:(lia) ltac:(lia)
                             Hk ltac:(lia)) ltac:(lia)) as Hgrid.
        assert (Hez : 0 <= ez /\ ez <= Zpos q /\ ez <= ef) by (unfold ez; lia).
        assert (Hpz : 0 < 2 ^ ez) by (apply Z.pow_pos_nonneg; lia).
        assert (H1 : Zpos ms * 2 ^ (Zpos q - ez) * 2 ^ ez = Zpos ms * 2 ^ Zpos q).
        { rewrite <- Z.mul_assoc, <- Z.pow_add_r by lia. f_equal. f_equal. lia. }
        assert (H2 : Zpos mf * 2 ^ (ef - ez) * 2 ^ ez = Zpos mf * 2 ^ ef).
        { rewrite <- Z.mul_assoc, <- Z.pow_add_r by lia. f_equal. f_equal. lia. }
        nia.
      * (* the float has a fraction: its magnitude is below 2^53 *)
        assert (Hez : ez = Zneg q) by (unfold ez; lia).
        rewrite Hez, Z.sub_diag, Z.pow_0_r, Z.mul_1_r.
        assert (Hsplit : 2 ^ (ef - Zneg q) = 2 ^ ef * 2 ^ Zpos q).
        { rewrite <- Z.pow_add_r by lia. f_equal. }
        rewrite Hsplit.
        assert (Hpq : 1 <= 2 ^ Zpos q)
          by (assert (0 < 2 ^ Zpos q) by (apply Z.pow_pos_nonneg; lia); lia).
        assert (HG53 : 2 ^ 53 <= Zpos mf * 2 ^ ef).
        { change (2 ^ 53) with (2 ^ 52 * 2 ^ 1).
          assert (2 ^ 1 <= 2 ^ k) by (apply Z.pow_le_mono_r; lia). nia. }
        nia.
Qed.

(** The excess of an alert is never negative: it is [0.0] or positive. *)
Lemma num_sub_nonneg (s : float) (t : num) (x : float) :
  is_float s = true ->
  is_num t = true ->
  num_gt s t = true ->
  num_sub s t = Ok x ->
  x = S754_zero false \/ float_pos x = true.
Proof.
  intros Hs Ht Hgt Hsub. destruct t as [n | f].
  - unfold num_gt in Hgt.
    destruct (float_compare_int s n) as [[ | | ] | ] eqn:Hcmp; try discriminate.
    unfold num_sub in Hsub.
    destruct (to_float n) as [f | e] eqn:Hf; [ | discriminate].
    cbn [mbind result_bind] in Hsub. injection Hsub as <-.
    apply (float_sub_int_nonneg s n f); assumption.
  - right. apply (num_sub_pos s (Float f)); assumption.
Qed.

End Float_facts.

(** * Properties of the monitoring loop *)
Section Loop.
Import Py System_Agents Events.

Lemma threshold_set_is_monitoring b self :
  cpu_threshold (set_is_monitoring b self) = cpu_threshold self.
Proof. reflexivity. Qed.

Lemma interval_set_is_monitoring b self :
  check_interval (set_is_monitoring b self) = check_interval self.
Proof. reflexivity. Qed.

Lemma concurrent_stop_config here c self :
  cpu_threshold (snd (concurrent_stop here c self)) = cpu_threshold self /\
  check_interval (snd (concurrent_stop here c self)) = check_interval self.
Proof.
  unfold concurrent_stop.
  destruct (stop c) as [[ | ] | ], here; simpl; auto.
Qed.

Lemma while_flag_off self script :
  is_monitoring self = false ->
  while_is_monitoring self script =
    {| loop_out := []; loop_self := self; loop_unread := script;
       loop_exit_by := Condition_false |}.
Proof. intros Hoff. destruct script; simpl; rewrite Hoff; reflexivity. Qed.

(** What the [if] statement of the loop body prints and whether it
    raises depend on the reading and the threshold only. *)
Lemma evaluate_threshold self self' s time :
  cpu_threshold self' = cpu_threshold self ->
  evaluate self' s time = evaluate self s time.
Proof.
  intros Ht. unfold evaluate, alert_high_cpu. rewrite Ht. reflexivity.
Qed.

(** It raises exactly when an alert is due and the subtraction raises. *)
Lemma evaluate_raises self s time e :
  snd (evaluate self s time) = Raise e <->
  num_gt s (cpu_threshold self) = true /\ num_sub s (cpu_threshold self) = Raise e.
Proof.
  unfold evaluate, alert_high_cpu.
  destruct (num_gt s (cpu_threshold self)).
  - destruct (num_sub s (cpu_threshold self)) as [x | e']; simpl.
    + split; [discriminate | intros [_ H]; discriminate].
    + split; [intros [= <-]; auto | intros [_ [= <-]]; reflexivity].
  - simpl. split; [discriminate | intros [H _]; discriminate].
Qed.

Lemma evaluate_lines_raise self s time :
  lines_raise (cpu_threshold self) s =
    match snd (evaluate self s time) with Raise _ => true | Ok _ => false end.
Proof.
  unfold lines_raise, evaluate, alert_high_cpu.
  destruct (num_gt s (cpu_threshold self)); [ | reflexivity].
  destruct (num_sub s (cpu_threshold self)); reflexivity.
Qed.

(** A subtraction raises only [OverflowError]. *)
Lemma num_sub_raises s t e :
  num_sub s t = Raise e -> exn_class e = OverflowError.
Proof.
  destruct t as [n | f]; [ | discriminate].
  unfold num_sub, to_float.
  destruct (float_of_int n); cbn [mbind result_bind]; try discriminate.
  intros [= <-]. reflexivity.
Qed.

(** One iteration, with the flag on. *)
Lemma while_flag_on self c script :
  is_monitoring self = true ->
  while_is_monitoring self (c :: script) =
    let '(o1, self1) := concurrent_stop In_sample c self in
    match sample c with
    | Raise e =>
        {| loop_out := o1; loop_self := self1; loop_unread := script;
           loop_exit_by := Raised e |}
    | Ok cpu_usage =>
        match evaluate self1 cpu_usage (clock c) with
        | (o2, Raise e) =>
            {| loop_out := o1 ++ o2; loop_self := self1;
               loop_unread := script; loop_exit_by := Raised e |}
        | (o2, Ok _) =>
            let '(o3, self2) := concurrent_stop In_sleep c self1 in
            match time_sleep (check_interval self2) (wakeup c) with
            | Raise e =>
                {| loop_out := o1 ++ o2 ++ o3; loop_self := self2;
                   loop_unread := script; loop_exit_by := Raised e |}
            | Ok _ => emit (o1 ++ o2 ++ o3) (while_is_monitoring self2 script)
            end
        end
    end.
Proof. intros Hon. simpl. rewrite Hon. reflexivity. Qed.

(** The loop is left through its condition only with the flag cleared. *)
Lemma while_condition_false self script :
  loop_exit_by (while_is_monitoring self script) = Condition_false ->
  is_monitoring (loop_self (while_is_monitoring self script)) = false.
Proof.
  revert self. induction script as [ | c script IH]; intros self.
  - simpl. destruct (is_monitoring self) eqn:Hflag; simpl; [discriminate | auto].
  - destruct (is_monitoring self) eqn:Hflag.
    + rewrite while_flag_on by assumption.
      destruct (concurrent_stop In_sample c self) as [o1 self1].
      destruct (sample c) as [cpu_usage | e]; [ | simpl; discriminate].
      destruct (evaluate self1 cpu_usage (clock c)) as [o2 [u | e]];
        [ | simpl; discriminate].
      destruct (concurrent_stop In_sleep c self1) as [o3 self2].
      destruct (time_sleep (check_interval self2) (wakeup c));
        [ | simpl; discriminate].
      simpl. apply IH.
    + rewrite while_flag_off by assumption. simpl; auto.
Qed.

(** The exception that ends the loop is one a cycle of the script raised,
    or the [OverflowError] of a subtraction or of a sleep too long, or the
    [ValueError] of a negative sleep. *)
Lemma while_raised_handled self script e :
  forallb catchable script = true ->
  loop_exit_by (while_is_monitoring self script) = Raised e ->
  handled e = true.
Proof.
  revert self. induction script as [ | c script IH]; intros self Hall.
  - simpl. destruct (is_monitoring self); simpl; discriminate.
  - simpl in Hall. apply andb_prop in Hall as [Hc Hall].
    apply andb_prop in Hc as [Hsample Hwake].
    destruct (is_monitoring self) eqn:Hflag.
    + rewrite while_flag_on by assumption.
      destruct (concurrent_stop In_sample c self) as [o1 self1].
      destruct (sample c) as [cpu_usage | e'].
      * destruct (evaluate self1 cpu_usage (clock c)) as [o2 [u | e']] eqn:Hev.
        2:{ simpl. intros [= <-].
            assert (Hr : snd (evaluate self1 cpu_usage (clock c)) = Raise e')
              by (rewrite Hev; reflexivity).
            apply evaluate_raises in Hr as [_ Hr].
            apply num_sub_raises in Hr.
            unfold handled, isinstance_Exception. rewrite Hr.
            apply orb_true_r. }
        destruct (concurrent_stop In_sleep c self1) as [o3 self2].
        unfold time_sleep.
        destruct ((check_interval self2 <? - sleep_max) ||
                  (sleep_max <? check_interval self2)).
        { simpl. intros [= <-]. reflexivity. }
        destruct (check_interval self2 <? 0).
        -- simpl. intros [= <-]. reflexivity.
        -- destruct (wakeup c) as [u' | e'']; simpl.
           ++ apply IH; assumption.
           ++ intros [= <-]. assumption.
      * simpl. intros [= <-]. assumption.
    + rewrite while_flag_off by assumption. simpl. discriminate.
Qed.

(** A script with a raising cycle cannot be used up: the loop has ended
    before its end. *)
Lemma while_not_awaiting self script :
  existsb (raises (check_interval self) (cpu_threshold self)) script = true ->
  loop_exit_by (while_is_monitoring self script) <> Awaiting.
Proof.
  revert self. induction script as [ | c script IH]; intros self Hex.
  - discriminate.
  - destruct (is_monitoring self) eqn:Hflag.
    + rewrite while_flag_on by assumption.
      pose proof (concurrent_stop_config In_sample c self) as [Ht1 Hi1].
      destruct (concurrent_stop In_sample c self) as [o1 self1];
        simpl in Ht1, Hi1.
      simpl in Hex. unfold raises at 1 in Hex.
      destruct (sample c) as [cpu_usage | e']; [ | simpl; discriminate].
      rewrite <- Ht1, (evaluate_lines_raise self1 cpu_usage (clock c)) in Hex.
      destruct (evaluate self1 cpu_usage (clock c)) as [o2 [u | e']];
        [ | simpl; discriminate].
      pose proof (concurrent_stop_config In_sleep c self1) as [Ht2 Hi2].
      destruct (concurrent_stop In_sleep c self1) as [o3 self2];
        simpl in Ht2, Hi2.
      assert (Hi : check_interval self2 = check_interval self) by congruence.
      assert (Ht : cpu_threshold self2 = cpu_threshold self) by congruence.
      rewrite Hi.
      destruct (time_sleep (check_interval self) (wakeup c)); [ | simpl; discriminate].
      simpl in Hex. simpl. apply IH. rewrite Hi, Ht, <- Ht1. exact Hex.
    + rewrite while_flag_off by assumption. simpl. discriminate.
Qed.

Lemma emit_nil r : emit [] r = r.
Proof. destruct r; reflexivity. Qed.

Lemma emit_emit o o' r : emit o (emit o' r) = emit (o ++ o') r.
Proof. unfold emit; simpl. rewrite app_assoc. reflexivity. Qed.

(** When the loop gets through [before] and is still looping, it goes on
    with what follows, from the state it has reached. *)
Lemma while_app self before rest :
  loop_exit_by (while_is_monitoring self before) = Awaiting ->
  is_monitoring (loop_self (while_is_monitoring self before)) = true /\
  while_is_monitoring self (before ++ rest) =
    emit (loop_out (while_is_monitoring self before))
         (while_is_monitoring (loop_self (while_is_monitoring self before)) rest).
Proof.
  revert self. induction before as [ | c before IH]; intros self.
  - simpl. destruct (is_monitoring self) eqn:Hflag; simpl; [ | discriminate].
    intros _. split; [assumption | ]. rewrite emit_nil. reflexivity.
  - destruct (is_monitoring self) eqn:Hflag.
    + rewrite <- app_comm_cons. rewrite !while_flag_on by assumption.
      destruct (concurrent_stop In_sample c self) as [o1 self1].
      destruct (sample c) as [cpu_usage | e]; [ | simpl; discriminate].
      destruct (evaluate self1 cpu_usage (clock c)) as [o2 [u | e]];
        [ | simpl; discriminate].
      destruct (concurrent_stop In_sleep c self1) as [o3 self2].
      destruct (time_sleep (check_interval self2) (wakeup c));
        [ | simpl; discriminate].
      simpl. intros Hawait. destruct (IH self2 Hawait) as [Hon ->].
      split; [assumption | ]. rewrite emit_emit. reflexivity.
    + rewrite while_flag_off by assumption. simpl. discriminate.
Qed.

(** A call of [monitor_cpu] which no exception reaches outside its [try]
    block. *)
Lemma monitor_cpu_undisturbed self script :
  monitor_cpu self undisturbed script =
    let self := set_is_monitoring true self in
    let o0 := [Cpu_start (cpu_threshold self); Cpu_hint] in
    let r := while_is_monitoring self script in
    match loop_exit_by r with
    | Condition_false =>
        {| stdout := o0 ++ loop_out r; agent := loop_self r;
           unread := loop_unread r; ended := Returned |}
    | Raised e =>
        if isinstance_KeyboardInterrupt e then
          {| stdout := o0 ++ loop_out r ++ [Cpu_interrupted];
             agent := set_is_monitoring false (loop_self r);
             unread := loop_unread r; ended := Returned |}
        else if isinstance_Exception e then
          {| stdout := o0 ++ loop_out r ++ [Cpu_error e];
             agent := set_is_monitoring false (loop_self r);
             unread := loop_unread r; ended := Returned |}
        else
          {| stdout := o0 ++ loop_out r; agent := loop_self r;
             unread := loop_unread r; ended := Propagated e |}
    | Awaiting =>
        {| stdout := o0 ++ loop_out r; agent := loop_self r;
           unread := loop_unread r; ended := Running |}
    end.
Proof.
  unfold monitor_cpu, handler, undisturbed. cbn [on_entry on_handler]. cbv zeta.
  destruct (loop_exit_by _) as [ | e | ]; reflexivity.
Qed.

(** An exception that arrives before the [try] statement leaves the call
    at once: the loop is never entered. *)
Lemma monitor_cpu_entry self a script p e :
  on_entry a = Some (p, e) ->
  let r := monitor_cpu self a script in
  ended r = Propagated e /\
  unread r = script /\
  stdout r = match p with
             | At_hint_line => [Cpu_start (cpu_threshold self)]
             | _ => []
             end /\
  agent r = match p with
            | At_flag => self
            | _ => set_is_monitoring true self
            end.
Proof.
  intros Hentry. cbv zeta. unfold monitor_cpu. rewrite Hentry.
  destruct p; repeat split; reflexivity.
Qed.

(** The loop keeps the configuration of the agent. *)
Lemma while_config self script :
  cpu_threshold (loop_self (while_is_monitoring self script)) = cpu_threshold self /\
  check_interval (loop_self (while_is_monitoring self script)) = check_interval self.
Proof.
  revert self. induction script as [ | c script IH]; intros self.
  - simpl. destruct (is_monitoring self); simpl; auto.
  - destruct (is_monitoring self) eqn:Hflag.
    + rewrite while_flag_on by assumption.
      pose proof (concurrent_stop_config In_sample c self) as [Ht1 Hi1].
      destruct (concurrent_stop In_sample c self) as [o1 self1]; simpl in Ht1, Hi1.
      destruct (sample c) as [cpu_usage | e]; [ | simpl; auto].
      destruct (evaluate self1 cpu_usage (clock c)) as [o2 [u | e]];
        [ | simpl; auto].
      pose proof (concurrent_stop_config In_sleep c self1) as [Ht2 Hi2].
      destruct (concurrent_stop In_sleep c self1) as [o3 self2]; simpl in Ht2, Hi2.
      destruct (time_sleep (check_interval self2) (wakeup c)).
      * simpl. destruct (IH self2) as [-> ->]. split; congruence.
      * simpl. split; congruence.
    + rewrite while_flag_off by assumption. simpl; auto.
Qed.

Lemma monitor_cpu_config self a script :
  cpu_threshold (agent (monitor_cpu self a script)) = cpu_threshold self /\
  check_interval (agent (monitor_cpu self a script)) = check_interval self.
Proof.
  unfold monitor_cpu, handler.
  destruct (on_entry a) as [[[ | | ] e0] | ]; try (cbn [agent]; auto).
  destruct (while_config (set_is_monitoring true self) script) as [Ht Hi].
  destruct (loop_exit_by _) as [ | e | ];
    [ | destruct (isinstance_KeyboardInterrupt e);
        [ | destruct (isinstance_Exception e)] | ];
    try (destruct (on_handler a) as [[[ | ] e1] | ]);
    cbn [agent]; rewrite ?threshold_set_is_monitoring, ?interval_set_is_monitoring;
    auto.
Qed.

End Loop.

(** * The claims about the monitor's control flow *)
Section Monitor.
Import Py System_Agents Events.

(** C10.  Whenever [monitor_cpu] returns, whether the loop saw the flag
    cleared, Ctrl+C was caught or another exception was caught, the agent is
    left with [is_monitoring == False]; this holds whatever arrives outside
    the [try] block, since the call does not return then. *)
Theorem monitor_cpu_returns_not_monitoring self a script :
  ended (monitor_cpu self a script) = Returned ->
  is_monitoring (agent (monitor_cpu self a script)) = false.
Proof.
  unfold monitor_cpu.
  destruct (on_entry a) as [[[ | | ] e0] | ]; try (simpl; discriminate).
  pose proof (while_condition_false (set_is_monitoring true self) script) as Hcond.
  destruct (loop_exit_by (while_is_monitoring (set_is_monitoring true self) script))
    as [ | e | ].
  - intros _. simpl. apply Hcond. reflexivity.
  - unfold handler.
    destruct (isinstance_KeyboardInterrupt e);
      [ | destruct (isinstance_Exception e)];
      try (destruct (on_handler a) as [[[ | ] e1] | ]);
      simpl; first [discriminate | reflexivity].
  - simpl. discriminate.
Qed.

Lemma monitor_cpu_returns_not_monitoring_witness :
  is_monitoring
    (agent (monitor_cpu demo_agent undisturbed
              [reading "2024-01-01 12:00:00" (decimal 50 1);
               interrupted "2024-01-01 12:00:11" (decimal 150 1)])) = false.
Proof. apply monitor_cpu_returns_not_monitoring. reflexivity. Defined.

(** C5, as the code has it.  The two handlers protect the loop only.
    When every exception a cycle meets is Ctrl+C or an [Exception]:
    if nothing arrives outside the [try] block, no exception leaves
    [monitor_cpu], and once a cycle raises the call returns with
    [is_monitoring] cleared; an exception that arrives before the [try]
    statement leaves the call at once, the loop never entered; and whatever
    leaves the call arrived before the [try] statement or while a handler
    ran. *)
Theorem monitor_cpu_catches_inside_try self a script :
  forallb catchable script = true ->
  let r := monitor_cpu self a script in
  (on_entry a = None -> on_handler a = None ->
   (forall e, ended r <> Propagated e) /\
   (existsb (raises (check_interval self) (cpu_threshold self)) script = true ->
    ended r = Returned /\ is_monitoring (agent r) = false)) /\
  (forall p e, on_entry a = Some (p, e) ->
     ended r = Propagated e /\ unread r = script /\ events (stdout r) = []) /\
  (forall e, ended r = Propagated e ->
     (exists p, on_entry a = Some (p, e)) \/
     (exists p, on_handler a = Some (p, e))).
Proof.
  intros Hall r. subst r.
  pose proof (while_raised_handled (set_is_monitoring true self) script) as Hh.
  pose proof (while_not_awaiting (set_is_monitoring true self) script) as Hna.
  pose proof (while_condition_false (set_is_monitoring true self) script) as Hcond.
  rewrite interval_set_is_monitoring, threshold_set_is_monitoring in Hna.
  split; [ | split].
  - intros Hentry Hhandler. unfold monitor_cpu, handler.
    rewrite Hentry, Hhandler. cbv zeta.
    destruct (loop_exit_by (while_is_monitoring (set_is_monitoring true self) script))
      as [ | e' | ].
    + cbn [ended agent]. split; [discriminate | ]. auto.
    + specialize (Hh e' Hall eq_refl). unfold handled in Hh.
      destruct (isinstance_KeyboardInterrupt e').
      * cbn [ended agent]. split; [discriminate | ]. auto.
      * simpl in Hh. rewrite Hh. cbn [ended agent]. split; [discriminate | ]. auto.
    + cbn [ended agent]. split; [discriminate | ].
      intros Hex. exfalso. apply (Hna Hex). reflexivity.
  - intros p e Hentry.
    destruct (monitor_cpu_entry self a script p e Hentry) as (He & Hu & Ho & _).
    split; [exact He | ]. split; [exact Hu | ].
    rewrite Ho. destruct p; reflexivity.
  - intros e. unfold monitor_cpu, handler.
    destruct (on_entry a) as [[p e0] | ].
    + destruct p; cbn [ended]; intros [= <-]; left; eauto.
    + cbv zeta.
      destruct (loop_exit_by (while_is_monitoring (set_is_monitoring true self) script))
        as [ | e' | ]; [cbn [ended]; discriminate | | cbn [ended]; discriminate].
      specialize (Hh e' Hall eq_refl). unfold handled in Hh.
      destruct (isinstance_KeyboardInterrupt e');
        [ | simpl in Hh; rewrite Hh];
        (destruct (on_handler a) as [[[ | ] e1] | ]; cbn [ended];
         [intros [= <-]; right; eauto | intros [= <-]; right; eauto | discriminate]).
Qed.

Lemma monitor_cpu_catches_inside_try_witness :
  let r := monitor_cpu demo_agent undisturbed
             [reading "2024-01-01 12:00:00" (decimal 50 1);
              failing "2024-01-01 12:00:11" (Exn OSError "sensor read failed")] in
  ended r = Returned /\ is_monitoring (agent r) = false.
Proof.
  refine (proj2 (proj1 (monitor_cpu_catches_inside_try demo_agent undisturbed _ _)
                       eq_refl eq_refl) _);
    vm_compute; reflexivity.
Defined.

(** C5 as stated fails: a Ctrl+C that arrives while the line "Press Ctrl+C
    to stop monitoring" is printed, before the [try] statement, leaves
    [monitor_cpu] with the flag set; and so does a second Ctrl+C that
    arrives while the handler of the first prints its line. *)
Lemma interrupt_outside_try_escapes :
  let e := Exn KeyboardInterrupt "" in
  (let r := monitor_cpu demo_agent
              {| on_entry := Some (At_hint_line, e); on_handler := None |}
              [reading "12:00:00" (decimal 50 1)] in
   ended r = Propagated e /\ is_monitoring (agent r) = true /\
   stdout r = [Cpu_start (Int 10)]) /\
  (let r := monitor_cpu demo_agent
              {| on_entry := None; on_handler := Some (At_closing_line, e) |}
              [interrupted "12:00:00" (decimal 50 1)] in
   ended r = Propagated e /\ is_monitoring (agent r) = true /\
   stdout r = [Cpu_start (Int 10); Cpu_hint;
               Cpu_normal "12:00:00" (decimal 50 1)]).
Proof. vm_compute. repeat split. Qed.

(** A cycle emits at most one event, whatever is printed after it. *)
Lemma evaluate_one_event self s time h :
  (length (events (fst (evaluate self s time) ++ h)) <= 1 + length (events h))%nat.
Proof.
  unfold evaluate, alert_high_cpu.
  destruct (num_gt s (cpu_threshold self)); [ | simpl; lia].
  destruct (num_sub s (cpu_threshold self)); simpl.
  - lia.
  - destruct h as [ | p h]; [simpl; lia | ]. destruct p; simpl; lia.
Qed.

(** The cycle a [stop_monitoring] lands in is the last one: what follows
    it in the script stays unread, and after the line [stop_monitoring]
    prints at most the event of that cycle is still emitted. *)
Lemma stop_cycle self c after :
  is_monitoring self = true ->
  stop_invoked (cpu_threshold self) c = true ->
  let r := while_is_monitoring self (c :: after) in
  loop_unread r = after /\
  loop_exit_by r <> Awaiting /\
  is_monitoring (loop_self r) = false /\
  exists o1 o2, loop_out r = o1 ++ Stop_done :: o2 /\
    forall h, (length (events (o2 ++ h)) <= 1 + length (events h))%nat.
Proof.
  intros Hon Hstop r. subst r.
  rewrite while_flag_on by assumption.
  unfold stop_invoked in Hstop. unfold concurrent_stop.
  destruct (stop c) as [[ | ] | ]; [ | | discriminate];
    cbn [stop_monitoring].
  - (* the stop lands while the sample is measured *)
    destruct (sample c) as [cpu_usage | e].
    2:{ cbn [loop_out loop_self loop_unread loop_exit_by].
        split; [reflexivity | ]. split; [discriminate | ]. split; [reflexivity | ].
        exists [], []. split; [reflexivity | intros h; simpl; lia]. }
    pose proof (evaluate_one_event (set_is_monitoring false self) cpu_usage
                  (clock c)) as Hone.
    destruct (evaluate (set_is_monitoring false self) cpu_usage (clock c))
      as [o2 [u | e]]; cbn [fst] in Hone.
    2:{ cbn [loop_out loop_self loop_unread loop_exit_by].
        split; [reflexivity | ]. split; [discriminate | ]. split; [reflexivity | ].
        exists [], o2. split; [reflexivity | exact Hone]. }
    destruct (time_sleep (check_interval (set_is_monitoring false self)) (wakeup c));
      rewrite ?while_flag_off by reflexivity;
      unfold emit; cbn [loop_out loop_self loop_unread loop_exit_by];
      (split; [reflexivity | ]); (split; [discriminate | ]);
      (split; [reflexivity | ]);
      exists [], o2; rewrite ?app_nil_r; (split; [reflexivity | exact Hone]).
  - (* the stop lands after the lines of the cycle *)
    destruct (sample c) as [cpu_usage | e]; [ | discriminate].
    rewrite (evaluate_lines_raise self cpu_usage (clock c)) in Hstop.
    destruct (evaluate self cpu_usage (clock c)) as [o2 [u | e]];
      [ | discriminate].
    destruct (time_sleep (check_interval (set_is_monitoring false self)) (wakeup c));
      rewrite ?while_flag_off by reflexivity;
      unfold emit; cbn [loop_out loop_self loop_unread loop_exit_by];
      (split; [reflexivity | ]); (split; [discriminate | ]);
      (split; [reflexivity | ]);
      exists o2, []; rewrite ?app_nil_r; (split; [reflexivity | intros h; simpl; lia]).
Qed.

(** C6.  Once [stop_monitoring] is invoked during a cycle of a running
    loop, the loop ends at its next test of [is_monitoring]: the cycles
    that follow in the script are never begun, and after the line
    [stop_monitoring] prints at most one event (the one of the cycle under
    way) is still emitted. *)
Theorem stop_takes_effect_at_next_check self before c after :
  gets_through self before ->
  stop_invoked (cpu_threshold self) c = true ->
  let r := monitor_cpu self undisturbed (before ++ c :: after) in
  unread r = after /\
  ended r <> Running /\
  is_monitoring (agent r) = false /\
  exists o1 o2, stdout r = o1 ++ Stop_done :: o2 /\
    (length (events o2) <= 1)%nat.
Proof.
  intros Hreach Hstop r. subst r. rewrite monitor_cpu_undisturbed. cbv zeta.
  destruct (while_app _ before (c :: after) Hreach) as [Hon ->].
  destruct (while_config (set_is_monitoring true self) before) as [Ht _].
  rewrite threshold_set_is_monitoring in Ht. rewrite <- Ht in Hstop.
  set (self' := loop_self (while_is_monitoring (set_is_monitoring true self) before)) in *.
  set (ob := loop_out (while_is_monitoring (set_is_monitoring true self) before)).
  destruct (stop_cycle self' c after Hon Hstop)
    as (Hunread & Hexit & Hoff & o1 & o2 & Hout & Hlen).
  unfold emit; cbn [loop_out loop_self loop_unread loop_exit_by].
  rewrite Hout, Hunread.
  destruct (loop_exit_by (while_is_monitoring self' (c :: after))) as [ | e | ];
    [ | | contradiction].
  - cbn [stdout agent unread ended].
    repeat (split; [first [assumption | discriminate | reflexivity] | ]).
    exists ([Cpu_start (cpu_threshold self); Cpu_hint] ++ ob ++ o1), o2.
    split.
    + rewrite <- !app_assoc. reflexivity.
    + specialize (Hlen []). rewrite app_nil_r in Hlen. simpl in Hlen. lia.
  - destruct (isinstance_KeyboardInterrupt e);
      [ | destruct (isinstance_Exception e)]; cbn [stdout agent unread ended];
      repeat (split; [first [assumption | discriminate | reflexivity] | ]).
    + exists ([Cpu_start (cpu_threshold self); Cpu_hint] ++ ob ++ o1),
             (o2 ++ [Cpu_interrupted]).
      split.
      * rewrite <- !app_assoc. reflexivity.
      * specialize (Hlen [Cpu_interrupted]). simpl in Hlen. lia.
    + exists ([Cpu_start (cpu_threshold self); Cpu_hint] ++ ob ++ o1),
             (o2 ++ [Cpu_error e]).
      split.
      * rewrite <- !app_assoc. reflexivity.
      * specialize (Hlen [Cpu_error e]). simpl in Hlen. lia.
    + exists ([Cpu_start (cpu_threshold self); Cpu_hint] ++ ob ++ o1), o2.
      split.
      * rewrite <- !app_assoc. reflexivity.
      * specialize (Hlen []). rewrite app_nil_r in Hlen. simpl in Hlen. lia.
Qed.

Lemma stop_takes_effect_at_next_check_witness :
  let r := monitor_cpu demo_agent undisturbed
             ([reading "2024-01-01 12:00:00" (decimal 50 1)] ++
              stopped "2024-01-01 12:00:11" (decimal 150 1) In_sample ::
              [reading "2024-01-01 12:00:22" (decimal 50 1)]) in
  unread r = [reading "2024-01-01 12:00:22" (decimal 50 1)] /\
  ended r <> Running /\
  is_monitoring (agent r) = false /\
  exists o1 o2, stdout r = o1 ++ Stop_done :: o2 /\
    (length (events o2) <= 1)%nat.
Proof.
  apply (stop_takes_effect_at_next_check demo_agent
           [reading "2024-01-01 12:00:00" (decimal 50 1)]
           (stopped "2024-01-01 12:00:11" (decimal 150 1) In_sample)
           [reading "2024-01-01 12:00:22" (decimal 50 1)]);
    vm_compute; reflexivity.
Defined.

(** C3, as the code has it.  A failed sample read is not skipped over: the
    exception leaves the loop, [monitor_cpu] reports it with the line
    "Error during monitoring", clears [is_monitoring] and returns; the
    cycles that follow are never begun. *)
Theorem failed_read_ends_monitoring self before c after e :
  gets_through self before ->
  sample c = Raise e ->
  isinstance_Exception e = true ->
  let r := monitor_cpu self undisturbed (before ++ c :: after) in
  ended r = Returned /\
  is_monitoring (agent r) = false /\
  unread r = after /\
  exists o, stdout r = o ++ [Cpu_error e].
Proof.
  intros Hreach Hsample Hexc r. subst r. rewrite monitor_cpu_undisturbed. cbv zeta.
  destruct (while_app _ before (c :: after) Hreach) as [Hon ->].
  rewrite (while_flag_on _ c after Hon).
  destruct (concurrent_stop In_sample c _) as [o1 self1].
  rewrite Hsample. unfold emit; cbn [loop_out loop_self loop_unread loop_exit_by].
  assert (Hki : isinstance_KeyboardInterrupt e = false).
  { unfold isinstance_Exception in Hexc. unfold isinstance_KeyboardInterrupt.
    destruct (exn_class e); congruence. }
  rewrite Hki, Hexc. cbn [stdout agent unread ended].
  repeat (split; [reflexivity | ]).
  eexists. rewrite !app_assoc. reflexivity.
Qed.

Lemma failed_read_ends_monitoring_witness :
  let e := Exn OSError "sensor read failed" in
  let r := monitor_cpu demo_agent undisturbed
             ([reading "2024-01-01 12:00:00" (decimal 50 1)] ++
              failing "2024-01-01 12:00:11" e ::
              [reading "2024-01-01 12:00:22" (decimal 50 1)]) in
  ended r = Returned /\
  is_monitoring (agent r) = false /\
  unread r = [reading "2024-01-01 12:00:22" (decimal 50 1)] /\
  exists o, stdout r = o ++ [Cpu_error e].
Proof.
  intros e.
  apply (failed_read_ends_monitoring demo_agent
           [reading "2024-01-01 12:00:00" (decimal 50 1)]
           (failing "2024-01-01 12:00:11" e)
           [reading "2024-01-01 12:00:22" (decimal 50 1)] e);
    vm_compute; reflexivity.
Defined.

(** C3 as stated fails: with a failed read on cycle 2 of 3, the run ends
    after the error line; cycle 3, whose reading is below the threshold,
    is left unread and emits nothing. *)
Lemma failed_read_on_cycle_2_of_3 :
  let e := Exn OSError "sensor read failed" in
  let c3 := reading "2024-01-01 12:00:22" (decimal 50 1) in
  let r := monitor_cpu demo_agent undisturbed
             [reading "2024-01-01 12:00:00" (decimal 50 1);
              failing "2024-01-01 12:00:11" e;
              c3] in
  stdout r = [Cpu_start (Int 10); Cpu_hint;
              Cpu_normal "2024-01-01 12:00:00" (decimal 50 1);
              Cpu_error e] /\
  events (stdout r) = [Normal "2024-01-01 12:00:00" (decimal 50 1)] /\
  unread r = [c3] /\
  ended r = Returned /\
  is_monitoring (agent r) = false.
Proof. vm_compute. repeat split. Qed.

(** The exception with which a sleep of negative length fails. *)
Lemma negative_sleep_raises secs w :
  secs < 0 ->
  exists e, time_sleep secs w = Raise e /\
    (- sleep_max <= secs ->
     e = Exn ValueError "sleep length must be non-negative") /\
    (secs < - sleep_max -> exn_class e = OverflowError).
Proof.
  intros Hneg. unfold time_sleep.
  destruct (secs <? - sleep_max) eqn:Hlow.
  - apply Z.ltb_lt in Hlow. eexists. split; [reflexivity | ].
    split; [lia | reflexivity].
  - apply Z.ltb_ge in Hlow.
    assert (Hhigh : (sleep_max <? secs) = false)
      by (apply Z.ltb_ge; unfold sleep_max; lia).
    apply Z.ltb_lt in Hneg. rewrite Hhigh, Hneg. cbn [orb].
    eexists. split; [reflexivity | ]. split; [reflexivity | lia].
Qed.

(** With a negative interval the failure comes at run time: the first
    cycle raises, in its sleep when its lines are printed, and the run
    ends after that one cycle with an error line. *)
Lemma negative_interval_fails_in_first_sleep self c script s :
  check_interval self < 0 ->
  sample c = Ok s ->
  stop c = None ->
  let r := monitor_cpu self undisturbed (c :: script) in
  ended r = Returned /\
  unread r = script /\
  exists e o, stdout r = o ++ [Cpu_error e] /\
    (lines_raise (cpu_threshold self) s = false ->
     time_sleep (check_interval self) (wakeup c) = Raise e).
Proof.
  intros Hneg Hsample Hstop r. subst r. rewrite monitor_cpu_undisturbed. cbv zeta.
  rewrite while_flag_on by reflexivity.
  unfold concurrent_stop. rewrite Hstop, Hsample.
  rewrite (evaluate_threshold self (set_is_monitoring true self)) by reflexivity.
  rewrite threshold_set_is_monitoring, (evaluate_lines_raise self s (clock c)).
  pose proof (evaluate_raises self s (clock c)) as Hraise.
  destruct (evaluate self s (clock c)) as [o2 [u | e]].
  - rewrite interval_set_is_monitoring.
    destruct (negative_sleep_raises (check_interval self) (wakeup c) Hneg)
      as (e & Hsleep & Hval & Hover).
    rewrite Hsleep. cbn [loop_out loop_self loop_unread loop_exit_by].
    assert (Hexc : isinstance_KeyboardInterrupt e = false /\
                   isinstance_Exception e = true).
    { destruct (Z.le_gt_cases (- sleep_max) (check_interval self)) as [Hge | Hlt].
      - rewrite (Hval Hge). split; reflexivity.
      - specialize (Hover ltac:(lia)).
        unfold isinstance_KeyboardInterrupt, isinstance_Exception.
        rewrite Hover. split; reflexivity. }
    destruct Hexc as [-> ->]. cbn [stdout agent unread ended].
    repeat (split; [reflexivity | ]).
    exists e. eexists. split; [rewrite !app_assoc; reflexivity | ].
    intros _. reflexivity.
  - specialize (proj1 (Hraise e) eq_refl) as [_ Hsub].
    apply num_sub_raises in Hsub.
    cbn [loop_out loop_self loop_unread loop_exit_by].
    unfold isinstance_KeyboardInterrupt, isinstance_Exception. rewrite Hsub.
    cbn [stdout agent unread ended].
    repeat (split; [reflexivity | ]).
    exists e. eexists. split; [rewrite !app_assoc; reflexivity | ].
    cbn [snd]. discriminate.
Qed.

(** C2, as the code has it.  The constructor validates nothing: for every
    threshold and every interval, positive or not, it succeeds and stores
    both as given, with the flag off.  A negative interval fails only once
    the loop runs: the first cycle ends the run with an error line, and
    when the lines of that cycle are printed the error is that of its
    sleep, [ValueError] (or [OverflowError], for an interval below
    -9223372036 seconds). *)
Theorem init_accepts_any_interval cpu_threshold check_interval :
  exists self,
    snd (System_Agents.__init__ cpu_threshold check_interval) = Ok self /\
    System_Agents.cpu_threshold self = cpu_threshold /\
    System_Agents.check_interval self = check_interval /\
    is_monitoring self = false /\
    (check_interval < 0 ->
     forall c script s, sample c = Ok s -> stop c = None ->
       let r := monitor_cpu self undisturbed (c :: script) in
       ended r = Returned /\
       unread r = script /\
       exists e o, stdout r = o ++ [Cpu_error e] /\
         (lines_raise cpu_threshold s = false ->
          (- sleep_max <= check_interval ->
           e = Exn ValueError "sleep length must be non-negative") /\
          (check_interval < - sleep_max -> exn_class e = OverflowError))).
Proof.
  set (self := {| System_Agents.cpu_threshold := cpu_threshold;
                  System_Agents.check_interval := check_interval;
                  is_monitoring := false |}).
  exists self. split; [reflexivity | ]. repeat (split; [reflexivity | ]).
  intros Hneg c script s Hsample Hstop.
  destruct (negative_interval_fails_in_first_sleep self c script s Hneg Hsample Hstop)
    as (Hended & Hunread & e & o & Hout & Hsleep).
  split; [exact Hended | ]. split; [exact Hunread | ].
  exists e, o. split; [exact Hout | ].
  intros Hlines. specialize (Hsleep Hlines).
  unfold self in Hsleep. cbn [System_Agents.check_interval] in Hsleep.
  destruct (negative_sleep_raises check_interval (wakeup c) Hneg)
    as (e' & Hsleep' & Hval & Hover).
  assert (e' = e) by congruence. subst e'. split; assumption.
Qed.

Lemma init_accepts_any_interval_witness :
  exists self,
    snd (System_Agents.__init__ (Int 75) (-5)) = Ok self /\
    System_Agents.check_interval self = -5 /\
    let r := monitor_cpu self undisturbed
               [reading "12:00:00" (decimal 50 1);
                reading "12:00:01" (decimal 50 1)] in
    ended r = Returned /\
    unread r = [reading "12:00:01" (decimal 50 1)] /\
    exists o, stdout r =
      o ++ [Cpu_error (Exn ValueError "sleep length must be non-negative")].
Proof.
  destruct (init_accepts_any_interval (Int 75) (-5))
    as (self & Hinit & _ & Hinterval & _ & Hrun).
  exists self. split; [exact Hinit | ]. split; [exact Hinterval | ].
  destruct (Hrun ltac:(lia) (reading "12:00:00" (decimal 50 1))
              [reading "12:00:01" (decimal 50 1)] (decimal 50 1) eq_refl eq_refl)
    as (Hended & Hunread & e & o & Hout & Herr).
  split; [exact Hended | ]. split; [exact Hunread | ].
  exists o. rewrite Hout.
  destruct (Herr eq_refl) as [Hval _].
  rewrite (Hval ltac:(vm_compute; discriminate)). reflexivity.
Defined.

(** C2 as stated fails: intervals of 0 and of -5 seconds are accepted. *)
Lemma init_accepts_nonpositive_interval :
  (exists self, snd (System_Agents.__init__ (Int 75) 0) = Ok self /\
                System_Agents.check_interval self = 0) /\
  (exists self, snd (System_Agents.__init__ (Int 75) (-5)) = Ok self /\
                System_Agents.check_interval self = -5).
Proof. split; eexists; split; reflexivity. Qed.

(** A stop during the sleep of cycle 2 of 3, and Ctrl+C during the sleep
    of cycle 2 of 3. *)
Example stop_during_sleep :
  let r := monitor_cpu demo_agent undisturbed
             [reading "12:00:00" (decimal 50 1);
              stopped "12:00:11" (decimal 150 1) In_sleep;
              reading "12:00:22" (decimal 50 1)] in
  events (stdout r) =
    [Normal "12:00:00" (decimal 50 1);
     Alert "12:00:11" (decimal 150 1) (Int 10) (Some (float_of_int 5))] /\
  last (stdout r) = Some Stop_done /\
  unread r = [reading "12:00:22" (decimal 50 1)] /\
  ended r = Returned.
Proof. vm_compute. repeat split. Qed.

Example ctrl_c_during_sleep :
  let r := monitor_cpu demo_agent undisturbed
             [reading "12:00:00" (decimal 50 1);
              interrupted "12:00:11" (decimal 50 1);
              reading "12:00:22" (decimal 50 1)] in
  stdout r =
    [Cpu_start (Int 10); Cpu_hint;
     Cpu_normal "12:00:00" (decimal 50 1);
     Cpu_normal "12:00:11" (decimal 50 1);
     Cpu_interrupted] /\
  unread r = [reading "12:00:22" (decimal 50 1)] /\
  ended r = Returned /\
  is_monitoring (agent r) = false.
Proof. vm_compute. repeat split. Qed.

(** An interval too long for the clock fails like a negative one, in the
    first sleep, with [OverflowError]. *)
Example interval_too_long :
  let self := {| cpu_threshold := Int 10; check_interval := 10 ^ 10;
                 is_monitoring := false |} in
  let r := monitor_cpu self undisturbed
             [reading "12:00:00" (decimal 50 1);
              reading "12:00:11" (decimal 50 1)] in
  (exists text,
     stdout r =
       [Cpu_start (Int 10); Cpu_hint;
        Cpu_normal "12:00:00" (decimal 50 1);
        Cpu_error (Exn OverflowError text)]) /\
  unread r = [reading "12:00:11" (decimal 50 1)] /\
  ended r = Returned.
Proof. vm_compute. repeat split. eexists. reflexivity. Qed.

End Monitor.

(** * The claims about the events of a run *)
Section Emission.
Import Py System_Agents Events.

(** Floats that compare equal are not ordered strictly. *)
Lemma float_eq_not_gt (x y : float) :
  float_eq x y = true -> float_gt x y = false.
Proof.
  unfold float_eq, float_gt, float_lt, SFeqb, SFltb.
  destruct x as [sx | sx | | sx mx ex], y as [sy | sy | | sy my ey];
    simpl; try discriminate; try reflexivity;
    try (destruct sx; try destruct sy; simpl; congruence).
  destruct sx, sy; try discriminate.
  - destruct (ex ?= ey) eqn:He; try discriminate.
    apply Z.compare_eq in He. subst ey. rewrite Z.compare_refl.
    destruct (Pos.compare_cont Eq mx my) eqn:Hm; try discriminate.
    apply Pos.compare_eq in Hm. subst my.
    fold (Pos.compare mx mx). rewrite Pos.compare_refl. reflexivity.
  - destruct (ex ?= ey) eqn:He; try discriminate.
    apply Z.compare_eq in He. subst ey. rewrite Z.compare_refl.
    destruct (Pos.compare_cont Eq mx my) eqn:Hm; try discriminate.
    apply Pos.compare_eq in Hm. subst my.
    fold (Pos.compare mx mx). rewrite Pos.compare_refl. reflexivity.
Qed.

(** The same for a float and a number. *)
Lemma num_eq_not_gt (x : float) (t : num) :
  num_eq x t = true -> num_gt x t = false.
Proof.
  destruct t as [n | f]; [ | apply float_eq_not_gt].
  unfold num_eq, num_gt.
  destruct (float_compare_int x n) as [[ | | ] | ]; congruence.
Qed.

Lemma whole_nil : whole [].
Proof. intros o' _. reflexivity. Qed.

Lemma opens_with_excess_app o1 o2 :
  opens_with_excess o1 = false -> opens_with_excess o2 = false ->
  opens_with_excess (o1 ++ o2) = false.
Proof. destruct o1; simpl; auto. Qed.

Lemma whole_app o1 o2 :
  whole o1 -> whole o2 -> opens_with_excess o2 = false -> whole (o1 ++ o2).
Proof.
  intros H1 H2 Hopen o' Ho'.
  rewrite <- app_assoc, H1, H2, H1 by (try apply opens_with_excess_app; assumption).
  apply app_assoc.
Qed.

Lemma whole_stop here c self :
  whole (fst (concurrent_stop here c self)) /\
  opens_with_excess (fst (concurrent_stop here c self)) = false /\
  events (fst (concurrent_stop here c self)) = [].
Proof.
  unfold concurrent_stop.
  destruct (stop c) as [[ | ] | ], here;
    (split; [intros o' _; reflexivity | split; reflexivity]).
Qed.

(** The lines of a cycle read as the event of its reading. *)
Lemma evaluate_event self s time :
  let o := fst (evaluate self s time) in
  whole o /\
  opens_with_excess o = false /\
  events o =
    [if num_gt s (cpu_threshold self)
     then Alert time s (cpu_threshold self)
                (match num_sub s (cpu_threshold self) with
                 | Ok x => Some x
                 | Raise _ => None
                 end)
     else Normal time s].
Proof.
  cbv zeta. unfold evaluate, alert_high_cpu.
  destruct (num_gt s (cpu_threshold self)).
  - destruct (num_sub s (cpu_threshold self)); cbn [fst app];
      (split; [ | split; reflexivity]).
    + intros o' _. reflexivity.
    + intros o' Ho'. destruct o' as [ | p o']; [reflexivity | ].
      destruct p; try discriminate; reflexivity.
  - split; [ | split; reflexivity]. intros o' _. reflexivity.
Qed.

(** The events of the loop are those of the cycles it has read, one per
    successful reading, in order. *)
Lemma while_events self script :
  let r := while_is_monitoring self script in
  whole (loop_out r) /\
  opens_with_excess (loop_out r) = false /\
  exists consumed, script = consumed ++ loop_unread r /\
    events (loop_out r) = omap (cycle_event (cpu_threshold self)) consumed.
Proof.
  revert self. induction script as [ | c script IH]; intros self.
  - simpl. destruct (is_monitoring self); simpl;
      (split; [apply whole_nil | split; [reflexivity | exists []; split; reflexivity]]).
  - destruct (is_monitoring self) eqn:Hflag.
    2:{ cbv zeta. rewrite while_flag_off by assumption. simpl.
        split; [apply whole_nil | split; [reflexivity | exists []; split; reflexivity]]. }
    cbv zeta. rewrite while_flag_on by assumption.
    pose proof (concurrent_stop_config In_sample c self) as [Ht1 _].
    pose proof (whole_stop In_sample c self) as (Hw1 & Hx1 & He1).
    destruct (concurrent_stop In_sample c self) as [o1 self1].
    simpl in Ht1, Hw1, Hx1, He1.
    destruct (sample c) as [cpu_usage | e] eqn:Hsample.
    2:{ simpl. split; [exact Hw1 | ]. split; [exact Hx1 | ].
        exists [c]. split; [reflexivity | ].
        simpl. unfold cycle_event. rewrite Hsample. exact He1. }
    pose proof (evaluate_event self1 cpu_usage (clock c)) as (Hw2 & Hx2 & He2).
    rewrite Ht1 in He2.
    assert (He2' : omap (cycle_event (cpu_threshold self)) [c] =
                   events (fst (evaluate self1 cpu_usage (clock c)))).
    { rewrite He2. simpl. unfold cycle_event. rewrite Hsample. reflexivity. }
    clear He2.
    destruct (evaluate self1 cpu_usage (clock c)) as [o2 [u | e]];
      cbn [fst] in Hw2, Hx2, He2'.
    2:{ cbn [loop_out loop_self loop_unread loop_exit_by].
        split; [apply whole_app; assumption | ].
        split; [apply opens_with_excess_app; assumption | ].
        exists [c]. split; [reflexivity | ].
        rewrite Hw1 by assumption. rewrite He1, He2'. reflexivity. }
    pose proof (concurrent_stop_config In_sleep c self1) as [Ht2 _].
    pose proof (whole_stop In_sleep c self1) as (Hw3 & Hx3 & He3).
    destruct (concurrent_stop In_sleep c self1) as [o3 self2].
    simpl in Ht2, Hw3, Hx3, He3.
    assert (Hx : opens_with_excess (o1 ++ o2 ++ o3) = false)
      by (repeat apply opens_with_excess_app; assumption).
    assert (Hw : whole (o1 ++ o2 ++ o3))
      by (repeat apply whole_app;
          first [assumption | apply opens_with_excess_app; assumption]).
    assert (He : events (o1 ++ o2 ++ o3) =
                 omap (cycle_event (cpu_threshold self)) [c]).
    { rewrite Hw1 by (apply opens_with_excess_app; assumption).
      rewrite Hw2 by assumption.
      rewrite He1, He3, app_nil_r, He2'. reflexivity. }
    destruct (time_sleep (check_interval self2) (wakeup c)).
    + destruct (IH self2) as (Hwr & Hxr & consumed & Hc & Hev).
      unfold emit; cbn [loop_out loop_self loop_unread loop_exit_by].
      split; [ | split].
      * rewrite !app_assoc. apply whole_app; [ | exact Hwr | exact Hxr].
        rewrite <- !app_assoc. exact Hw.
      * rewrite !app_assoc. apply opens_with_excess_app; [ | exact Hxr].
        rewrite <- !app_assoc. exact Hx.
      * exists (c :: consumed). split; [simpl; congruence | ].
        rewrite !app_assoc, <- (app_assoc o1 o2 o3), Hw by exact Hxr.
        rewrite He, Hev, Ht2, Ht1. simpl.
        destruct (cycle_event (cpu_threshold self) c); reflexivity.
    + cbn [loop_out loop_self loop_unread loop_exit_by].
      split; [exact Hw | ]. split; [exact Hx | ].
      exists [c]. split; [reflexivity | exact He].
Qed.

(** The cycles the loop reads are those of the spec's loop: up to and
    including the first that raises or in which [stop_monitoring] is
    invoked. *)
Lemma while_reads self script :
  is_monitoring self = true ->
  script =
    cycles_read (check_interval self) (cpu_threshold self) script ++
    loop_unread (while_is_monitoring self script).
Proof.
  revert self. induction script as [ | c script IH]; intros self Hon.
  - simpl. rewrite Hon. reflexivity.
  - rewrite while_flag_on by assumption. cbn [cycles_read].
    unfold ends_loop, raises, stop_invoked, concurrent_stop.
    destruct (stop c) as [[ | ] | ] eqn:Hstop; cbn [stop_monitoring].
    + (* a stop while the sample is measured *)
      rewrite orb_true_r.
      destruct (sample c) as [s | e]; [ | reflexivity].
      destruct (evaluate (set_is_monitoring false self) s (clock c))
        as [o2 [u | e]]; [ | reflexivity].
      rewrite interval_set_is_monitoring.
      destruct (time_sleep (check_interval self) (wakeup c)); [ | reflexivity].
      rewrite while_flag_off by reflexivity. reflexivity.
    + (* a stop after the lines of the cycle *)
      destruct (sample c) as [s | e]; [ | reflexivity].
      rewrite (evaluate_lines_raise self s (clock c)).
      destruct (evaluate self s (clock c)) as [o2 [u | e]]; [ | reflexivity].
      cbn [snd orb negb]. rewrite orb_true_r.
      rewrite interval_set_is_monitoring.
      destruct (time_sleep (check_interval self) (wakeup c)); [ | reflexivity].
      rewrite while_flag_off by reflexivity. reflexivity.
    + (* no stop *)
      destruct (sample c) as [s | e]; [ | reflexivity].
      rewrite (evaluate_lines_raise self s (clock c)).
      destruct (evaluate self s (clock c)) as [o2 [u | e]]; [ | reflexivity].
      cbn [snd orb].
      destruct (time_sleep (check_interval self) (wakeup c)); [ | reflexivity].
      cbn [orb]. unfold emit; cbn [loop_unread].
      rewrite <- app_comm_cons. f_equal. apply IH. assumption.
Qed.

(** The same for a whole call of [monitor_cpu] that gets to its [try]
    statement: the lines it adds around the loop are no events. *)
Lemma monitor_cpu_events self a script :
  on_entry a = None ->
  let r := monitor_cpu self a script in
  let read := cycles_read (check_interval self) (cpu_threshold self) script in
  script = read ++ unread r /\
  events (stdout r) = omap (cycle_event (cpu_threshold self)) read.
Proof.
  intros Hentry. cbv zeta. unfold monitor_cpu, handler. rewrite Hentry. cbv zeta.
  destruct (while_events (set_is_monitoring true self) script)
    as (Hw & _ & consumed & Hc & Hev).
  pose proof (while_reads (set_is_monitoring true self) script eq_refl) as Hread.
  rewrite threshold_set_is_monitoring in Hev.
  rewrite threshold_set_is_monitoring, interval_set_is_monitoring in Hread.
  assert (Hsame : consumed =
                  cycles_read (check_interval self) (cpu_threshold self) script).
  { rewrite Hread in Hc at 1. apply app_inv_tail in Hc. congruence. }
  subst consumed.
  assert (Hline : forall line,
            opens_with_excess [line] = false -> events [line] = [] ->
            events (([Cpu_start (cpu_threshold (set_is_monitoring true self));
                      Cpu_hint] ++
                     loop_out (while_is_monitoring (set_is_monitoring true self) script))
                    ++ [line]) =
            omap (cycle_event (cpu_threshold self))
                 (cycles_read (check_interval self) (cpu_threshold self) script)).
  { intros line Hopen Hnone. rewrite <- app_assoc. cbn [app events].
    rewrite Hw by exact Hopen. rewrite Hnone, app_nil_r. exact Hev. }
  destruct (loop_exit_by (while_is_monitoring (set_is_monitoring true self) script))
    as [ | e | ].
  - split; [exact Hread | exact Hev].
  - destruct (isinstance_KeyboardInterrupt e);
      [ | destruct (isinstance_Exception e)];
      try (destruct (on_handler a) as [[[ | ] e1] | ]);
      cbn [stdout unread];
      (split; [exact Hread | ]);
      first [exact Hev | apply Hline; reflexivity].
  - split; [exact Hread | exact Hev].
Qed.

(** A call that does not get to its [try] statement emits no event. *)
Lemma monitor_cpu_no_events self a script p e :
  on_entry a = Some (p, e) -> events (stdout (monitor_cpu self a script)) = [].
Proof.
  intros Hentry.
  destruct (monitor_cpu_entry self a script p e Hentry) as (_ & _ & Ho & _).
  rewrite Ho. destruct p; reflexivity.
Qed.

(** The event of a cycle whose sample is read. *)
Lemma cycle_event_reading T c s :
  sample c = Ok s ->
  exists ev, cycle_event T c = Some ev /\
    event_time ev = clock c /\
    event_cpu ev = s /\
    (is_alert ev = true <-> num_gt s T = true) /\
    (num_eq s T = true -> ev = Normal (clock c) s).
Proof.
  intros Hsample. unfold cycle_event. rewrite Hsample.
  eexists. split; [reflexivity | ].
  destruct (num_gt s T) eqn:Hgt; cbn [event_time event_cpu is_alert].
  - repeat split; try reflexivity.
    intros Heq. rewrite (num_eq_not_gt _ _ Heq) in Hgt. discriminate.
  - repeat split; try reflexivity; discriminate.
Qed.

(** An alert of a run comes from a cycle whose sample is above the
    threshold, and its excess is what the subtraction gives. *)
Lemma alert_of_run self a script time s t ox :
  In (Alert time s t ox) (events (stdout (monitor_cpu self a script))) ->
  t = cpu_threshold self /\ num_gt s t = true /\
  ox = match num_sub s t with Ok x => Some x | Raise _ => None end.
Proof.
  intros Hin.
  destruct (on_entry a) as [[p e] | ] eqn:Hentry.
  { rewrite (monitor_cpu_no_events self a script p e Hentry) in Hin. contradiction. }
  destruct (monitor_cpu_events self a script Hentry) as (_ & Hev).
  rewrite Hev in Hin. apply list_elem_of_In in Hin.
  apply list_elem_of_omap in Hin as (c & _ & Hc).
  unfold cycle_event in Hc.
  destruct (sample c) as [s' | e]; [ | discriminate].
  destruct (num_gt s' (cpu_threshold self)) eqn:Hgt; [ | discriminate].
  injection Hc as _ -> <- <-. auto.
Qed.

(** An alert with an excess has its excess line in the output. *)
Lemma excess_line_printed o time s t x :
  In (Alert time s t (Some x)) (events o) -> In (Alert_excess x) o.
Proof.
  assert (Hlen : (length o <= length o)%nat) by lia.
  revert Hlen. generalize (length o) at 2. intros n. revert o.
  induction n as [ | n IHn]; intros o Hlen.
  { destruct o; [contradiction | simpl in Hlen; lia]. }
  assert (IH : forall o', (length o' < length o)%nat ->
                 In (Alert time s t (Some x)) (events o') ->
                 In (Alert_excess x) o').
  { intros o' Hlt. apply IHn. lia. }
  clear IHn Hlen.
  destruct o as [ | p o]; [contradiction | ].
  assert (Hrest : In (Alert time s t (Some x)) (events o) ->
                  In (Alert_excess x) (p :: o)).
  { intros H. right. apply IH; [simpl; lia | exact H]. }
  destruct p; try exact Hrest.
  - simpl. intros [H | H]; [discriminate | ]. right. apply IH; [simpl; lia | exact H].
  - destruct o as [ | q o]; [contradiction | ].
    destruct q; try exact Hrest.
    destruct o as [ | q' o].
    + simpl. intros [H | []]. discriminate.
    + destruct q'; cbn [events];
        try (intros [H | H]; [discriminate | ];
             right; right; apply IH; [simpl; lia | exact H]).
      intros [H | H].
      * injection H as _ _ _ <-. right. right. left. reflexivity.
      * right. right. right. apply IH; [simpl; lia | exact H].
Qed.

(** C1.  In a run of [monitor_cpu] that gets to its loop, with threshold
    [T], the cycles read are those of the script up to and including the
    first that ends the loop; the events of the run are the events of these
    cycles, in order, one for every cycle that gets its sample [s]; and
    that event reports [s] and is an alert if and only if [s > T]: when
    [s == T] it is the normal status. *)
Theorem alert_iff_sample_above_threshold self a script :
  on_entry a = None ->
  let r := monitor_cpu self a script in
  let T := cpu_threshold self in
  let read := cycles_read (check_interval self) T script in
  script = read ++ unread r /\
  events (stdout r) = omap (cycle_event T) read /\
  forall c s, In c read -> sample c = Ok s ->
    exists ev, cycle_event T c = Some ev /\
      In ev (events (stdout r)) /\
      event_time ev = clock c /\
      event_cpu ev = s /\
      (is_alert ev = true <-> num_gt s T = true) /\
      (num_eq s T = true -> ev = Normal (clock c) s).
Proof.
  intros Hentry. cbv zeta.
  destruct (monitor_cpu_events self a script Hentry) as (Hc & Hev).
  split; [exact Hc | ]. split; [exact Hev | ].
  intros c s Hin Hsample.
  destruct (cycle_event_reading (cpu_threshold self) c s Hsample)
    as (ev & Hce & Htime & Hcpu & Hiff & Heq).
  exists ev. split; [exact Hce | ].
  split; [ | auto].
  rewrite Hev. apply list_elem_of_In. apply list_elem_of_omap.
  exists c. split; [apply list_elem_of_In; exact Hin | exact Hce].
Qed.

(** The scenario of the spec: threshold 10 and samples 5.0, 15.0, 10.0
    give a normal status, an alert with excess 5.0, and a normal status. *)
Lemma alert_iff_sample_above_threshold_witness :
  events (stdout (monitor_cpu demo_agent undisturbed
                    [reading "12:00:00" (decimal 50 1);
                     reading "12:00:11" (decimal 150 1);
                     reading "12:00:22" (decimal 100 1)])) =
    [Normal "12:00:00" (decimal 50 1);
     Alert "12:00:11" (decimal 150 1) (Int 10) (Some (float_of_int 5));
     Normal "12:00:22" (decimal 100 1)].
Proof.
  destruct (alert_iff_sample_above_threshold demo_agent undisturbed
              [reading "12:00:00" (decimal 50 1);
               reading "12:00:11" (decimal 150 1);
               reading "12:00:22" (decimal 100 1)] eq_refl) as (_ & Hev & _).
  rewrite Hev. vm_compute. reflexivity.
Defined.

(** An int threshold is compared exactly: a reading of 9007199254740996.0
    is above the threshold 9007199254740995, which no float holds. *)
Example int_threshold_compared_exactly :
  let s := float_of_int 9007199254740996 in
  events (stdout (monitor_cpu
                    {| cpu_threshold := Int 9007199254740995;
                       check_interval := 10; is_monitoring := false |}
                    undisturbed [reading "12:00:00" s])) =
    [Alert "12:00:00" s (Int 9007199254740995) (Some (S754_zero false))].
Proof. vm_compute. reflexivity. Qed.

(** C4, as the code has it.  The excess of an alert for sample [s] against
    threshold [t] is the float [s - t], with an int threshold converted to
    a float first; no excess is reported when that conversion overflows.
    The excess is never negative, and it is strictly positive when [t] is a
    number floats hold exactly; its line prints it under [.1f], and what
    [.1f] prints of a positive excess is "inf" or a nearest tenth of it,
    written with one digit after the point. *)
Theorem alert_excess_is_difference_to_one_decimal
    self a script time s t ox builtin_str :
  In (Alert time s t ox) (events (stdout (monitor_cpu self a script))) ->
  t = cpu_threshold self /\
  num_gt s t = true /\
  match ox with
  | None => exists e, num_sub s t = Raise e /\ exn_class e = OverflowError
  | Some x =>
      num_sub s t = Ok x /\
      (is_float s = true -> is_num t = true ->
       x = S754_zero false \/ float_pos x = true) /\
      (is_float s = true -> float_exact t = true -> float_pos x = true) /\
      In (Alert_excess x) (stdout (monitor_cpu self a script)) /\
      line_text builtin_str (Alert_excess x) =
        ("Excess: " ++ format_1f x ++ "% above threshold")%string /\
      (float_pos x = true ->
       format_1f x = "inf" \/
       exists m e n, x = S754_finite false m e /\ nearest_tenth m e n /\
         0 <= n /\
         format_1f x = (pretty (n / 10) ++ "." ++ pretty (n mod 10))%string)
  end.
Proof.
  intros Hin.
  destruct (alert_of_run self a script time s t ox Hin) as (Ht & Hgt & Hox).
  split; [exact Ht | ]. split; [exact Hgt | ].
  destruct (num_sub s t) as [x | e] eqn:Hsub; subst ox.
  - split; [reflexivity | ]. split; [ | split; [ | split; [ | split]]].
    + intros Hs Hnum. apply (num_sub_nonneg s t x); assumption.
    + intros Hs Hexact. apply (num_sub_pos s t x Hs); try assumption.
      destruct t as [n | f]; simpl in Hexact; [apply Z.ltb_lt | ]; exact Hexact.
    + apply (excess_line_printed _ time s t x). exact Hin.
    + reflexivity.
    + intros Hpos. unfold float_pos, float_lt, SFltb in Hpos.
      destruct x as [sx | sx | | sx m e]; simpl in Hpos;
        try discriminate; destruct sx; try discriminate.
      * left. reflexivity.
      * right. exists m, e, (tenths m e).
        split; [reflexivity | ]. split; [apply tenths_nearest | ].
        split; [apply tenths_nonneg | reflexivity].
  - exists e. split; [reflexivity | ]. apply (num_sub_raises s t). exact Hsub.
Qed.

Lemma alert_excess_is_difference_to_one_decimal_witness :
  num_sub (decimal 150 1) (Int 10) = Ok (float_of_int 5) /\
  float_pos (float_of_int 5) = true /\
  line_text (fun _ => "?") (Alert_excess (float_of_int 5)) =
    "Excess: 5.0% above threshold".
Proof.
  destruct (alert_excess_is_difference_to_one_decimal demo_agent undisturbed
              [reading "12:00:00" (decimal 150 1)] "12:00:00"
              (decimal 150 1) (Int 10) (Some (float_of_int 5)) (fun _ => "?"))
    as (_ & _ & Hsub & _ & Hpos & _ & Hline & _).
  - vm_compute. left. reflexivity.
  - split; [exact Hsub | ]. split; [apply Hpos; reflexivity | ].
    rewrite Hline. vm_compute. reflexivity.
Defined.

(** C4 as stated fails.  With threshold 10.06 a sample of 10.1 raises an
    alert whose excess is printed as "0.0", although the difference is
    positive; and with the int threshold 9007199254740995 a sample of
    9007199254740996.0 raises an alert whose excess is zero: the threshold
    is rounded to the sample when it is converted for the subtraction. *)
Lemma alert_excess_printed_as_zero :
  (let T := Float (decimal 1006 2) in
   let s := decimal 101 1 in
   let x := float_sub s (decimal 1006 2) in
   let self := {| cpu_threshold := T; check_interval := 10;
                  is_monitoring := false |} in
   let r := monitor_cpu self undisturbed [reading "12:00:00" s] in
   events (stdout r) = [Alert "12:00:00" s T (Some x)] /\
   In (Alert_excess x) (stdout r) /\
   line_text (fun _ => "?") (Alert_excess x) = "Excess: 0.0% above threshold" /\
   shown_tenths x = Some 0 /\
   float_pos x = true) /\
  (let T := Int 9007199254740995 in
   let s := float_of_int 9007199254740996 in
   let self := {| cpu_threshold := T; check_interval := 10;
                  is_monitoring := false |} in
   let r := monitor_cpu self undisturbed [reading "12:00:00" s] in
   is_float s = true /\
   events (stdout r) = [Alert "12:00:00" s T (Some (S754_zero false))] /\
   In (Alert_excess (S754_zero false)) (stdout r) /\
   float_pos (S754_zero false) = false).
Proof.
  vm_compute. repeat split;
    right; right; right; right; right; right; left; reflexivity.
Qed.

(** An int threshold beyond the range of floats: the alert stops at its
    excess line with [OverflowError], which ends the run. *)
Example alert_without_excess :
  let T := Int (- 2 ^ 1024) in
  let self := {| cpu_threshold := T; check_interval := 10;
                 is_monitoring := false |} in
  let r := monitor_cpu self undisturbed
             [reading "12:00:00" (decimal 50 1);
              reading "12:00:11" (decimal 50 1)] in
  events (stdout r) = [Alert "12:00:00" (decimal 50 1) T None] /\
  last (stdout r) =
    Some (Cpu_error (Exn OverflowError "int too large to convert to float")) /\
  unread r = [reading "12:00:11" (decimal 50 1)] /\
  ended r = Returned.
Proof. vm_compute. repeat split. Qed.

End Emission.

(** * The claims about the system snapshot and the sizes *)
Section Snapshot.
Import Py System_Agents Events.

(** The dict [get_system_info] builds when its four queries return. *)
Lemma get_system_info_returns self h n f m d :
  cpu_count h = Ok n ->
  cpu_freq h = Ok f ->
  virtual_memory h = Ok m ->
  disk_usage h "/" = Ok d ->
  snd (get_system_info self h) =
    Ok (<["cpu_count" := opt_int n]>
       (<["cpu_frequency" :=
            match f with
            | Some q => PyFloat (current q)
            | None => PyStr "N/A"
            end]>
       (<["memory_total" := PyInt (total m)]>
       (<["memory_available" := PyInt (available m)]>
       (<["disk_total" := PyInt (disk_total d)]>
       (<["disk_free" := PyInt (disk_free d)]> ∅)))))).
Proof.
  intros Hn Hf Hm Hd. unfold get_system_info. cbn [snd].
  rewrite Hn, Hf, Hm, Hd. reflexivity.
Qed.

(** C7.  [get_system_info] leaves the agent as it is, whatever its state,
    and when the four queries return it returns a dict with the core
    count, the CPU frequency (or the marker "N/A" when there is none), the
    total and available memory and the total and free disk space. *)
Theorem get_system_info_is_a_pure_read self h :
  fst (get_system_info self h) = self /\
  forall n f m d,
    cpu_count h = Ok n ->
    cpu_freq h = Ok f ->
    virtual_memory h = Ok m ->
    disk_usage h "/" = Ok d ->
    exists info : gmap string pyval,
      snd (get_system_info self h) = Ok info /\
      dom info = ({["cpu_count"; "cpu_frequency"; "memory_total";
                    "memory_available"; "disk_total"; "disk_free"]} : gset string) /\
      info !! "cpu_count" = Some (opt_int n) /\
      info !! "cpu_frequency" =
        Some (match f with
              | Some q => PyFloat (current q)
              | None => PyStr "N/A"
              end) /\
      info !! "memory_total" = Some (PyInt (total m)) /\
      info !! "memory_available" = Some (PyInt (available m)) /\
      info !! "disk_total" = Some (PyInt (disk_total d)) /\
      info !! "disk_free" = Some (PyInt (disk_free d)).
Proof.
  split; [reflexivity | ].
  intros n f m d Hn Hf Hm Hd.
  eexists. split; [apply (get_system_info_returns self h n f m d); assumption | ].
  split.
  - rewrite !dom_insert_L, dom_empty_L. set_solver.
  - repeat split; simplify_map_eq; reflexivity.
Qed.

Lemma get_system_info_is_a_pure_read_witness :
  exists info : gmap string pyval,
    snd (get_system_info demo_agent demo_host) = Ok info /\
    dom info = ({["cpu_count"; "cpu_frequency"; "memory_total";
                  "memory_available"; "disk_total"; "disk_free"]} : gset string) /\
    info !! "cpu_count" = Some (PyInt 8) /\
    info !! "cpu_frequency" = Some (PyStr "N/A") /\
    info !! "memory_total" = Some (PyInt 17179869184) /\
    info !! "memory_available" = Some (PyInt 6979321856) /\
    info !! "disk_total" = Some (PyInt 500000000000) /\
    info !! "disk_free" = Some (PyInt 120000000000).
Proof.
  refine (proj2 (get_system_info_is_a_pure_read demo_agent demo_host)
                (Some 8) None demo_memory demo_disk _ _ _ _); reflexivity.
Defined.

(** The loop of [monitor_cpu] prints no sizes. *)
Lemma while_shows_no_size self script p :
  In p (loop_out (while_is_monitoring self script)) -> shown_size p = None.
Proof.
  revert self. induction script as [ | c script IH]; intros self.
  - simpl. destruct (is_monitoring self); simpl; contradiction.
  - destruct (is_monitoring self) eqn:Hflag.
    2:{ rewrite while_flag_off by assumption. simpl. contradiction. }
    rewrite while_flag_on by assumption.
    assert (Hev : forall self' s, In p (fst (evaluate self' s (clock c))) ->
                    shown_size p = None).
    { intros self' s. unfold evaluate, alert_high_cpu.
      destruct (num_gt s _); [destruct (num_sub s _) | ]; simpl;
        intuition (subst; reflexivity). }
    unfold concurrent_stop, stop_monitoring.
    destruct (stop c) as [[ | ] | ], (sample c) as [cpu_usage | e];
      cbv zeta; cbn [fst snd];
      try (match goal with
           | |- context [evaluate ?x ?y ?z] =>
               specialize (Hev x y); destruct (evaluate x y z) as [o2 [u | e']]
           end);
      try destruct (time_sleep _ (wakeup c));
      unfold emit; cbn [loop_out fst] in *; rewrite ?in_app_iff; simpl;
      intuition (subst; try reflexivity; eauto).
Qed.

Lemma monitor_cpu_shows_no_size self a script p :
  In p (stdout (monitor_cpu self a script)) -> shown_size p = None.
Proof.
  unfold monitor_cpu, handler.
  destruct (on_entry a) as [[[ | | ] e0] | ];
    try (cbn [stdout]; simpl; intuition (subst; reflexivity)).
  pose proof (while_shows_no_size (set_is_monitoring true self) script p) as Hloop.
  destruct (loop_exit_by _) as [ | e | ];
    [ | destruct (isinstance_KeyboardInterrupt e);
        [ | destruct (isinstance_Exception e)] | ];
    try (destruct (on_handler a) as [[[ | ] e1] | ]);
    cbn [stdout]; simpl; rewrite ?in_app_iff; simpl;
    intuition (subst; reflexivity).
Qed.

(** The dump of [monitor_system], from the dict of a successful
    [get_system_info]. *)
Lemma system_info_lines_of_snapshot (cores freq : pyval) (m : svmem) (d : sdiskusage) :
  system_info_lines
    (<["cpu_count" := cores]>
    (<["cpu_frequency" := freq]>
    (<["memory_total" := PyInt (total m)]>
    (<["memory_available" := PyInt (available m)]>
    (<["disk_total" := PyInt (disk_total d)]>
    (<["disk_free" := PyInt (disk_free d)]> ∅)))))) =
  match int_truediv (total m) GiB with
  | Raise e => ([Sys_head; Sys_cores cores; Sys_frequency freq], Raise e)
  | Ok gm =>
      match int_truediv (disk_total d) GiB with
      | Raise e =>
          ([Sys_head; Sys_cores cores; Sys_frequency freq; Sys_total_memory gm],
           Raise e)
      | Ok gd =>
          ([Sys_head; Sys_cores cores; Sys_frequency freq; Sys_total_memory gm;
            Sys_total_disk gd], Ok ())
      end
  end.
Proof.
  unfold system_info_lines, dict_getitem.
  repeat (rewrite ?lookup_insert_eq; rewrite ?lookup_insert_ne by discriminate).
  cbn [mbind result_bind truediv].
  destruct (int_truediv (total m) GiB); [ | reflexivity].
  destruct (int_truediv (disk_total d) GiB); reflexivity.
Qed.

Lemma append_empty_r (s : string) : String.append s "" = s.
Proof.
  induction s as [ | c s IH]; [reflexivity | ].
  change (String c (String.append s "") = String c s). rewrite IH. reflexivity.
Qed.

(** The status of [monitor_memory] and the dump of [monitor_system] when
    the byte counts are below [2^53]. *)
Lemma monitor_memory_status self h now m :
  virtual_memory h = Ok m ->
  0 <= total m < 2 ^ 53 ->
  0 <= available m < 2 ^ 53 ->
  0 <= free m < 2 ^ 53 ->
  exists t a f,
    (int_truediv (total m) 1073741824 = Ok t /\
     format_1f t = one_decimal (total m) 1073741824) /\
    (int_truediv (available m) 1073741824 = Ok a /\
     format_1f a = one_decimal (available m) 1073741824) /\
    (int_truediv (free m) 1073741824 = Ok f /\
     format_1f f = one_decimal (free m) 1073741824) /\
    monitor_memory self h now =
      ([Mem_head now; Mem_total t; Mem_available a; Mem_used (percent m);
        Mem_free f], Ok ()).
Proof.
  intros Hm Ht Ha Hf.
  destruct (int_truediv_GiB_shown _ Ht) as (t & Hdt & _ & Hft).
  destruct (int_truediv_GiB_shown _ Ha) as (a & Hda & _ & Hfa).
  destruct (int_truediv_GiB_shown _ Hf) as (f & Hdf & _ & Hff).
  exists t, a, f. repeat (split; [split; assumption | ]).
  unfold monitor_memory. rewrite Hm. change GiB with 1073741824.
  rewrite Hdt, Hda, Hdf. reflexivity.
Qed.

Lemma monitor_system_dump self h a script n f m d :
  cpu_count h = Ok n ->
  cpu_freq h = Ok f ->
  virtual_memory h = Ok m ->
  disk_usage h "/" = Ok d ->
  0 <= total m < 2 ^ 53 ->
  0 <= disk_total d < 2 ^ 53 ->
  let r := monitor_system self h a script in
  exists gm gd,
    (int_truediv (total m) 1073741824 = Ok gm /\
     format_1f gm = one_decimal (total m) 1073741824) /\
    (int_truediv (disk_total d) 1073741824 = Ok gd /\
     format_1f gd = one_decimal (disk_total d) 1073741824) /\
    stdout r =
      [Sys_start; Sys_head; Sys_cores (opt_int n);
       Sys_frequency (match f with
                      | Some q => PyFloat (current q)
                      | None => PyStr "N/A"
                      end);
       Sys_total_memory gm; Sys_total_disk gd] ++
      stdout (monitor_cpu self a script) /\
    agent r = agent (monitor_cpu self a script) /\
    unread r = unread (monitor_cpu self a script) /\
    ended r = ended (monitor_cpu self a script).
Proof.
  intros Hn Hf Hm Hd Hrm Hrd r. subst r.
  destruct (int_truediv_GiB_shown _ Hrm) as (gm & Hgm & _ & Hfm).
  destruct (int_truediv_GiB_shown _ Hrd) as (gd & Hgd & _ & Hfd).
  exists gm, gd. repeat (split; [split; assumption | ]).
  unfold monitor_system, get_system_info. rewrite Hn, Hf, Hm, Hd.
  cbn [mbind result_bind]. rewrite system_info_lines_of_snapshot.
  change GiB with 1073741824. rewrite Hgm, Hgd.
  cbn [stdout agent unread ended]. repeat split.
Qed.

(** C8.  Every size in the memory status and in the system-information
    dump (total, available and free memory, total disk) is its raw byte
    count divided by [1024**3], which is exactly 1073741824, rendered to
    one decimal place.  For byte counts below [2^53]: [monitor_memory]
    prints its five lines and [monitor_system] its dump, and the text of
    each size line is the byte count over 1073741824 to one decimal place
    (the nearest tenth, ties to even) followed by the unit GB.  For any
    byte counts: a size line that is printed carries its byte count divided
    by 1073741824, under [.1f]. *)
Theorem sizes_are_bytes_over_GiB :
  GiB = 1073741824 /\
  (forall self h now m builtin_str,
     virtual_memory h = Ok m ->
     0 <= total m < 2 ^ 53 ->
     0 <= available m < 2 ^ 53 ->
     0 <= free m < 2 ^ 53 ->
     snd (monitor_memory self h now) = Ok () /\
     line_text builtin_str <$> fst (monitor_memory self h now) =
       ["[" ++ now ++ "] Memory Status:";
        "  - Total: " ++ one_decimal (total m) 1073741824 ++ " GB";
        "  - Available: " ++ one_decimal (available m) 1073741824 ++ " GB";
        "  - Used: " ++ format_1f (percent m) ++ "%";
        "  - Free: " ++ one_decimal (free m) 1073741824 ++ " GB"]%string) /\
  (forall self h a script n f m d builtin_str,
     cpu_count h = Ok n ->
     cpu_freq h = Ok f ->
     virtual_memory h = Ok m ->
     disk_usage h "/" = Ok d ->
     0 <= total m < 2 ^ 53 ->
     0 <= disk_total d < 2 ^ 53 ->
     line_text builtin_str <$> stdout (monitor_system self h a script) =
       ["Starting comprehensive system monitoring...";
        "System Information:";
        "  - CPU Cores: " ++ str_of builtin_str (opt_int n);
        "  - CPU Frequency: " ++
          str_of builtin_str (match f with
                              | Some q => PyFloat (current q)
                              | None => PyStr "N/A"
                              end) ++ " MHz";
        "  - Total Memory: " ++ one_decimal (total m) 1073741824 ++ " GB";
        "  - Total Disk: " ++ one_decimal (disk_total d) 1073741824 ++ " GB"]%string
       ++ (line_text builtin_str <$> stdout (monitor_cpu self a script))) /\
  (forall self h now m d p gb,
     virtual_memory h = Ok m ->
     In p (fst (monitor_memory self h now)) ->
     shown_size p = Some gb ->
     size_in_GB m d p gb) /\
  (forall self h a script m d p gb,
     virtual_memory h = Ok m ->
     disk_usage h "/" = Ok d ->
     In p (stdout (monitor_system self h a script)) ->
     shown_size p = Some gb ->
     size_in_GB m d p gb).
Proof.
  split; [reflexivity | ]. split; [ | split; [ | split]].
  - intros self h now m builtin_str Hm Ht Ha Hf.
    destruct (monitor_memory_status self h now m Hm Ht Ha Hf)
      as (t & a & f & [_ Hft] & [_ Hfa] & [_ Hff] & ->).
    split; [reflexivity | ].
    cbn [fst fmap list_fmap]. unfold line_text.
    cbn [text_of fmap list_fmap frag_text foldr str_of].
    rewrite Hft, Hfa, Hff. reflexivity.
  - intros self h a script n f m d builtin_str Hn Hf Hm Hd Hrm Hrd.
    destruct (monitor_system_dump self h a script n f m d Hn Hf Hm Hd Hrm Hrd)
      as (gm & gd & [_ Hfm] & [_ Hfd] & -> & _).
    rewrite fmap_app. f_equal.
    cbn [fmap list_fmap]. unfold line_text.
    cbn [text_of fmap list_fmap frag_text foldr].
    rewrite Hfm, Hfd, !append_empty_r. reflexivity.
  - intros self h now m d p gb Hm Hin Hshown.
    unfold monitor_memory in Hin. rewrite Hm in Hin.
    destruct (int_truediv (total m) GiB) as [t | e] eqn:Ht;
      [ | simpl in Hin; intuition (subst; discriminate)].
    destruct (int_truediv (available m) GiB) as [a | e] eqn:Ha;
      [ | simpl in Hin; intuition (subst; try discriminate);
          injection Hshown as <-; do 2 eexists; repeat split; eassumption].
    destruct (int_truediv (free m) GiB) as [f | e] eqn:Hf;
      simpl in Hin; intuition (subst; try discriminate);
      injection Hshown as <-; do 2 eexists; repeat split; eassumption.
  - intros self h a script m d p gb Hm Hd Hin Hshown.
    unfold monitor_system, get_system_info in Hin.
    destruct (cpu_count h) as [n | e];
      [ | simpl in Hin; intuition (subst; discriminate)].
    destruct (cpu_freq h) as [f | e];
      [ | simpl in Hin; intuition (subst; discriminate)].
    rewrite Hm, Hd in Hin. cbn [mbind result_bind] in Hin.
    rewrite system_info_lines_of_snapshot in Hin.
    destruct (int_truediv (total m) GiB) as [gm | e] eqn:Hgm;
      [ | simpl in Hin; intuition (subst; discriminate)].
    destruct (int_truediv (disk_total d) GiB) as [gd | e] eqn:Hgd;
      cbn [stdout] in Hin; rewrite ?in_app_iff in Hin; simpl in Hin.
    + destruct Hin as [Hin | [Hin | Hin]].
      * intuition (subst; discriminate).
      * intuition (subst; try discriminate);
          injection Hshown as <-; do 2 eexists; repeat split; eassumption.
      * apply monitor_cpu_shows_no_size in Hin. congruence.
    + intuition (subst; try discriminate);
        injection Hshown as <-; do 2 eexists; repeat split; eassumption.
Qed.

(** On the demo host: 16 GiB of memory read "16.0 GB", 6979321856
    available bytes "6.5 GB", and the disk of 500000000000 bytes
    "465.7 GB". *)
Lemma sizes_are_bytes_over_GiB_witness :
  line_text (fun _ => "?") <$>
    fst (monitor_memory demo_agent demo_host "2024-01-01 12:00:00") =
    ["[2024-01-01 12:00:00] Memory Status:";
     "  - Total: 16.0 GB";
     "  - Available: 6.5 GB";
     "  - Used: 59.4%";
     "  - Free: 1.0 GB"] /\
  line_text (fun _ => "?") <$>
    stdout (monitor_system demo_agent demo_host undisturbed []) =
    ["Starting comprehensive system monitoring...";
     "System Information:";
     "  - CPU Cores: 8";
     "  - CPU Frequency: N/A MHz";
     "  - Total Memory: 16.0 GB";
     "  - Total Disk: 465.7 GB";
     "Starting CPU monitoring (threshold: 10%)...";
     "Press Ctrl+C to stop monitoring"].
Proof.
  destruct sizes_are_bytes_over_GiB as (_ & Hmem & Hsys & _). split.
  - destruct (Hmem demo_agent demo_host "2024-01-01 12:00:00" demo_memory
                (fun _ => "?") eq_refl) as [_ Hlines];
      try (vm_compute; split; [discriminate | reflexivity]).
    rewrite Hlines. vm_compute. reflexivity.
  - rewrite (Hsys demo_agent demo_host undisturbed [] (Some 8) None
               demo_memory demo_disk (fun _ => "?") eq_refl eq_refl eq_refl eq_refl);
      try (vm_compute; split; [discriminate | reflexivity]).
    vm_compute. reflexivity.
Defined.

(** The memory status of the demo host. *)
Example demo_memory_status :
  monitor_memory demo_agent demo_host "12:00:00" =
    ([Mem_head "12:00:00";
      Mem_total (float_of_int 16);
      Mem_available (decimal 65 1);
      Mem_used (decimal 594 1);
      Mem_free (float_of_int 1)],
     Ok ()).
Proof. vm_compute. reflexivity. Qed.

(** What the demo host's memory and disk read as. *)
Example demo_sizes_rendered :
  (x ← int_truediv (total demo_memory) GiB; Ok (format_1f x)) = Ok "16.0" /\
  (x ← int_truediv (available demo_memory) GiB; Ok (format_1f x)) = Ok "6.5" /\
  (x ← int_truediv (disk_total demo_disk) GiB; Ok (format_1f x)) = Ok "465.7".
Proof. vm_compute. repeat split. Qed.

End Snapshot.

(** * The claim about the Bitcoin price agent *)
Section Price.
Import Py Bitcoin_price.

(** Indexing raises only [KeyError] or [TypeError]. *)
Lemma getitem_raises_Exception v k e :
  getitem v k = Raise e -> isinstance_Exception e = true.
Proof.
  unfold getitem, dict_getitem.
  destruct v; try (intros [= <-]; reflexivity).
  destruct (d !! k); [discriminate | intros [= <-]; reflexivity].
Qed.

(** What leaves the [try] body is what [requests.get] or the decoder
    raised, or an indexing error. *)
Lemma try_body_raises self requests_get e :
  try_body self requests_get = Raise e ->
  requests_get (api_url self) = Raise e \/
  (exists resp, requests_get (api_url self) = Ok resp /\
                status_code resp = 200 /\ json resp = Raise e) \/
  isinstance_Exception e = true.
Proof.
  unfold try_body.
  destruct (requests_get (api_url self)) as [resp | e'];
    [ | intros [= <-]; left; reflexivity].
  cbn [mbind result_bind].
  destruct (status_code resp =? 200) eqn:Hstatus; [ | discriminate].
  apply Z.eqb_eq in Hstatus.
  destruct (json resp) as [data | e'] eqn:Hdecode;
    [ | intros [= <-]; right; left; exists resp; auto].
  cbn [mbind result_bind].
  destruct (getitem data "bpi") as [bpi | e1] eqn:H1;
    [ | intros [= <-]; right; right; eapply getitem_raises_Exception; eassumption].
  cbn [mbind result_bind].
  destruct (getitem bpi "USD") as [usd | e2] eqn:H2;
    [ | intros [= <-]; right; right; eapply getitem_raises_Exception; eassumption].
  cbn [mbind result_bind].
  destruct (getitem usd "rate_float") as [price | e3] eqn:H3;
    [ discriminate
    | intros [= <-]; right; right; eapply getitem_raises_Exception; eassumption].
Qed.

(** Exceptions that are not [Exception]s are of no class the handlers
    name. *)
Lemma not_Exception_not_named e :
  isinstance_Exception e = false ->
  isinstance_RequestException e = false /\ isinstance_KeyError e = false.
Proof.
  unfold isinstance_Exception, isinstance_RequestException, isinstance_KeyError.
  destruct (exn_class e); try discriminate; auto.
Qed.

(** What [requests.get], or the decoder on a 200 response, raises leaves
    the [try] body. *)
Lemma try_body_passes_on self requests_get e :
  requests_get (api_url self) = Raise e \/
  (exists resp, requests_get (api_url self) = Ok resp /\
                status_code resp = 200 /\ json resp = Raise e) ->
  try_body self requests_get = Raise e.
Proof.
  unfold try_body.
  intros [Hg | (resp & Hg & Hs & Hj)]; rewrite Hg; [reflexivity | ].
  cbn [mbind result_bind]. rewrite Hs, Hj. reflexivity.
Qed.

(** C9, as the code has it.  [fetch_bitcoin_price] returns normally
    exactly when whatever [requests.get] raises, and whatever the decoder
    raises on a 200 response, is an [Exception]: a 200 response with or
    without the expected fields, another status, a network failure and any
    other [Exception] end in a return, while Ctrl+C or [SystemExit] raised
    by the request or the decoder leaves the call.  On a status other than
    200 it prints the two failure lines and does not call the decoder. *)
Theorem fetch_bitcoin_price_returns self requests_get :
  (snd (fetch_bitcoin_price self requests_get) = Ok () <->
   (forall e, requests_get (api_url self) = Raise e ->
              isinstance_Exception e = true) /\
   (forall resp e, requests_get (api_url self) = Ok resp ->
                   status_code resp = 200 -> json resp = Raise e ->
                   isinstance_Exception e = true)) /\
  (forall resp, requests_get (api_url self) = Ok resp ->
                status_code resp <> 200 ->
                fetch_bitcoin_price self requests_get =
                  ([Api_failed (status_code resp); Api_failed_hint], Ok ())).
Proof.
  split; [split | ].
  - (* a return: nothing that is not an Exception was raised *)
    intros Hret.
    assert (Hout : forall e, isinstance_Exception e = false ->
                     try_body self requests_get = Raise e -> False).
    { intros e Hexc Hbody. revert Hret.
      destruct (not_Exception_not_named e Hexc) as [Hreq Hkey].
      unfold fetch_bitcoin_price. rewrite Hbody, Hreq, Hkey, Hexc.
      discriminate. }
    split.
    + intros e Hget. destruct (isinstance_Exception e) eqn:Hexc; [reflexivity | ].
      exfalso. apply (Hout e Hexc). apply try_body_passes_on. left. exact Hget.
    + intros resp e Hget Hstatus Hjson.
      destruct (isinstance_Exception e) eqn:Hexc; [reflexivity | ].
      exfalso. apply (Hout e Hexc). apply try_body_passes_on. right. eauto.
  - intros [Hget Hjson]. unfold fetch_bitcoin_price.
    destruct (try_body self requests_get) as [o | e] eqn:Hbody; [reflexivity | ].
    assert (Hexc : isinstance_Exception e = true).
    { destruct (try_body_raises _ _ _ Hbody) as [H | [(resp & Hr & Hs & Hj) | H]];
        [apply Hget; assumption | eapply Hjson; eassumption | assumption]. }
    destruct (isinstance_RequestException e); [reflexivity | ].
    destruct (isinstance_KeyError e); [reflexivity | ].
    rewrite Hexc. reflexivity.
  - intros resp Hresp Hstatus.
    unfold fetch_bitcoin_price, try_body. rewrite Hresp.
    cbn [mbind result_bind].
    apply Z.eqb_neq in Hstatus. rewrite Hstatus. reflexivity.
Qed.

(** A 200 response whose body is not JSON: the decoder raises a
    [ValueError], an [Exception], and the call returns. *)
Lemma fetch_bitcoin_price_returns_witness :
  let e := Exn ValueError "Expecting value: line 1 column 1 (char 0)" in
  let agent := Bitcoin_price.__init__ "https://api.coindesk.com/v1/bpi/currentprice/USD.json" in
  snd (fetch_bitcoin_price agent (answering 200 (Raise e))) = Ok ().
Proof.
  intros e agent.
  apply (proj2 (proj1 (fetch_bitcoin_price_returns agent (answering 200 (Raise e))))).
  split.
  - intros e'. discriminate.
  - intros resp e' [= <-] _ [= <-]. reflexivity.
Defined.

(** C9 as stated fails: a Ctrl+C delivered during the request, or a
    [SystemExit] raised by the decoder of a 200 response, is caught by none
    of the handlers and leaves the call, with nothing printed. *)
Lemma fetch_lets_interrupt_out :
  Bitcoin_price.main (fun _ => Raise (Exn KeyboardInterrupt "")) =
    ([], Raise (Exn KeyboardInterrupt "")) /\
  Bitcoin_price.main (answering 200 (Raise (Exn SystemExit "1"))) =
    ([], Raise (Exn SystemExit "1")).
Proof. vm_compute. split; reflexivity. Qed.

(** The paths through [fetch_bitcoin_price], one by one. *)
Example fetch_prints_price :
  Bitcoin_price.main (answering 200 (Ok (coindesk_body (PyFloat (decimal 6543212 2))))) =
    ([Price (PyFloat (decimal 6543212 2))], Ok ()).
Proof. vm_compute. reflexivity. Qed.

Example fetch_missing_field :
  Bitcoin_price.main (answering 200 (Ok (PyDict {[ "bpi" := PyDict ∅ ]}))) =
    ([Parsing_error (Exn KeyError "'USD'")], Ok ()).
Proof. vm_compute. reflexivity. Qed.

Example fetch_body_not_a_dict :
  Bitcoin_price.main (answering 200 (Ok (PyList []))) =
    ([Unexpected_error
        (Exn TypeError "list indices must be integers or slices, not str")],
     Ok ()).
Proof. vm_compute. reflexivity. Qed.

Example fetch_network_failure :
  Bitcoin_price.main (fun _ => Raise (Exn RequestException "connection refused")) =
    ([Network_error (Exn RequestException "connection refused")], Ok ()).
Proof. vm_compute. reflexivity. Qed.

Example fetch_body_is_a_number :
  Bitcoin_price.main (answering 200 (Ok (PyInt 7))) =
    ([Unexpected_error (Exn TypeError "'int' object is not subscriptable")],
     Ok ()).
Proof. vm_compute. reflexivity. Qed.

End Price.

(** * More about the monitor: what a run keeps, prints last and leaves *)
Section Monitor_more.
Import Py System_Agents Events Runs.

(** The loop itself prints neither of the two closing lines. *)
Lemma while_prints_no_closing self script p :
  In p (loop_out (while_is_monitoring self script)) -> is_closing p = false.
Proof.
  revert self. induction script as [ | c script IH]; intros self.
  - simpl. destruct (is_monitoring self); simpl; contradiction.
  - destruct (is_monitoring self) eqn:Hflag.
    2:{ rewrite while_flag_off by assumption. simpl. contradiction. }
    rewrite while_flag_on by assumption.
    assert (Hev : forall self' s, In p (fst (evaluate self' s (clock c))) ->
                    is_closing p = false).
    { intros self' s. unfold evaluate, alert_high_cpu.
      destruct (num_gt s _); [destruct (num_sub s _) | ]; simpl;
        intuition (subst; reflexivity). }
    unfold concurrent_stop, stop_monitoring.
    destruct (stop c) as [[ | ] | ], (sample c) as [cpu_usage | e];
      cbv zeta; cbn [fst snd];
      try (match goal with
           | |- context [evaluate ?x ?y ?z] =>
               specialize (Hev x y); destruct (evaluate x y z) as [o2 [u | e']]
           end);
      try destruct (time_sleep _ (wakeup c));
      unfold emit; cbn [loop_out fst] in *; rewrite ?in_app_iff; simpl;
      intuition (subst; try reflexivity; eauto).
Qed.

(** Through quiet cycles, with a sleep length the clock accepts, the loop
    goes on to the end of the script and is still looping. *)
Lemma while_quiet self script :
  is_monitoring self = true ->
  0 <= check_interval self <= sleep_max ->
  forallb (quiet (cpu_threshold self)) script = true ->
  loop_exit_by (while_is_monitoring self script) = Awaiting /\
  loop_unread (while_is_monitoring self script) = [] /\
  loop_self (while_is_monitoring self script) = self.
Proof.
  intros Hon Hint. induction script as [ | c script IH]; intros Hq.
  - simpl. rewrite Hon. simpl. auto.
  - simpl in Hq. apply andb_prop in Hq as [Hc Hq].
    rewrite while_flag_on by assumption.
    unfold quiet in Hc. unfold concurrent_stop.
    destruct (sample c) as [s | e]; [ | discriminate].
    destruct (wakeup c) as [u | e]; [ | discriminate].
    destruct (stop c); [discriminate | ].
    rewrite (evaluate_lines_raise self s (clock c)) in Hc.
    destruct (evaluate self s (clock c)) as [o2 [u' | e]]; [ | discriminate].
    unfold time_sleep.
    assert (Hlow : (check_interval self <? - sleep_max) = false)
      by (apply Z.ltb_ge; unfold sleep_max in *; lia).
    assert (Hhigh : (sleep_max <? check_interval self) = false)
      by (apply Z.ltb_ge; lia).
    assert (Hnn : (check_interval self <? 0) = false) by (apply Z.ltb_ge; lia).
    rewrite Hlow, Hhigh, Hnn.
    cbn [orb loop_out loop_self loop_unread loop_exit_by emit].
    apply IH. assumption.
Qed.

(** X1.  A run of [monitor_cpu] never changes the threshold or the
    interval of the agent: only [is_monitoring] can differ afterwards. *)
Theorem monitor_cpu_keeps_configuration self a script :
  agent (monitor_cpu self a script) =
    set_is_monitoring (is_monitoring (agent (monitor_cpu self a script))) self.
Proof.
  destruct (monitor_cpu_config self a script) as [Ht Hi].
  destruct (agent (monitor_cpu self a script)) as [t i b].
  simpl in *. unfold set_is_monitoring. congruence.
Qed.

(** X2.  [monitor_cpu] re-arms the agent: called on the agent an earlier
    run (or a [stop_monitoring]) has left, it behaves as on the original
    agent, provided it gets to set the flag. *)
Theorem monitor_cpu_can_be_run_again self a script a' script' :
  (forall e, on_entry a' <> Some (At_flag, e)) ->
  monitor_cpu (agent (monitor_cpu self a script)) a' script' =
    monitor_cpu self a' script' /\
  monitor_cpu (snd (stop_monitoring self)) a' script' = monitor_cpu self a' script'.
Proof.
  intros Hflag.
  assert (Hsame : forall self',
            cpu_threshold self' = cpu_threshold self ->
            check_interval self' = check_interval self ->
            monitor_cpu self' a' script' = monitor_cpu self a' script').
  { intros self' Ht Hi.
    assert (Hset : set_is_monitoring true self' = set_is_monitoring true self).
    { unfold set_is_monitoring. rewrite Ht, Hi. reflexivity. }
    unfold monitor_cpu.
    destruct (on_entry a') as [[[ | | ] e] | ].
    - exfalso. apply (Hflag e). reflexivity.
    - rewrite Hset. reflexivity.
    - cbv zeta. rewrite Hset. reflexivity.
    - cbv zeta. rewrite Hset. reflexivity. }
  split.
  - destruct (monitor_cpu_config self a script) as [Ht Hi].
    apply Hsame; assumption.
  - apply Hsame; reflexivity.
Qed.

Lemma monitor_cpu_can_be_run_again_witness :
  let first := [reading "12:00:00" (decimal 50 1);
                interrupted "12:00:11" (decimal 50 1)] in
  let second := [reading "13:00:00" (decimal 150 1)] in
  monitor_cpu (agent (monitor_cpu demo_agent undisturbed first)) undisturbed second =
    monitor_cpu demo_agent undisturbed second.
Proof.
  intros first second.
  apply (monitor_cpu_can_be_run_again demo_agent undisturbed first undisturbed second).
  intros e. discriminate.
Defined.

(** X3.  Left alone, the monitor does not stop: when the interval is one
    the clock accepts (from 0 to 9223372036 seconds) and every cycle is
    quiet (the sample is read, its lines are printed, the sleep is not cut
    short, nobody stops the agent), the run reads the whole script, emits
    one event per cycle and is still monitoring. *)
Theorem monitor_cpu_keeps_running self script :
  0 <= check_interval self <= sleep_max ->
  forallb (quiet (cpu_threshold self)) script = true ->
  let r := monitor_cpu self undisturbed script in
  ended r = Running /\
  unread r = [] /\
  is_monitoring (agent r) = true /\
  length (events (stdout r)) = length script /\
  (forall s c, In c script -> sample c = Ok s ->
     exists ev, In ev (events (stdout r)) /\ event_cpu ev = s /\
       event_time ev = clock c).
Proof.
  intros Hint Hq r.
  destruct (while_quiet (set_is_monitoring true self) script eq_refl Hint Hq)
    as (Hexit & Hunread & Hself).
  destruct (monitor_cpu_events self undisturbed script eq_refl) as (Hc & Hev).
  subst r. revert Hc Hev. rewrite monitor_cpu_undisturbed. cbv zeta. rewrite Hexit.
  cbn [stdout agent unread ended]. rewrite Hunread, Hself.
  intros Hc Hev. rewrite app_nil_r in Hc.
  repeat (split; [reflexivity | ]).
  rewrite Hev, <- Hc. clear Hev Hexit Hunread Hself Hc. split.
  - induction script as [ | c script IH]; [reflexivity | ].
    simpl in Hq. apply andb_prop in Hq as [Hc Hq].
    simpl. unfold cycle_event at 1. unfold quiet in Hc.
    destruct (sample c); [ | discriminate]. simpl. f_equal. apply IH. assumption.
  - intros s c Hin Hsample.
    destruct (cycle_event_reading (cpu_threshold self) c s Hsample)
      as (ev & Hce & Htime & Hcpu & _).
    exists ev. split; [ | auto].
    apply list_elem_of_In. apply list_elem_of_omap.
    exists c. split; [apply list_elem_of_In; exact Hin | exact Hce].
Qed.

Lemma monitor_cpu_keeps_running_witness :
  let r := monitor_cpu demo_agent undisturbed
             [reading "12:00:00" (decimal 50 1);
              reading "12:00:11" (decimal 150 1)] in
  ended r = Running /\
  unread r = [] /\
  is_monitoring (agent r) = true /\
  length (events (stdout r)) = 2%nat.
Proof.
  destruct (monitor_cpu_keeps_running demo_agent
              [reading "12:00:00" (decimal 50 1);
               reading "12:00:11" (decimal 150 1)])
    as (H1 & H2 & H3 & H4 & _);
    [vm_compute; split; discriminate | reflexivity | ].
  repeat split; assumption.
Defined.

(** A cycle whose body raises ends the loop with that exception; what
    follows stays unread, and without a concurrent stop the agent is as it
    was. *)
Lemma raising_cycle self c after e :
  is_monitoring self = true ->
  body_raises (check_interval self) (cpu_threshold self) c e ->
  let r := while_is_monitoring self (c :: after) in
  loop_exit_by r = Raised e /\
  loop_unread r = after /\
  (stop c = None -> loop_self r = self).
Proof.
  intros Hon Hraise r. subst r.
  rewrite while_flag_on by assumption.
  pose proof (concurrent_stop_config In_sample c self) as [Ht1 Hi1].
  assert (Hnone1 : stop c = None -> snd (concurrent_stop In_sample c self) = self).
  { intros Hs. unfold concurrent_stop. rewrite Hs. reflexivity. }
  destruct (concurrent_stop In_sample c self) as [o1 self1];
    simpl in Ht1, Hi1, Hnone1.
  destruct Hraise as [Hs | [(s & Hs & Hgt & Hsub) | (s & Hs & Hlines & Hw)]];
    rewrite Hs.
  - cbn [loop_exit_by loop_unread loop_self]. auto.
  - assert (Hr : snd (evaluate self1 s (clock c)) = Raise e).
    { apply evaluate_raises. rewrite Ht1. auto. }
    destruct (evaluate self1 s (clock c)) as [o2 [u | e']]; [discriminate | ].
    cbn [snd] in Hr. injection Hr as ->.
    cbn [loop_exit_by loop_unread loop_self]. auto.
  - rewrite <- Ht1, (evaluate_lines_raise self1 s (clock c)) in Hlines.
    destruct (evaluate self1 s (clock c)) as [o2 [u | e']]; [ | discriminate].
    pose proof (concurrent_stop_config In_sleep c self1) as [_ Hi2].
    assert (Hnone2 : stop c = None -> snd (concurrent_stop In_sleep c self1) = self1).
    { intros Hst. unfold concurrent_stop. rewrite Hst. reflexivity. }
    destruct (concurrent_stop In_sleep c self1) as [o3 self2]; simpl in Hi2, Hnone2.
    replace (check_interval self2) with (check_interval self) by congruence.
    rewrite Hw. cbn [loop_exit_by loop_unread loop_self].
    repeat split. intros Hst. rewrite (Hnone2 Hst). auto.
Qed.

(** The same at the end of a run that has got through [before]. *)
Lemma raising_cycle_after self before c after e :
  gets_through self before ->
  body_raises (check_interval self) (cpu_threshold self) c e ->
  let r := while_is_monitoring (set_is_monitoring true self) (before ++ c :: after) in
  loop_exit_by r = Raised e /\
  loop_unread r = after /\
  (stop c = None -> is_monitoring (loop_self r) = true).
Proof.
  intros Hreach Hraise r. subst r.
  destruct (while_app _ before (c :: after) Hreach) as [Hon ->].
  destruct (while_config (set_is_monitoring true self) before) as [Ht Hi].
  rewrite interval_set_is_monitoring in Hi.
  rewrite threshold_set_is_monitoring in Ht.
  rewrite <- Hi, <- Ht in Hraise.
  destruct (raising_cycle _ c after e Hon Hraise) as (Hexit & Hunread & Hself).
  unfold emit; cbn [loop_exit_by loop_unread loop_self].
  repeat split; try assumption.
  intros Hst. rewrite (Hself Hst). exact Hon.
Qed.

(** X4.  Ctrl+C during the sample or the sleep of a cycle ends the run
    cleanly: [monitor_cpu] returns with the flag cleared, its last line is
    "Monitoring stopped by user", no error line is printed, and the cycles
    that follow are never begun. *)
Theorem interrupt_stops_cleanly self before c after e :
  gets_through self before ->
  body_raises (check_interval self) (cpu_threshold self) c e ->
  isinstance_KeyboardInterrupt e = true ->
  let r := monitor_cpu self undisturbed (before ++ c :: after) in
  ended r = Returned /\
  is_monitoring (agent r) = false /\
  unread r = after /\
  last (stdout r) = Some Cpu_interrupted /\
  (forall e', ~ In (Cpu_error e') (stdout r)).
Proof.
  intros Hreach Hraise Hki r. subst r. rewrite monitor_cpu_undisturbed. cbv zeta.
  destruct (raising_cycle_after self before c after e Hreach Hraise)
    as (Hexit & Hunread & _).
  pose proof (while_prints_no_closing (set_is_monitoring true self)
                (before ++ c :: after)) as Hloop.
  rewrite Hexit, Hki. cbn [stdout agent unread ended].
  repeat (split; [first [reflexivity | assumption] | ]).
  split.
  - rewrite !app_assoc. apply last_snoc.
  - intros e' Hin. simpl in Hin. destruct Hin as [Hin | [Hin | Hin]];
      try discriminate.
    apply in_app_iff in Hin as [Hin | Hin].
    + apply Hloop in Hin. discriminate.
    + simpl in Hin. destruct Hin as [Hin | []]. discriminate.
Qed.

Lemma interrupt_stops_cleanly_witness :
  let r := monitor_cpu demo_agent undisturbed
             ([reading "12:00:00" (decimal 50 1)] ++
              interrupted "12:00:11" (decimal 150 1) ::
              [reading "12:00:22" (decimal 50 1)]) in
  ended r = Returned /\
  is_monitoring (agent r) = false /\
  unread r = [reading "12:00:22" (decimal 50 1)] /\
  last (stdout r) = Some Cpu_interrupted /\
  (forall e', ~ In (Cpu_error e') (stdout r)).
Proof.
  apply (interrupt_stops_cleanly demo_agent
           [reading "12:00:00" (decimal 50 1)]
           (interrupted "12:00:11" (decimal 150 1))
           [reading "12:00:22" (decimal 50 1)]
           (Exn KeyboardInterrupt "")).
  - vm_compute. reflexivity.
  - right. right. exists (decimal 150 1). repeat split.
  - reflexivity.
Defined.

(** X5.  An exception that is neither Ctrl+C nor an [Exception] (a
    [SystemExit], say) is not caught: it leaves [monitor_cpu], no closing
    line is printed, and when nobody stopped the agent in that cycle the
    flag [is_monitoring] is left set. *)
Theorem uncaught_exit_leaves_flag_set self before c after e :
  gets_through self before ->
  body_raises (check_interval self) (cpu_threshold self) c e ->
  handled e = false ->
  let r := monitor_cpu self undisturbed (before ++ c :: after) in
  ended r = Propagated e /\
  unread r = after /\
  (forall p, In p (stdout r) -> is_closing p = false) /\
  (stop c = None -> is_monitoring (agent r) = true).
Proof.
  intros Hreach Hraise Hun r. subst r. rewrite monitor_cpu_undisturbed. cbv zeta.
  destruct (raising_cycle_after self before c after e Hreach Hraise)
    as (Hexit & Hunread & Hflag).
  pose proof (while_prints_no_closing (set_is_monitoring true self)
                (before ++ c :: after)) as Hloop.
  unfold handled in Hun. apply orb_false_elim in Hun as [Hki Hexc].
  rewrite Hexit, Hki, Hexc. cbn [stdout agent unread ended].
  repeat (split; [first [reflexivity | assumption] | ]).
  split; [ | exact Hflag].
  intros p Hin. simpl in Hin. destruct Hin as [<- | [<- | Hin]];
    [reflexivity | reflexivity | apply Hloop; assumption].
Qed.

Lemma uncaught_exit_leaves_flag_set_witness :
  let e := Exn SystemExit "" in
  let r := monitor_cpu demo_agent undisturbed
             ([reading "12:00:00" (decimal 50 1)] ++
              failing "12:00:11" e ::
              [reading "12:00:22" (decimal 50 1)]) in
  ended r = Propagated e /\
  unread r = [reading "12:00:22" (decimal 50 1)] /\
  (forall p, In p (stdout r) -> is_closing p = false) /\
  (stop (failing "12:00:11" e) = None -> is_monitoring (agent r) = true).
Proof.
  intros e.
  apply (uncaught_exit_leaves_flag_set demo_agent
           [reading "12:00:00" (decimal 50 1)]
           (failing "12:00:11" e)
           [reading "12:00:22" (decimal 50 1)] e).
  - vm_compute. reflexivity.
  - left. reflexivity.
  - reflexivity.
Defined.

(** X6.  A run whose handler is not cut short by a further exception
    prints a closing line ("Monitoring stopped by user" or "Error during
    monitoring: ...") at most once and only as its very last line, and only
    when it returns with the flag cleared; an error line reports an
    [Exception]. *)
Theorem closing_line_is_last self a script p :
  on_handler a = None ->
  In p (stdout (monitor_cpu self a script)) ->
  is_closing p = true ->
  let r := monitor_cpu self a script in
  ended r = Returned /\
  is_monitoring (agent r) = false /\
  (forall e, p = Cpu_error e -> isinstance_Exception e = true) /\
  exists o, stdout r = o ++ [p] /\ forall q, In q o -> is_closing q = false.
Proof.
  intros Hhandler Hin Hp r. subst r. revert Hin.
  destruct (on_entry a) as [[p0 e0] | ] eqn:Hentry.
  { destruct (monitor_cpu_entry self a script p0 e0 Hentry) as (_ & _ & -> & _).
    destruct p0; simpl; intros Hin; try contradiction.
    destruct Hin as [<- | []]. discriminate. }
  assert (Ha : a = undisturbed).
  { destruct a as [en ha]. simpl in Hhandler, Hentry. subst. reflexivity. }
  subst a.
  rewrite monitor_cpu_undisturbed. cbv zeta.
  pose proof (while_prints_no_closing (set_is_monitoring true self) script) as Hloop.
  set (o0 := [Cpu_start (cpu_threshold (set_is_monitoring true self)); Cpu_hint]).
  assert (Hstart : forall q, In q (o0 ++ loop_out (while_is_monitoring
                     (set_is_monitoring true self) script)) -> is_closing q = false).
  { intros q Hq. apply in_app_iff in Hq as [Hq | Hq]; [ | apply Hloop; assumption].
    simpl in Hq. destruct Hq as [<- | [<- | []]]; reflexivity. }
  destruct (loop_exit_by _) as [ | e | ].
  - cbn [stdout]. intros Hin. apply Hstart in Hin. congruence.
  - destruct (isinstance_KeyboardInterrupt e) eqn:Hki;
      [ | destruct (isinstance_Exception e) eqn:Hexc];
      cbn [stdout agent unread ended]; rewrite ?app_assoc; intros Hin.
    + apply in_app_iff in Hin as [Hin | Hin];
        [apply Hstart in Hin; congruence | ].
      simpl in Hin. destruct Hin as [<- | []].
      repeat (split; [reflexivity | ]). split; [discriminate | ].
      eexists. split; [reflexivity | exact Hstart].
    + apply in_app_iff in Hin as [Hin | Hin];
        [apply Hstart in Hin; congruence | ].
      simpl in Hin. destruct Hin as [<- | []].
      repeat (split; [reflexivity | ]).
      split; [intros e' [= <-]; exact Hexc | ].
      eexists. split; [reflexivity | exact Hstart].
    + apply Hstart in Hin. congruence.
  - cbn [stdout]. intros Hin. apply Hstart in Hin. congruence.
Qed.

Lemma closing_line_is_last_witness :
  let e := Exn OSError "sensor read failed" in
  let r := monitor_cpu demo_agent undisturbed
             [reading "12:00:00" (decimal 50 1); failing "12:00:11" e] in
  ended r = Returned /\
  is_monitoring (agent r) = false /\
  (forall e', Cpu_error e = Cpu_error e' -> isinstance_Exception e' = true) /\
  exists o, stdout r = o ++ [Cpu_error e] /\ forall q, In q o -> is_closing q = false.
Proof.
  intros e.
  apply (closing_line_is_last demo_agent undisturbed
           [reading "12:00:00" (decimal 50 1); failing "12:00:11" e]
           (Cpu_error e)).
  - reflexivity.
  - vm_compute. do 3 right. left. reflexivity.
  - reflexivity.
Defined.

End Monitor_more.

(** * More about the alerts *)
Section Alerts_more.
Import Py System_Agents Events Runs.

(** Readings and thresholds against which nothing is above: a reading that
    is not a number or is minus infinity, a threshold that is not a number
    or is plus infinity. *)
Lemma never_above s t :
  s = S754_nan \/ s = S754_infinity true \/
  t = Float S754_nan \/ t = Float (S754_infinity false) ->
  num_gt s t = false.
Proof.
  intros [-> | [-> | [-> | ->]]].
  - destruct t as [n | f]; [reflexivity | ].
    unfold num_gt, float_gt, float_lt, SFltb. destruct f; reflexivity.
  - destruct t as [n | f]; [reflexivity | ].
    unfold num_gt, float_gt, float_lt, SFltb.
    destruct f as [sf | sf | | sf mf ef]; try destruct sf; reflexivity.
  - unfold num_gt, float_gt, float_lt, SFltb. reflexivity.
  - unfold num_gt, float_gt, float_lt, SFltb.
    destruct s as [ss | ss | | ss ms es]; try destruct ss; reflexivity.
Qed.

(** X7.  No alert is ever raised on a reading that is not a number or is
    minus infinity, or against a threshold that is not a number or is plus
    infinity: every cycle the run reads with such a reading, or any reading
    against such a threshold, reports the normal status. *)
Theorem no_alert_on_nan self a script :
  let r := monitor_cpu self a script in
  let T := cpu_threshold self in
  (forall time s t ox, In (Alert time s t ox) (events (stdout r)) ->
     s <> S754_nan /\ s <> S754_infinity true /\
     t <> Float S754_nan /\ t <> Float (S754_infinity false)) /\
  (forall c s, on_entry a = None ->
     In c (cycles_read (check_interval self) T script) ->
     sample c = Ok s ->
     s = S754_nan \/ s = S754_infinity true \/
     T = Float S754_nan \/ T = Float (S754_infinity false) ->
     In (Normal (clock c) s) (events (stdout r))).
Proof.
  cbv zeta. split.
  - intros time s t ox Hin.
    destruct (alert_of_run self a script time s t ox Hin) as (_ & Hgt & _).
    repeat split; intros ->;
      rewrite never_above in Hgt by auto; discriminate.
  - intros c s Hentry Hin Hsample Hodd.
    destruct (monitor_cpu_events self a script Hentry) as (_ & Hev).
    rewrite Hev. apply list_elem_of_In. apply list_elem_of_omap.
    exists c. split; [apply list_elem_of_In; exact Hin | ].
    unfold cycle_event. rewrite Hsample, (never_above s _ Hodd). reflexivity.
Qed.

(** With a threshold that is not a number, a reading of 100.0 and a
    reading that is not a number are both normal. *)
Lemma no_alert_on_nan_witness :
  let self := {| cpu_threshold := Float S754_nan; check_interval := 10;
                 is_monitoring := false |} in
  let r := monitor_cpu self undisturbed
             [reading "12:00:00" (decimal 1000 1);
              reading "12:00:11" S754_nan] in
  In (Normal "12:00:00" (decimal 1000 1)) (events (stdout r)) /\
  In (Normal "12:00:11" S754_nan) (events (stdout r)).
Proof.
  intros self r. subst r. split.
  - apply (proj2 (no_alert_on_nan self undisturbed _)
                 (reading "12:00:00" (decimal 1000 1)) _ eq_refl);
      [vm_compute; left; reflexivity | reflexivity | right; right; left; reflexivity].
  - apply (proj2 (no_alert_on_nan self undisturbed _)
                 (reading "12:00:11" S754_nan) _ eq_refl);
      [vm_compute; right; left; reflexivity | reflexivity | left; reflexivity].
Defined.

(** X8.  The excess line of an alert never shows a negative figure: for a
    reading the runtime can hold and a threshold that is an int or a float
    the runtime can hold, what [.1f] prints of the excess is "inf" or an
    unsigned decimal with one digit after the point. *)
Theorem alert_excess_never_printed_negative self a script time s t x :
  In (Alert time s t (Some x)) (events (stdout (monitor_cpu self a script))) ->
  is_float s = true ->
  is_num t = true ->
  format_1f x = "inf" \/
  exists n, 0 <= n /\
    format_1f x = (pretty (n / 10) ++ "." ++ pretty (n mod 10))%string.
Proof.
  intros Hin Hs Ht.
  destruct (alert_of_run self a script time s t (Some x) Hin) as (_ & Hgt & Hox).
  destruct (num_sub s t) as [x' | e] eqn:Hsub; [ | discriminate].
  injection Hox as ->.
  destruct (num_sub_nonneg s t x' Hs Ht Hgt Hsub) as [-> | Hpos].
  { right. exists 0. split; [lia | reflexivity]. }
  unfold float_pos, float_lt, SFltb in Hpos.
  destruct x' as [sx | sx | | sx m e]; simpl in Hpos;
    try discriminate; destruct sx; try discriminate.
  - left. reflexivity.
  - right. exists (tenths m e). split; [apply tenths_nonneg | reflexivity].
Qed.

Lemma alert_excess_never_printed_negative_witness :
  format_1f (float_of_int 5) = "inf" \/
  exists n, 0 <= n /\
    format_1f (float_of_int 5) = (pretty (n / 10) ++ "." ++ pretty (n mod 10))%string.
Proof.
  apply (alert_excess_never_printed_negative demo_agent undisturbed
           [reading "12:00:00" (decimal 150 1)]
           "12:00:00" (decimal 150 1) (Int 10) (float_of_int 5)).
  - vm_compute. left. reflexivity.
  - reflexivity.
  - reflexivity.
Defined.

End Alerts_more.

(** * More about the snapshot, the memory status and the whole program *)
Section System_more.
Import Py System_Agents Events Runs.

(** X9.  [get_system_info] raises exactly when one of its four queries
    does, and then with the exception of the first query to fail, in the
    order core count, frequency, memory, disk: no partial dict is
    returned. *)
Theorem get_system_info_raises_first_failure self h e :
  snd (get_system_info self h) = Raise e <-> first_failure h e.
Proof.
  unfold get_system_info, first_failure. cbn [snd].
  destruct (cpu_count h) as [n | e1]; cbn [mbind result_bind].
  2:{ split.
      - intros [= <-]. left. reflexivity.
      - intros [H | [(? & H & _) | [(? & ? & H & _) | (? & ? & ? & H & _)]]];
          congruence. }
  destruct (cpu_freq h) as [f | e2]; cbn [mbind result_bind].
  2:{ split.
      - intros [= <-]. right. left. eauto.
      - intros [H | [(? & _ & H) | [(? & ? & _ & H & _) | (? & ? & ? & _ & H & _)]]];
          congruence. }
  destruct (virtual_memory h) as [m | e3]; cbn [mbind result_bind].
  2:{ split.
      - intros [= <-]. right. right. left. eauto.
      - intros [H | [(? & _ & H) | [(? & ? & _ & _ & H) | (? & ? & ? & _ & _ & H & _)]]];
          congruence. }
  destruct (disk_usage h "/") as [d | e4]; cbn [mbind result_bind].
  - split; [discriminate | ].
    intros [H | [(? & _ & H) | [(? & ? & _ & _ & H) | (? & ? & ? & _ & _ & _ & H)]]];
      congruence.
  - split.
    + intros [= <-]. right. right. right. eauto 10.
    + intros [H | [(? & _ & H) | [(? & ? & _ & _ & H) | (? & ? & ? & _ & _ & _ & H)]]];
        congruence.
Qed.

(** X10.  When a query of the snapshot fails, [monitor_system] has no
    handler for it: the exception leaves the call after the first line,
    monitoring is never started, and the agent is as it was. *)
Theorem monitor_system_needs_the_snapshot self h a script e :
  first_failure h e ->
  monitor_system self h a script =
    {| stdout := [Sys_start]; agent := self; unread := script;
       ended := Propagated e |}.
Proof.
  intros Hfail. unfold monitor_system, get_system_info.
  destruct Hfail as [H | [(n & Hn & H) | [(n & f & Hn & Hf & H)
                                          | (n & f & m & Hn & Hf & Hm & H)]]].
  - rewrite H. reflexivity.
  - rewrite Hn, H. reflexivity.
  - rewrite Hn, Hf, H. reflexivity.
  - rewrite Hn, Hf, Hm, H. reflexivity.
Qed.

Lemma monitor_system_needs_the_snapshot_witness :
  let e := Exn OSError "cannot read /proc/meminfo" in
  monitor_system demo_agent (no_memory_host e) undisturbed
    [reading "12:00:00" (decimal 150 1)] =
    {| stdout := [Sys_start]; agent := demo_agent;
       unread := [reading "12:00:00" (decimal 150 1)];
       ended := Propagated e |}.
Proof.
  intros e. apply monitor_system_needs_the_snapshot.
  right. right. left. exists (Some 8), None. repeat split.
Defined.

(** X11.  When the four queries return and the byte counts are below
    [2^53], [monitor_system] prints its first line and the dump of five
    lines, then runs [monitor_cpu] on the unchanged agent: the rest of its
    output, the agent it leaves, what it leaves unread and how it ends are
    those of [monitor_cpu]. *)
Theorem monitor_system_is_dump_then_monitor_cpu self h a script n f m d :
  cpu_count h = Ok n ->
  cpu_freq h = Ok f ->
  virtual_memory h = Ok m ->
  disk_usage h "/" = Ok d ->
  0 <= total m < 2 ^ 53 ->
  0 <= disk_total d < 2 ^ 53 ->
  let r := monitor_system self h a script in
  exists gm gd,
    int_truediv (total m) 1073741824 = Ok gm /\
    int_truediv (disk_total d) 1073741824 = Ok gd /\
    stdout r =
      [Sys_start; Sys_head; Sys_cores (opt_int n);
       Sys_frequency (match f with
                      | Some q => PyFloat (current q)
                      | None => PyStr "N/A"
                      end);
       Sys_total_memory gm; Sys_total_disk gd] ++
      stdout (monitor_cpu self a script) /\
    agent r = agent (monitor_cpu self a script) /\
    unread r = unread (monitor_cpu self a script) /\
    ended r = ended (monitor_cpu self a script).
Proof.
  intros Hn Hf Hm Hd Hrm Hrd r. subst r.
  destruct (monitor_system_dump self h a script n f m d Hn Hf Hm Hd Hrm Hrd)
    as (gm & gd & [Hgm _] & [Hgd _] & Hrun).
  exists gm, gd. split; [exact Hgm | ]. split; [exact Hgd | exact Hrun].
Qed.

Lemma monitor_system_is_dump_then_monitor_cpu_witness :
  let script := [reading "12:00:00" (decimal 150 1)] in
  let r := monitor_system demo_agent demo_host undisturbed script in
  exists gm gd,
    int_truediv (total demo_memory) 1073741824 = Ok gm /\
    int_truediv (disk_total demo_disk) 1073741824 = Ok gd /\
    stdout r =
      [Sys_start; Sys_head; Sys_cores (PyInt 8); Sys_frequency (PyStr "N/A");
       Sys_total_memory gm; Sys_total_disk gd] ++
      stdout (monitor_cpu demo_agent undisturbed script) /\
    agent r = agent (monitor_cpu demo_agent undisturbed script) /\
    unread r = unread (monitor_cpu demo_agent undisturbed script) /\
    ended r = ended (monitor_cpu demo_agent undisturbed script).
Proof.
  intros script.
  apply (monitor_system_is_dump_then_monitor_cpu demo_agent demo_host undisturbed
           script
           (Some 8) None demo_memory demo_disk);
    try reflexivity; vm_compute; (split; [discriminate | reflexivity]).
Defined.

(** X12.  [monitor_memory] has no handler either: a failed memory query
    leaves the call with nothing printed.  When the query returns and the
    byte counts are below [2^53], the status is printed in full, five
    lines in the order head, total, available, used, free, and the call
    returns. *)
Theorem monitor_memory_prints_all_or_nothing self h now :
  (forall e, virtual_memory h = Raise e ->
     monitor_memory self h now = ([], Raise e)) /\
  (forall m, virtual_memory h = Ok m ->
     0 <= total m < 2 ^ 53 ->
     0 <= available m < 2 ^ 53 ->
     0 <= free m < 2 ^ 53 ->
     exists t a f,
       int_truediv (total m) 1073741824 = Ok t /\
       int_truediv (available m) 1073741824 = Ok a /\
       int_truediv (free m) 1073741824 = Ok f /\
       monitor_memory self h now =
         ([Mem_head now; Mem_total t; Mem_available a; Mem_used (percent m);
           Mem_free f], Ok ())).
Proof.
  split.
  - intros e He. unfold monitor_memory. rewrite He. reflexivity.
  - intros m Hm Ht Ha Hf.
    destruct (int_truediv_GiB_shown _ Ht) as (t & Hdt & _).
    destruct (int_truediv_GiB_shown _ Ha) as (a & Hda & _).
    destruct (int_truediv_GiB_shown _ Hf) as (f & Hdf & _).
    exists t, a, f. repeat (split; [assumption | ]).
    unfold monitor_memory. rewrite Hm. change GiB with 1073741824.
    rewrite Hdt, Hda, Hdf. reflexivity.
Qed.

Lemma monitor_memory_prints_all_or_nothing_witness :
  exists t a f,
    int_truediv (total demo_memory) 1073741824 = Ok t /\
    int_truediv (available demo_memory) 1073741824 = Ok a /\
    int_truediv (free demo_memory) 1073741824 = Ok f /\
    monitor_memory demo_agent demo_host "12:00:00" =
      ([Mem_head "12:00:00"; Mem_total t; Mem_available a;
        Mem_used (percent demo_memory); Mem_free f], Ok ()).
Proof.
  apply (proj2 (monitor_memory_prints_all_or_nothing demo_agent demo_host "12:00:00")
               demo_memory);
    try reflexivity; vm_compute; (split; [discriminate | reflexivity]).
Defined.

(** Where a total-memory figure comes from, in the status and in the
    dump. *)
Lemma status_total self h now gb :
  In (Mem_total gb) (fst (monitor_memory self h now)) ->
  exists m, virtual_memory h = Ok m /\ int_truediv (total m) GiB = Ok gb.
Proof.
  unfold monitor_memory.
  destruct (virtual_memory h) as [m | e]; [ | simpl; contradiction].
  destruct (int_truediv (total m) GiB) as [t | e] eqn:Ht;
    [ | simpl; intuition discriminate].
  intros Hin. exists m. split; [reflexivity | ].
  destruct (int_truediv (available m) GiB) as [a | e];
    [destruct (int_truediv (free m) GiB) as [f | e] | ];
    simpl in Hin; intuition (try discriminate); congruence.
Qed.

Lemma dump_total self h a script gb :
  In (Sys_total_memory gb) (stdout (monitor_system self h a script)) ->
  exists m, virtual_memory h = Ok m /\ int_truediv (total m) GiB = Ok gb.
Proof.
  unfold monitor_system, get_system_info.
  destruct (cpu_count h) as [n | e]; [ | simpl; intuition discriminate].
  destruct (cpu_freq h) as [f | e]; [ | simpl; intuition discriminate].
  destruct (virtual_memory h) as [m | e]; [ | simpl; intuition discriminate].
  destruct (disk_usage h "/") as [d | e]; [ | simpl; intuition discriminate].
  cbn [mbind result_bind]. rewrite system_info_lines_of_snapshot.
  destruct (int_truediv (total m) GiB) as [gm | e] eqn:Hgm;
    [ | simpl; intuition discriminate].
  intros Hin. exists m. split; [reflexivity | ].
  destruct (int_truediv (disk_total d) GiB) as [gd | e];
    cbn [stdout] in Hin; rewrite ?in_app_iff in Hin; simpl in Hin.
  - destruct Hin as [Hin | [Hin | Hin]].
    + intuition discriminate.
    + intuition (try discriminate); congruence.
    + apply monitor_cpu_shows_no_size in Hin. discriminate.
  - intuition (try discriminate); congruence.
Qed.

(** X13.  The two displays of the total memory agree: for the same
    reading of the host, the figure in the dump of [monitor_system] is the
    figure in the status of [monitor_memory]. *)
Theorem total_memory_shown_alike self h now a script gb gb' :
  In (Mem_total gb) (fst (monitor_memory self h now)) ->
  In (Sys_total_memory gb') (stdout (monitor_system self h a script)) ->
  gb = gb'.
Proof.
  intros Hstatus Hdump.
  apply status_total in Hstatus as (m & Hm & Hgb).
  apply dump_total in Hdump as (m' & Hm' & Hgb').
  congruence.
Qed.

Lemma total_memory_shown_alike_witness : float_of_int 16 = float_of_int 16.
Proof.
  apply (total_memory_shown_alike demo_agent demo_host "12:00:00" undisturbed []).
  - vm_compute. right. left. reflexivity.
  - vm_compute. do 4 right. left. reflexivity.
Defined.

(** The lines of the dump are no events. *)
Lemma dump_no_events (info : gmap string pyval) o :
  events (fst (system_info_lines info) ++ o) = events o.
Proof.
  unfold system_info_lines.
  destruct (dict_getitem info "cpu_count"); [ | reflexivity].
  destruct (dict_getitem info "cpu_frequency"); [ | reflexivity].
  destruct (m ← dict_getitem info "memory_total"; truediv m GiB); [ | reflexivity].
  destruct (d ← dict_getitem info "disk_total"; truediv d GiB); reflexivity.
Qed.

(** An event of a run is an alert exactly when its reading is above the
    threshold of the agent. *)
Lemma event_of_run self a script ev :
  In ev (events (stdout (monitor_cpu self a script))) ->
  is_alert ev = num_gt (event_cpu ev) (cpu_threshold self).
Proof.
  intros Hin.
  destruct (on_entry a) as [[p e] | ] eqn:Hentry.
  { rewrite (monitor_cpu_no_events self a script p e Hentry) in Hin. contradiction. }
  destruct (monitor_cpu_events self a script Hentry) as (_ & Hev).
  rewrite Hev in Hin. apply list_elem_of_In in Hin.
  apply list_elem_of_omap in Hin as (c & _ & Hc).
  unfold cycle_event in Hc.
  destruct (sample c) as [s | e]; [ | discriminate].
  destruct (num_gt s (cpu_threshold self)) eqn:Hgt;
    injection Hc as <-; simpl; congruence.
Qed.

(** The events of [monitor_system] are those of the [monitor_cpu] it
    runs, or none when the snapshot or the dump fails. *)
Lemma monitor_system_events self h a script :
  events (stdout (monitor_system self h a script)) = [] \/
  events (stdout (monitor_system self h a script)) =
    events (stdout (monitor_cpu self a script)).
Proof.
  unfold monitor_system.
  destruct (get_system_info self h) as [self' [info | e]] eqn:Hinfo;
    [ | left; reflexivity].
  assert (self' = self) by (unfold get_system_info in Hinfo; congruence).
  subst self'.
  pose proof (dump_no_events info) as Hdump.
  destruct (system_info_lines info) as [o1 [u | e]]; cbn [fst] in Hdump;
    cbn [stdout].
  - right. simpl. apply Hdump.
  - left. simpl. rewrite <- (app_nil_r o1). apply Hdump.
Qed.

(** X14.  [monitor_system] alerts exactly as [monitor_cpu] does.  When
    the four queries return and the byte counts are below [2^53], the dump
    contributes no event: the events of the run are those of the
    [monitor_cpu] it calls.  When a query fails there is no event at all.
    In every case an event of the run is an alert if and only if its
    reading is above the threshold of the agent, and the configuration of
    the agent is kept. *)
Theorem monitor_system_alerts_like_monitor_cpu self h a script :
  let r := monitor_system self h a script in
  (forall n f m d,
     cpu_count h = Ok n ->
     cpu_freq h = Ok f ->
     virtual_memory h = Ok m ->
     disk_usage h "/" = Ok d ->
     0 <= total m < 2 ^ 53 ->
     0 <= disk_total d < 2 ^ 53 ->
     events (stdout r) = events (stdout (monitor_cpu self a script))) /\
  (forall e, first_failure h e -> events (stdout r) = []) /\
  (forall ev, In ev (events (stdout r)) ->
     is_alert ev = num_gt (event_cpu ev) (cpu_threshold self)) /\
  cpu_threshold (agent r) = cpu_threshold self /\
  check_interval (agent r) = check_interval self.
Proof.
  cbv zeta. split; [ | split; [ | split]].
  - intros n f m d Hn Hf Hm Hd Hrm Hrd.
    destruct (monitor_system_dump self h a script n f m d Hn Hf Hm Hd Hrm Hrd)
      as (gm & gd & _ & _ & -> & _).
    reflexivity.
  - intros e Hfail. unfold monitor_system, get_system_info.
    destruct Hfail as [H | [(n & Hn & H) | [(n & f & Hn & Hf & H)
                                            | (n & f & m & Hn & Hf & Hm & H)]]].
    + rewrite H. reflexivity.
    + rewrite Hn, H. reflexivity.
    + rewrite Hn, Hf, H. reflexivity.
    + rewrite Hn, Hf, Hm, H. reflexivity.
  - intros ev Hin.
    destruct (monitor_system_events self h a script) as [Hnone | Hsame].
    + rewrite Hnone in Hin. contradiction.
    + rewrite Hsame in Hin. apply (event_of_run self a script). assumption.
  - unfold monitor_system.
    destruct (get_system_info self h) as [self' [info | e]] eqn:Hinfo;
      (assert (self' = self) by (unfold get_system_info in Hinfo; congruence));
      subst self'; [ | auto].
    destruct (system_info_lines info) as [o1 [u | e]]; cbn [agent]; [ | auto].
    exact (monitor_cpu_config self a script).
Qed.

Lemma monitor_system_alerts_like_monitor_cpu_witness :
  events (stdout (monitor_system demo_agent demo_host undisturbed
                    [reading "12:00:00" (decimal 50 1);
                     reading "12:00:11" (decimal 150 1)])) =
    [Normal "12:00:00" (decimal 50 1);
     Alert "12:00:11" (decimal 150 1) (Int 10) (Some (float_of_int 5))].
Proof.
  rewrite (proj1 (monitor_system_alerts_like_monitor_cpu demo_agent demo_host
                    undisturbed _)
                 (Some 8) None demo_memory demo_disk eq_refl eq_refl eq_refl eq_refl);
    vm_compute; first [reflexivity | split; [discriminate | reflexivity]].
Defined.

(** X15.  The program as [main] runs it, on a host whose four queries
    return with byte counts below [2^53]: it prints its title and the
    lines of the constructor, with the threshold as "10%", the constructor
    succeeds, and the events of the run are those of the cycles read, one
    per reading, an alert exactly for the readings above 10; the agent
    keeps threshold 10 and interval 10. *)
Theorem main_alerts_above_ten h script n f m d builtin_str :
  cpu_count h = Ok n ->
  cpu_freq h = Ok f ->
  virtual_memory h = Ok m ->
  disk_usage h "/" = Ok d ->
  0 <= total m < 2 ^ 53 ->
  0 <= disk_total d < 2 ^ 53 ->
  exists r,
    snd (System_Agents.main h undisturbed script) = Ok r /\
    line_text builtin_str <$> fst (System_Agents.main h undisturbed script) =
      ["System Monitoring AI Agent";
       "========================================";
       "SystemMonitorAgent initialized:";
       "  - CPU Threshold: 10%";
       "  - Check Interval: 10 seconds"] /\
    events (stdout r) =
      omap (cycle_event (Int 10)) (cycles_read 10 (Int 10) script) /\
    (forall c s, In c (cycles_read 10 (Int 10) script) -> sample c = Ok s ->
       exists ev, In ev (events (stdout r)) /\
         event_time ev = clock c /\ event_cpu ev = s /\
         (is_alert ev = true <-> float_compare_int s 10 = Some Gt)) /\
    cpu_threshold (agent r) = Int 10 /\
    check_interval (agent r) = 10.
Proof.
  intros Hn Hf Hm Hd Hrm Hrd.
  exists (monitor_system demo_agent h undisturbed script).
  split; [reflexivity | ]. split; [reflexivity | ].
  destruct (monitor_system_dump demo_agent h undisturbed script n f m d
              Hn Hf Hm Hd Hrm Hrd) as (gm & gd & _ & _ & Hout & Hagent & _).
  destruct (monitor_cpu_events demo_agent undisturbed script eq_refl) as (_ & Hev).
  assert (Hevents : events (stdout (monitor_system demo_agent h undisturbed script)) =
                    omap (cycle_event (Int 10)) (cycles_read 10 (Int 10) script)).
  { rewrite Hout. exact Hev. }
  split; [exact Hevents | ]. split.
  - intros c s Hin Hsample.
    destruct (cycle_event_reading (Int 10) c s Hsample)
      as (ev & Hce & Htime & Hcpu & Hiff & _).
    exists ev. split; [ | split; [exact Htime | split; [exact Hcpu | ]]].
    + rewrite Hevents. apply list_elem_of_In. apply list_elem_of_omap.
      exists c. split; [apply list_elem_of_In; exact Hin | exact Hce].
    + rewrite Hiff. unfold num_gt.
      destruct (float_compare_int s 10) as [[ | | ] | ];
        split; congruence.
  - rewrite Hagent. exact (monitor_cpu_config demo_agent undisturbed script).
Qed.

Lemma main_alerts_above_ten_witness :
  exists r,
    snd (System_Agents.main demo_host undisturbed
           [reading "12:00:00" (decimal 50 1);
            reading "12:00:11" (decimal 150 1);
            reading "12:00:22" (decimal 100 1)]) = Ok r /\
    events (stdout r) =
      [Normal "12:00:00" (decimal 50 1);
       Alert "12:00:11" (decimal 150 1) (Int 10) (Some (float_of_int 5));
       Normal "12:00:22" (decimal 100 1)].
Proof.
  destruct (main_alerts_above_ten demo_host
              [reading "12:00:00" (decimal 50 1);
               reading "12:00:11" (decimal 150 1);
               reading "12:00:22" (decimal 100 1)]
              (Some 8) None demo_memory demo_disk (fun _ => "?")
              eq_refl eq_refl eq_refl eq_refl)
    as (r & Hmain & _ & Hev & _);
    try (vm_compute; split; [discriminate | reflexivity]).
  exists r. split; [exact Hmain | ]. rewrite Hev. vm_compute. reflexivity.
Defined.

End System_more.

(** * More about the Bitcoin price agent *)
Section Price_more.
Import Py Bitcoin_price.

(** Indexing by a string gives a value exactly on a dict that has the
    key. *)
Lemma getitem_Ok v k x :
  getitem v k = Ok x <-> exists d, v = PyDict d /\ d !! k = Some x.
Proof.
  unfold getitem, dict_getitem. split.
  - destruct v; try discriminate.
    destruct (d !! k) eqn:Hk; [ | discriminate].
    intros [= <-]. eauto.
  - intros (d & -> & ->). reflexivity.
Qed.

Lemma dict_getitem_Some (d : gmap string pyval) k v :
  d !! k = Some v -> dict_getitem d k = Ok v.
Proof. intros H. unfold dict_getitem. rewrite H. reflexivity. Qed.

(** What the [try] body comes to on a 200 response whose body decodes. *)
Lemma try_body_200 self requests_get resp data :
  requests_get (api_url self) = Ok resp ->
  status_code resp = 200 ->
  json resp = Ok data ->
  try_body self requests_get =
    (bpi ← getitem data "bpi";
     usd ← getitem bpi "USD";
     bitcoin_price ← getitem usd "rate_float";
     Ok [Price bitcoin_price]).
Proof.
  intros Hget Hstatus Hjson. unfold try_body. rewrite Hget.
  cbn [mbind result_bind]. rewrite Hstatus, Hjson. reflexivity.
Qed.

(** X16.  A price is printed exactly when the response has status 200
    and its body is an object with an object under "bpi", an object under
    "USD" in it, and a value under "rate_float" in that; the value printed
    is that value, whatever its type. *)
Theorem price_printed_iff_path_present self requests_get v :
  In (Price v) (fst (fetch_bitcoin_price self requests_get)) <->
  exists resp d1 d2 d3,
    requests_get (api_url self) = Ok resp /\
    status_code resp = 200 /\
    json resp = Ok (PyDict d1) /\
    d1 !! "bpi" = Some (PyDict d2) /\
    d2 !! "USD" = Some (PyDict d3) /\
    d3 !! "rate_float" = Some v.
Proof.
  split.
  - unfold fetch_bitcoin_price.
    destruct (try_body self requests_get) as [o | e] eqn:Hbody.
    2:{ destruct (isinstance_RequestException e);
          [ | destruct (isinstance_KeyError e);
              [ | destruct (isinstance_Exception e)]];
          simpl; intuition discriminate. }
    cbn [fst]. revert Hbody. unfold try_body.
    destruct (requests_get (api_url self)) as [resp | e]; [ | discriminate].
    cbn [mbind result_bind].
    destruct (status_code resp =? 200) eqn:Hstatus.
    2:{ intros [= <-]. simpl. intuition discriminate. }
    apply Z.eqb_eq in Hstatus.
    destruct (json resp) as [data | e] eqn:Hjson; [ | discriminate].
    cbn [mbind result_bind].
    destruct (getitem data "bpi") as [bpi | e] eqn:H1; [ | discriminate].
    cbn [mbind result_bind].
    destruct (getitem bpi "USD") as [usd | e] eqn:H2; [ | discriminate].
    cbn [mbind result_bind].
    destruct (getitem usd "rate_float") as [price | e] eqn:H3; [ | discriminate].
    intros [= <-] [[= <-] | []].
    apply getitem_Ok in H1 as (d1 & -> & H1).
    apply getitem_Ok in H2 as (d2 & -> & H2).
    apply getitem_Ok in H3 as (d3 & -> & H3).
    exists resp, d1, d2, d3. repeat split; first [assumption | reflexivity].
  - intros (resp & d1 & d2 & d3 & Hget & Hstatus & Hjson & H1 & H2 & H3).
    unfold fetch_bitcoin_price.
    rewrite (try_body_200 self requests_get resp _ Hget Hstatus Hjson).
    unfold getitem, dict_getitem. rewrite H1. cbn [mbind result_bind].
    rewrite H2. cbn [mbind result_bind]. rewrite H3. cbn [mbind result_bind].
    left. reflexivity.
Qed.

(** X17.  On a 200 response whose body is an object, a missing field is
    reported as a data parsing error that names the first key missing on
    the path "bpi", "USD", "rate_float"; the call returns. *)
Theorem missing_field_is_named self requests_get resp d1 :
  requests_get (api_url self) = Ok resp ->
  status_code resp = 200 ->
  json resp = Ok (PyDict d1) ->
  (d1 !! "bpi" = None ->
   fetch_bitcoin_price self requests_get =
     ([Parsing_error (Exn KeyError "'bpi'")], Ok ())) /\
  (forall d2, d1 !! "bpi" = Some (PyDict d2) -> d2 !! "USD" = None ->
   fetch_bitcoin_price self requests_get =
     ([Parsing_error (Exn KeyError "'USD'")], Ok ())) /\
  (forall d2 d3, d1 !! "bpi" = Some (PyDict d2) ->
   d2 !! "USD" = Some (PyDict d3) -> d3 !! "rate_float" = None ->
   fetch_bitcoin_price self requests_get =
     ([Parsing_error (Exn KeyError "'rate_float'")], Ok ())).
Proof.
  intros Hget Hstatus Hjson.
  unfold fetch_bitcoin_price.
  rewrite (try_body_200 self requests_get resp _ Hget Hstatus Hjson).
  unfold getitem, dict_getitem.
  split; [ | split].
  - intros H1. rewrite H1. reflexivity.
  - intros d2 H1 H2. rewrite H1. cbn [mbind result_bind]. rewrite H2. reflexivity.
  - intros d2 d3 H1 H2 H3. rewrite H1. cbn [mbind result_bind].
    rewrite H2. cbn [mbind result_bind]. rewrite H3. reflexivity.
Qed.

Lemma missing_field_is_named_witness :
  fetch_bitcoin_price (Bitcoin_price.__init__ "https://example.org/price")
    (answering 200 (Ok (PyDict {[ "bpi" := PyDict ∅ ]}))) =
    ([Parsing_error (Exn KeyError "'USD'")], Ok ()).
Proof.
  refine (proj1 (proj2 (missing_field_is_named
                          (Bitcoin_price.__init__ "https://example.org/price")
                          (answering 200 (Ok (PyDict {[ "bpi" := PyDict ∅ ]})))
                          {| status_code := 200;
                             json := Ok (PyDict {[ "bpi" := PyDict ∅ ]}) |}
                          {[ "bpi" := PyDict ∅ ]} _ _ _))
                ∅ _ _); reflexivity.
Defined.

(** X18.  On a 200 response, a body (or a value under "bpi" or "USD")
    that is not an object cannot be indexed by a field name: the
    [TypeError] is reported by the catch-all handler as an unexpected
    error, not as a data parsing error, and the call returns. *)
Theorem non_object_body_is_unexpected self requests_get resp :
  requests_get (api_url self) = Ok resp ->
  status_code resp = 200 ->
  (forall data, json resp = Ok data -> Runs.not_a_dict data ->
     exists e, exn_class e = TypeError /\
       fetch_bitcoin_price self requests_get = ([Unexpected_error e], Ok ())) /\
  (forall d1 v, json resp = Ok (PyDict d1) -> d1 !! "bpi" = Some v ->
     Runs.not_a_dict v ->
     exists e, exn_class e = TypeError /\
       fetch_bitcoin_price self requests_get = ([Unexpected_error e], Ok ())) /\
  (forall d1 d2 v, json resp = Ok (PyDict d1) -> d1 !! "bpi" = Some (PyDict d2) ->
     d2 !! "USD" = Some v -> Runs.not_a_dict v ->
     exists e, exn_class e = TypeError /\
       fetch_bitcoin_price self requests_get = ([Unexpected_error e], Ok ())).
Proof.
  intros Hget Hstatus. unfold fetch_bitcoin_price. split; [ | split].
  - intros data Hjson Hnot.
    rewrite (try_body_200 self requests_get resp _ Hget Hstatus Hjson).
    destruct data; try contradiction; eexists; (split; [ | reflexivity]);
      reflexivity.
  - intros d1 v Hjson H1 Hnot.
    rewrite (try_body_200 self requests_get resp _ Hget Hstatus Hjson).
    cbn [getitem]. rewrite (dict_getitem_Some _ _ _ H1). cbn [mbind result_bind].
    destruct v; try contradiction; eexists; (split; [ | reflexivity]);
      reflexivity.
  - intros d1 d2 v Hjson H1 H2 Hnot.
    rewrite (try_body_200 self requests_get resp _ Hget Hstatus Hjson).
    cbn [getitem]. rewrite (dict_getitem_Some _ _ _ H1).
    cbn [mbind result_bind getitem]. rewrite (dict_getitem_Some _ _ _ H2).
    cbn [mbind result_bind].
    destruct v; try contradiction; eexists; (split; [ | reflexivity]);
      reflexivity.
Qed.

Lemma non_object_body_is_unexpected_witness :
  exists e, exn_class e = TypeError /\
    fetch_bitcoin_price (Bitcoin_price.__init__ "https://example.org/price")
      (answering 200 (Ok (PyList []))) = ([Unexpected_error e], Ok ()).
Proof.
  refine (proj1 (non_object_body_is_unexpected
                   (Bitcoin_price.__init__ "https://example.org/price")
                   (answering 200 (Ok (PyList [])))
                   {| status_code := 200; json := Ok (PyList []) |} _ _)
                (PyList []) _ _); first [reflexivity | exact I].
Defined.

(** X19.  An exception leaves [fetch_bitcoin_price] exactly when
    [requests.get], or the decoder on a 200 response, raised one that is
    not an [Exception] (Ctrl+C, [SystemExit]); nothing has been printed
    then. *)
Theorem fetch_lets_out_only_non_Exceptions self requests_get e :
  (snd (fetch_bitcoin_price self requests_get) = Raise e <->
   isinstance_Exception e = false /\
   (requests_get (api_url self) = Raise e \/
    exists resp, requests_get (api_url self) = Ok resp /\
                 status_code resp = 200 /\ json resp = Raise e)) /\
  (snd (fetch_bitcoin_price self requests_get) = Raise e ->
   fst (fetch_bitcoin_price self requests_get) = []).
Proof.
  assert (Hfwd : snd (fetch_bitcoin_price self requests_get) = Raise e ->
                 try_body self requests_get = Raise e /\
                 isinstance_Exception e = false /\
                 fst (fetch_bitcoin_price self requests_get) = []).
  { unfold fetch_bitcoin_price.
    destruct (try_body self requests_get) as [o | e'] eqn:Hbody; [discriminate | ].
    destruct (isinstance_RequestException e'); [discriminate | ].
    destruct (isinstance_KeyError e'); [discriminate | ].
    destruct (isinstance_Exception e') eqn:Hexc; [discriminate | ].
    cbn [fst snd]. intros [= <-]. auto. }
  split; [ | intros H; apply Hfwd; exact H].
  split.
  - intros H. destruct (Hfwd H) as (Hbody & Hexc & _).
    split; [exact Hexc | ].
    destruct (try_body_raises _ _ _ Hbody) as [Hg | [Hj | Hyes]];
      [left; exact Hg | right; exact Hj | congruence].
  - intros [Hexc Hsrc].
    destruct (not_Exception_not_named e Hexc) as [Hreq Hkey].
    assert (Hbody : try_body self requests_get = Raise e).
    { unfold try_body.
      destruct Hsrc as [Hg | (resp & Hg & Hs & Hj)]; rewrite Hg;
        [reflexivity | ].
      cbn [mbind result_bind]. rewrite Hs, Hj. reflexivity. }
    unfold fetch_bitcoin_price. rewrite Hbody, Hreq, Hkey, Hexc. reflexivity.
Qed.

(** X20.  A [RequestException] is reported as a network error whether
    [requests.get] raised it or the decoder of a 200 response did: a body
    that fails to decode with such an exception reads "Network error
    occurred". *)
Theorem request_exception_is_network_error self requests_get e :
  isinstance_RequestException e = true ->
  (requests_get (api_url self) = Raise e \/
   exists resp, requests_get (api_url self) = Ok resp /\
                status_code resp = 200 /\ json resp = Raise e) ->
  fetch_bitcoin_price self requests_get = ([Network_error e], Ok ()).
Proof.
  intros Hreq Hsrc.
  assert (Hbody : try_body self requests_get = Raise e).
  { unfold try_body.
    destruct Hsrc as [Hg | (resp & Hg & Hs & Hj)]; rewrite Hg; [reflexivity | ].
    cbn [mbind result_bind]. rewrite Hs, Hj. reflexivity. }
  unfold fetch_bitcoin_price. rewrite Hbody, Hreq. reflexivity.
Qed.

Lemma request_exception_is_network_error_witness :
  let e := Exn RequestException "Expecting value: line 1 column 1 (char 0)" in
  fetch_bitcoin_price (Bitcoin_price.__init__ "https://example.org/price")
    (answering 200 (Raise e)) = ([Network_error e], Ok ()).
Proof.
  intros e. apply request_exception_is_network_error; [reflexivity | ].
  right. eexists. repeat split.
Defined.

(** X21.  Every call ends in one of four ways: it prints the price and
    returns; it prints the two failure lines of a status other than 200
    and returns; it prints one error line about an [Exception] and
    returns; or it prints nothing and lets out an exception that is not an
    [Exception]. *)
Theorem fetch_bitcoin_price_outcomes self requests_get :
  (exists v, fetch_bitcoin_price self requests_get = ([Price v], Ok ())) \/
  (exists status, status <> 200 /\
     fetch_bitcoin_price self requests_get =
       ([Api_failed status; Api_failed_hint], Ok ())) \/
  (exists e, isinstance_Exception e = true /\
     (fetch_bitcoin_price self requests_get = ([Network_error e], Ok ()) \/
      fetch_bitcoin_price self requests_get = ([Parsing_error e], Ok ()) \/
      fetch_bitcoin_price self requests_get = ([Unexpected_error e], Ok ()))) \/
  (exists e, isinstance_Exception e = false /\
     fetch_bitcoin_price self requests_get = ([], Raise e)).
Proof.
  unfold fetch_bitcoin_price.
  destruct (try_body self requests_get) as [o | e] eqn:Hbody.
  - revert Hbody. unfold try_body.
    destruct (requests_get (api_url self)) as [resp | e]; [ | discriminate].
    cbn [mbind result_bind].
    destruct (status_code resp =? 200) eqn:Hstatus.
    + destruct (json resp) as [data | e]; [ | discriminate].
      cbn [mbind result_bind].
      destruct (getitem data "bpi") as [bpi | e]; [ | discriminate].
      cbn [mbind result_bind].
      destruct (getitem bpi "USD") as [usd | e]; [ | discriminate].
      cbn [mbind result_bind].
      destruct (getitem usd "rate_float") as [price | e]; [ | discriminate].
      intros [= <-]. left. eauto.
    + apply Z.eqb_neq in Hstatus. intros [= <-]. right. left. eauto.
  - destruct (isinstance_RequestException e) eqn:Hreq.
    { right. right. left. exists e. split; [ | auto].
      unfold isinstance_RequestException in Hreq. unfold isinstance_Exception.
      destruct (exn_class e); congruence. }
    destruct (isinstance_KeyError e) eqn:Hkey.
    { right. right. left. exists e. split; [ | auto].
      unfold isinstance_KeyError in Hkey. unfold isinstance_Exception.
      destruct (exn_class e); congruence. }
    destruct (isinstance_Exception e) eqn:Hexc.
    + right. right. left. exists e. auto.
    + right. right. right. exists e. auto.
Qed.

End Price_more.
